(** * Census distribution explorer: the presentation layer, embedded in Rocq

    The repository's JavaScript views are embedded shallowly, one Rocq
    module per view, each definition under the name of the JavaScript
    function it is translated from.

    Conventions of the embedding:
    - a JavaScript number that arrives in a JSON response is an exact
      rational ([Q]); the rounding error of IEEE doubles is not modelled,
      and a result that JavaScript would give as [NaN] or an infinity is
      [None] in an [option Q];
    - a property that may be missing from an object is an [option];
      [None] is JavaScript's [undefined];
    - a view returns [option]: [None] is the [null] a React component
      returns to render nothing;
    - reading a property of [undefined] raises a [TypeError], which is an
      explicit value of the [result] type;
    - a string is a sequence of bytes; on the ASCII category labels of the
      taxonomy its length is the JavaScript length. *)

From Stdlib Require Import List String Ascii Bool Arith ZArith QArith Qabs.
From Stdlib Require Import Decimal DecimalString.
From Stdlib Require Import Lia Lqa Permutation Sorted.
Import ListNotations.

Open Scope string_scope.
Open Scope list_scope.

(* ================================================================== *)
(** * Part I: the embedding *)
(* ================================================================== *)

(** ** JavaScript preliminaries *)
Module JS.

(** A computation that either yields a value or throws a [TypeError]
    (reading a property of [undefined] or [null], calling something that
    is not a function). *)
Inductive result (A : Type) : Type :=
| Ok (a : A)
| TypeError (msg : string).
Arguments Ok {A} a.
Arguments TypeError {A} msg.

Definition bind {A B : Type} (r : result A) (k : A -> result B) : result B :=
  match r with
  | Ok a => k a
  | TypeError msg => TypeError msg
  end.

(** [Array.prototype.map] with a callback that may throw: the first
    exception aborts the whole map. *)
Fixpoint mapM {A B : Type} (f : A -> result B) (l : list A) : result (list B) :=
  match l with
  | [] => Ok []
  | x :: xs =>
      bind (f x) (fun y => bind (mapM f xs) (fun ys => Ok (y :: ys)))
  end.

(** Truthiness of a number: [0] (and [NaN]) are falsy. *)
Definition truthyNum (q : Q) : bool := negb (Qeq_bool q 0).

(** Truthiness of a string: only the empty string is falsy. *)
Definition truthyStr (s : string) : bool := negb (s =? "").

(** [a || b] where [a] is a number or [undefined]. *)
Definition orNum (a : option Q) (b : Q) : Q :=
  match a with
  | Some q => if truthyNum q then q else b
  | None => b
  end.

(** [a || b] where both sides may be [undefined]. *)
Definition orElseNum (a b : option Q) : option Q :=
  match a with
  | Some q => if truthyNum q then Some q else b
  | None => b
  end.

(** [a || b] where [a] is a string or [undefined]. *)
Definition orStr (a : option string) (b : string) : string :=
  match a with
  | Some s => if truthyStr s then s else b
  | None => b
  end.

Definition orElseStr (a b : option string) : option string :=
  match a with
  | Some s => if truthyStr s then Some s else b
  | None => b
  end.

(** [a / b] on numbers: [None] stands for the [NaN] or infinity that a
    zero divisor produces. *)
Definition div (a b : Q) : option Q :=
  if Qeq_bool b 0 then None else Some (a / b).

(** [a > b] on numbers. *)
Definition gt (a b : Q) : bool := negb (Qle_bool a b).

(** [score >= bound] where [score] may be [undefined]: [undefined] is
    converted to [NaN], and every comparison with [NaN] is false. *)
Definition geq (score : option Q) (bound : Q) : bool :=
  match score with
  | Some q => Qle_bool bound q
  | None => false
  end.

(** [s.length > n ? s.substring(0, n) + '...' : s], the truncation the
    views apply to long category labels. *)
Definition ellipsis (n : nat) (s : string) : string :=
  if (n <? String.length s)%nat then String.substring 0 n s ++ "..." else s.

(** [s.replace(pattern, replacement)] with a string pattern: only the first
    occurrence is replaced.  (No replacement used by the views contains a
    [$] pattern.) *)
Fixpoint replace (pattern replacement s : string) : string :=
  if String.prefix pattern s
  then replacement ++ String.substring (String.length pattern) (String.length s) s
  else match s with
       | EmptyString => EmptyString
       | String c rest => String c (replace pattern replacement rest)
       end.

(** [table[key]] on an object literal used as a lookup table. *)
Fixpoint lookup {V : Type} (key : string) (table : list (string * V)) : option V :=
  match table with
  | [] => None
  | (k, v) :: rest => if k =? key then Some v else lookup key rest
  end.

(** An option read where JavaScript would read a property of the value:
    a missing value makes the read throw. *)
Definition required {A : Type} (what : string) (v : option A) : result A :=
  match v with
  | Some a => Ok a
  | None => TypeError ("Cannot read properties of undefined: " ++ what)
  end.

(** A value parsed from a JSON response, or [undefined].  The fields of an
    object are kept in the order [Object.entries] enumerates them. *)
#[warnings="-register-all"]
Inductive value : Type :=
| Undefined
| Null
| Bool (b : bool)
| Num (q : Q)
| Str (s : string)
| Arr (items : list value)
| Obj (fields : list (string * value)).


(** [v.key] for a data key of the response (none of the keys the views
    read is a built-in property): reading from [undefined] or [null]
    throws, an object yields the field or [undefined], any other value
    yields [undefined]. *)
Definition get (v : value) (key : string) : result value :=
  match v with
  | Undefined =>
      TypeError ("Cannot read properties of undefined (reading '" ++ key ++ "')")
  | Null =>
      TypeError ("Cannot read properties of null (reading '" ++ key ++ "')")
  | Obj fields =>
      match lookup key fields with
      | Some x => Ok x
      | None => Ok Undefined
      end
  | _ => Ok Undefined
  end.

(** The index keys ["0"], ["1"], ... of an array-like of the given length. *)
Definition indexKeys (n : nat) : list string :=
  map (fun i => NilZero.string_of_uint (Nat.to_uint i)) (seq 0 n).

(** [Object.entries(v)] *)
Definition entries (v : value) : result (list (string * value)) :=
  match v with
  | Undefined | Null => TypeError "Cannot convert undefined or null to object"
  | Obj fields => Ok fields
  | Arr items => Ok (combine (indexKeys (List.length items)) items)
  | Str s =>
      Ok (combine (indexKeys (String.length s))
                  (map (fun c => Str (String c EmptyString)) (list_ascii_of_string s)))
  | Bool _ | Num _ => Ok []
  end.

(** The field of an object, [undefined] where there is none: the value of
    [v?.key]. *)
Definition field (v : value) (key : string) : value :=
  match v with
  | Obj fields =>
      match lookup key fields with
      | Some x => x
      | None => Undefined
      end
  | _ => Undefined
  end.





(** A fold whose step may throw: [forEach] over an array with an
    accumulated object. *)
Fixpoint foldM {A B : Type} (f : A -> B -> result A) (l : list B) (acc : A)
  : result A :=
  match l with
  | [] => Ok acc
  | x :: xs => bind (f acc x) (fun acc' => foldM f xs acc')
  end.

(** [s.split(sep)] for a separator of one character: never empty, the
    empty string gives one empty part. *)
Fixpoint splitOn (sep : ascii) (s : string) : list string :=
  match s with
  | EmptyString => [EmptyString]
  | String c rest =>
      if Ascii.eqb c sep then EmptyString :: splitOn sep rest
      else match splitOn sep rest with
           | [] => [String c EmptyString]
           | first :: others => String c first :: others
           end
  end.

(** [parts.join(sep)] *)
Fixpoint joinWith (sep : string) (parts : list string) : string :=
  match parts with
  | [] => EmptyString
  | [part] => part
  | part :: rest => part ++ sep ++ joinWith sep rest
  end.

(** [s.replace(/c/g, d)] for single characters [c] and [d]. *)
Fixpoint replaceAllChar (c d : ascii) (s : string) : string :=
  match s with
  | EmptyString => EmptyString
  | String x rest =>
      String (if Ascii.eqb x c then d else x) (replaceAllChar c d rest)
  end.

(** [s.includes(sub)] *)
Fixpoint includes (sub s : string) : bool :=
  if String.prefix sub s then true
  else match s with
       | EmptyString => false
       | String _ rest => includes sub rest
       end.

(** The value of a decimal digit. *)
Definition digit (c : ascii) : option N :=
  let n := N_of_ascii c in
  if ((48 <=? n) && (n <=? 57))%N then Some (n - 48)%N else None.

Fixpoint digits (s : string) (acc : N) : option N :=
  match s with
  | EmptyString => Some acc
  | String c rest =>
      match digit c with
      | Some d => digits rest (acc * 10 + d)%N
      | None => None
      end
  end.

(** A property key that is an array index: the canonical decimal form of
    an integer up to 2^32 - 2.  Such keys are enumerated first. *)
Definition arrayIndex (key : string) : option N :=
  match key with
  | EmptyString => None
  | String c rest =>
      if Ascii.eqb c "0" && negb (rest =? "") then None
      else match digits key 0%N with
           | Some n => if (n <=? 4294967294)%N then Some n else None
           | None => None
           end
  end.

Fixpoint insertIndexed {V : Type} (n : N) (entry : string * V)
    (sorted : list (N * (string * V))) : list (N * (string * V)) :=
  match sorted with
  | [] => [(n, entry)]
  | (m, e) :: rest =>
      if (n <=? m)%N then (n, entry) :: (m, e) :: rest
      else (m, e) :: insertIndexed n entry rest
  end.

Fixpoint indexedEntries {V : Type} (fields : list (string * V))
  : list (N * (string * V)) :=
  match fields with
  | [] => []
  | (k, v) :: rest =>
      match arrayIndex k with
      | Some n => insertIndexed n (k, v) (indexedEntries rest)
      | None => indexedEntries rest
      end
  end.

(** [Object.entries(obj)] of an object built property by property, given
    its properties in creation order: array-index keys first, in ascending
    numeric order, then the other keys in creation order. *)
Definition ownEntries {V : Type} (fields : list (string * V))
  : list (string * V) :=
  map snd (indexedEntries fields) ++
  filter (fun entry => match arrayIndex (fst entry) with
                       | Some _ => false
                       | None => true
                       end) fields.

(** The property names every plain object inherits from
    [Object.prototype]: reading one of them from an object that has no
    own property of that name yields the inherited (truthy) value. *)
Definition objectPrototypeKeys : list string :=
  [ "constructor"; "hasOwnProperty"; "isPrototypeOf"; "propertyIsEnumerable";
    "toLocaleString"; "toString"; "valueOf"; "__defineGetter__";
    "__defineSetter__"; "__lookupGetter__"; "__lookupSetter__"; "__proto__" ].

Definition inherited (key : string) : bool :=
  existsb (String.eqb key) objectPrototypeKeys.

(** [Array.prototype.sort(compareFn)] for a comparator with numeric
    results, computed as the stable insertion sort (see [App.sort]). *)
Fixpoint insertNum {A : Type} (compareFn : A -> A -> Q) (x : A)
    (sorted : list A) : list A :=
  match sorted with
  | [] => [x]
  | y :: rest =>
      if Qle_bool (compareFn x y) 0 then x :: y :: rest
      else y :: insertNum compareFn x rest
  end.

Definition sortNum {A : Type} (compareFn : A -> A -> Q) (arr : list A)
  : list A :=
  fold_right (insertNum compareFn) [] arr.

End JS.

Notation "x <- c1 ;; c2" := (JS.bind c1 (fun x => c2))
  (at level 61, c1 at next level, right associativity).

(** ** src/frontend/src/StorewiseDemographics.js *)
Module StorewiseDemographics.

Definition DATA_TYPE_COLORS : list (string * string) :=
  [ ("Age", "#008a89"); ("Gender", "#f97316"); ("Education", "#319dff");
    ("Income", "#06b6d4"); ("Profession", "#8b5cf6");
    ("Race/Ethnicity", "#10b981") ].

(** One entry of a trade-area distribution. *)
Record Item : Type := { category : string; population : Q }.

(** [{...item, total: total, name: ...}]: the datum handed to the chart. *)
Record ChartDatum : Type := { item : Item; total : Q; name : string }.

(** What the charting library hands to the tooltip for one hovered datum:
    [payload[0].value] and [payload[0].payload.total]. *)
Record PayloadEntry : Type := { value : Q; payload_total : option Q }.

(** The charts plot [dataKey="population"], so the entry of a hovered datum
    carries its population as [value] and the datum itself as [payload]. *)
Definition payloadOf (d : ChartDatum) : list PayloadEntry :=
  [ {| value := population (item d); payload_total := Some (total d) |} ].

Record Tooltip : Type := {
  tip_label : string;
  tip_color : option string;
  tip_population : Q;
  tip_percentage : option Q
}.

(** [total > 0 ? ((value / total) * 100) : 0] *)
Definition percentageOf (value total : Q) : option Q :=
  if JS.gt total 0
  then option_map (fun ratio => ratio * 100) (JS.div value total)
  else Some 0.

Definition CustomTooltip (active : bool) (payload : option (list PayloadEntry))
    (label dataType : string) : option Tooltip :=
  match payload with
  | Some (data :: _) =>
      if active then
        let value := value data in
        let total := JS.orNum (payload_total data) 0 in
        let percentage := percentageOf value total in
        Some {| tip_label := label;
                tip_color := JS.lookup dataType DATA_TYPE_COLORS;
                tip_population := value;
                tip_percentage := percentage |}
      else None
  | _ => None
  end.

(** [data.reduce((sum, item) => sum + item.population, 0)] *)
Definition totalOf (data : list Item) : Q :=
  fold_left (fun sum item => sum + population item) data 0.

Definition chartDataOf (data : list Item) : list ChartDatum :=
  let total := totalOf data in
  map (fun item => {| item := item; total := total;
                      name := JS.ellipsis 20 (category item) |}) data.

Inductive Chart : Type :=
| PieChart (title : string) (color : option string) (total : Q)
           (chartData : list ChartDatum) (legend : list ChartDatum)
| BarChart (title : string) (color : option string) (total : Q)
           (chartData : list ChartDatum).

(** The data and the total a rendered chart shows. *)
Definition dataOf (chart : Chart) : list ChartDatum :=
  match chart with
  | PieChart _ _ _ chartData _ => chartData
  | BarChart _ _ _ chartData => chartData
  end.

Definition shownTotal (chart : Chart) : Q :=
  match chart with
  | PieChart _ _ total _ _ => total
  | BarChart _ _ total _ => total
  end.

(** [chartType] defaults to ['bar'] when the prop is not passed. *)
Definition DistributionChart (title : string) (data : option (list Item))
    (dataType : string) (chartType : option string) : option Chart :=
  match data with
  | None => None
  | Some [] => None
  | Some data =>
      let chartType := match chartType with Some t => t | None => "bar" end in
      let total := totalOf data in
      let chartData := chartDataOf data in
      let color := JS.lookup dataType DATA_TYPE_COLORS in
      if chartType =? "pie"
      then Some (PieChart title color total chartData (firstn 6 chartData))
      else Some (BarChart title color total chartData)
  end.

(** The percentage the tooltip shows for each datum of the chart, in
    chart order. *)
Definition percentages (dataType : string) (chartData : list ChartDatum)
  : list (option Q) :=
  map (fun d =>
         match CustomTooltip true (Some (payloadOf d)) (name d) dataType with
         | Some tip => tip_percentage tip
         | None => None
         end) chartData.

(** Sum of a list of numbers, [None] as soon as one of them is not finite. *)
Fixpoint sumNumbers (l : list (option Q)) : option Q :=
  match l with
  | [] => Some 0
  | x :: rest =>
      match x, sumNumbers rest with
      | Some q, Some s => Some (q + s)
      | _, _ => None
      end
  end.

(** The sum of the items' counts, by plain recursion. *)
Fixpoint sumCounts (data : list Item) : Q :=
  match data with
  | [] => 0
  | it :: rest => population it + sumCounts rest
  end.

(** The sum of a list of rationals. *)
Fixpoint sumQ (l : list Q) : Q :=
  match l with
  | [] => 0
  | q :: rest => q + sumQ rest
  end.

(** [getPieColors(dataType)]: the base colour of the data type (grey for
    an unknown type), four lighter shades of it, and six fixed greys. *)
Definition getPieColors (dataType : string) : list string :=
  let baseColor := JS.orStr (JS.lookup dataType DATA_TYPE_COLORS) "#6b7280" in
  [ baseColor; (baseColor ++ "CC")%string; (baseColor ++ "99")%string;
    (baseColor ++ "66")%string; (baseColor ++ "33")%string;
    "#e5e7eb"; "#d1d5db"; "#9ca3af"; "#6b7280"; "#4b5563"; "#374151" ].

(** The fill of the pie cell at [index]:
    [getPieColors(dataType)[index % getPieColors(dataType).length]];
    [None] is [undefined]. *)
Definition cellFill (dataType : string) (index : nat) : option string :=
  nth_error (getPieColors dataType)
            (index mod List.length (getPieColors dataType)).

(** The colour of the legend square at [index]:
    [getPieColors(dataType)[index]]. *)
Definition legendColor (dataType : string) (index : nat) : option string :=
  nth_error (getPieColors dataType) index.

(** The trade-area response: [properties] maps keys such as
    [Age_18_to_24] to counts; its entries are kept in the order
    [Object.entries] enumerates them. *)
Record RawData : Type := { properties : option (list (string * Q)) }.

(** [const [dataType, ...categoryParts] = key.split('_');
     const category = categoryParts.join('_').replace(/_/g, ' ');] *)
Definition parseKey (key : string) : string * string :=
  match JS.splitOn "_" key with
  | dataType :: categoryParts =>
      (dataType, JS.replaceAllChar "_" " " (JS.joinWith "_" categoryParts))
  | [] => (EmptyString, EmptyString)
  end.

(** [distributions[dataType].push(item)] on the group of [dataType],
    created empty when there is none. *)
Fixpoint pushInto (dataType : string) (it : Item)
    (distributions : list (string * list Item)) : list (string * list Item) :=
  match distributions with
  | [] => [(dataType, [it])]
  | (k, items) :: rest =>
      if k =? dataType then (k, items ++ [it]) :: rest
      else (k, items) :: pushInto dataType it rest
  end.

(** One step of the grouping loop.  [!distributions[dataType]] is false
    for a name inherited from [Object.prototype], so no array is created
    for it and the [push] that follows is a call of [undefined]. *)
Definition group (distributions : list (string * list Item))
    (entry : string * Q) : JS.result (list (string * list Item)) :=
  let '(key, population) := entry in
  let '(dataType, category) := parseKey key in
  let it := {| category := category; population := population |} in
  match JS.lookup dataType distributions with
  | Some _ => JS.Ok (pushInto dataType it distributions)
  | None =>
      if JS.inherited dataType
      then JS.TypeError "distributions[dataType].push is not a function"
      else JS.Ok (pushInto dataType it distributions)
  end.

(** The groups by data type, in creation order, each sorted by
    population, largest first. *)
Definition processStorewiseData (rawData : option RawData)
  : JS.result (list (string * list Item)) :=
  match rawData with
  | None => JS.Ok []
  | Some raw =>
      match properties raw with
      | None => JS.Ok []
      | Some props =>
          distributions <- JS.foldM group props [] ;;
          JS.Ok (map (fun g =>
                        (fst g,
                         JS.sortNum (fun a b => population b - population a)
                                    (snd g)))
                     distributions)
      end
  end.

(** [storewiseData ? processStorewiseData(storewiseData) : {}] *)
Definition processedData (storewiseData : option RawData)
  : JS.result (list (string * list Item)) :=
  match storewiseData with
  | Some _ => processStorewiseData storewiseData
  | None => JS.Ok []
  end.

(** [storewiseData ?
       Object.values(storewiseData.properties || {})
         .reduce((sum, pop) => sum + pop, 0) : 0] *)
Definition totalPopulation (storewiseData : option RawData) : Q :=
  match storewiseData with
  | Some raw =>
      fold_left (fun sum pop => sum + pop)
                (map snd (match properties raw with
                          | Some props => props
                          | None => []
                          end)) 0
  | None => 0
  end.

(** What a property entry contributes: its data type, and the item
    pushed to that type's group. *)
Definition dataTypeOf (entry : string * Q) : string := fst (parseKey (fst entry)).

Definition itemOf (entry : string * Q) : Item :=
  {| category := snd (parseKey (fst entry)); population := snd entry |}.

(** The items of one data type, in the order of the properties. *)
Definition itemsOf (dataType : string) (props : list (string * Q)) : list Item :=
  map itemOf (filter (fun entry => dataTypeOf entry =? dataType) props).

(** The group a lookup finds: none for a type without items. *)
Definition groupOf (items : list Item) : option (list Item) :=
  match items with
  | [] => None
  | _ => Some items
  end.

(** What the grouping loop keeps true: the groups have distinct keys,
    none of them an inherited name, and the group of a data type holds
    the items of that type seen so far, in their order. *)
Definition grouped (seen : list (string * Q)) (ds : list (string * list Item))
  : Prop :=
  NoDup (map fst ds) /\
  (forall k, In k (map fst ds) -> JS.inherited k = false) /\
  (forall k, JS.lookup k ds = groupOf (itemsOf k seen)).

(** The sum of the counts of all groups. *)
Definition groupsTotal (ds : list (string * list Item)) : Q :=
  sumQ (map (fun g => sumCounts (snd g)) ds).

Definition titleOf (chart : Chart) : string :=
  match chart with
  | PieChart title _ _ _ _ => title
  | BarChart title _ _ _ => title
  end.

(** The chart area: one [DistributionChart] per entry of the processed
    data, in the order [Object.entries] gives. *)
Definition distributionCharts (chartType : string)
    (processed : list (string * list Item)) : list (option Chart) :=
  map (fun entry =>
         let '(dataType, data) := entry in
         DistributionChart (dataType ++ " Distribution in Trade Area")%string
                           (Some data) dataType (Some chartType))
      (JS.ownEntries processed).

End StorewiseDemographics.

(** ** src/frontend/src/App.js *)
Module App.

(** One entry of a distribution as the API delivers it. *)
Record DataPoint : Type := {
  category : string;
  value : Q;
  percentage : option Q
}.

(** The rendered bar chart: its title, the bar colour, the plotted data
    and the tick labels of the category axis, one per datum. *)
Record BarChart : Type := {
  chart_title : string;
  chart_color : string;
  chart_data : list DataPoint;
  chart_ticks : list string
}.

Definition formatCategory (type category : string) : string :=
  if type =? "age" then
    JS.replace " and over" "+" (JS.replace " years" "" category)
  else if type =? "education" then
    JS.ellipsis 15 category
  else if type =? "income" then
    JS.replace " or more" "+"
      (JS.replace ",000" "K" (JS.replace "$" "" category))
  else category.

Record Tooltip : Type := {
  tip_label : string;
  tip_caption : string;
  tip_value : Q;
  tip_percentage : Q
}.

(** The tooltip of [DistributionChart]; [payload[0].payload] is the hovered
    datum and [payload[0].value] its plotted value.  A datum without a
    percentage makes [dataPoint.percentage.toFixed] throw. *)
Definition CustomTooltip (type : string) (active : bool)
    (payload : option (list DataPoint)) : JS.result (option Tooltip) :=
  match payload with
  | Some (dataPoint :: _) =>
      if active then
        match percentage dataPoint with
        | Some pct =>
            JS.Ok (Some {| tip_label := category dataPoint;
                           tip_caption := if type =? "income"
                                          then "Households" else "Population";
                           tip_value := value dataPoint;
                           tip_percentage := pct |})
        | None => JS.TypeError "Cannot read properties of undefined (reading 'toFixed')"
        end
      else JS.Ok None
  | _ => JS.Ok None
  end.

Definition DistributionChart (data : option (list DataPoint))
    (title color type : string) : option BarChart :=
  match data with
  | None => None
  | Some [] => None
  | Some data =>
      Some {| chart_title := title;
              chart_color := color;
              chart_data := data;
              chart_ticks := map (fun d => formatCategory type (category d)) data |}
  end.

(** [arr.indexOf(x)]: the first index holding [x], or [-1]. *)
Fixpoint indexOfFrom (i : Z) (arr : list string) (x : string) : Z :=
  match arr with
  | [] => (-1)%Z
  | y :: rest => if y =? x then i else indexOfFrom (i + 1)%Z rest x
  end.

Definition indexOf (arr : list string) (x : string) : Z := indexOfFrom 0%Z arr x.

(** [Array.prototype.sort(compareFn)].  The sort is stable, so for a
    comparator that orders by a key its result is determined whatever
    algorithm the engine runs; it is computed here by stable insertion:
    an element goes in front of the first later element it does not
    exceed. *)
Fixpoint insert {A : Type} (compareFn : A -> A -> Z) (x : A) (sorted : list A)
  : list A :=
  match sorted with
  | [] => [x]
  | y :: rest =>
      if (compareFn x y <=? 0)%Z then x :: y :: rest
      else y :: insert compareFn x rest
  end.

Definition sort {A : Type} (compareFn : A -> A -> Z) (arr : list A) : list A :=
  fold_right (insert compareFn) [] arr.

(** The joint age-income response: either marginal may be missing. *)
Record JointData : Type := {
  age_marginal : option (list DataPoint);
  income_marginal : option (list DataPoint)
}.

Definition ageOrder : list string :=
  [ "Under 25 years"; "25 to 44 years"; "45 to 64 years"; "65 years and over" ].

Definition incomeOrder : list string :=
  [ "Less than $10,000"; "$10,000 to $14,999"; "$15,000 to $19,999";
    "$20,000 to $24,999"; "$25,000 to $29,999"; "$30,000 to $34,999";
    "$35,000 to $39,999"; "$40,000 to $44,999"; "$45,000 to $49,999";
    "$50,000 to $59,999"; "$60,000 to $74,999"; "$75,000 to $99,999";
    "$100,000 to $124,999"; "$125,000 to $149,999";
    "$150,000 to $199,999"; "$200,000 or more" ].

(** The comparator both memoised sorts use: the difference of the
    categories' positions in the canonical order. *)
Definition byOrder (order : list string) (a b : DataPoint) : Z :=
  (indexOf order (category a) - indexOf order (category b))%Z.

(** [data?.age_marginal] is read through an optional chain: a missing
    [data] or a missing marginal gives the empty array. *)
Definition sortedAgeData (data : option JointData) : list DataPoint :=
  match data with
  | None => []
  | Some d =>
      match age_marginal d with
      | None => []
      | Some marginal => sort (byOrder ageOrder) marginal
      end
  end.

Definition sortedIncomeData (data : option JointData) : list DataPoint :=
  match data with
  | None => []
  | Some d =>
      match income_marginal d with
      | None => []
      | Some marginal => sort (byOrder incomeOrder) marginal
      end
  end.



(** *** The conditional controls of [AgeIncomeJointChart] *)

(** [data.age_marginal?.map(item => item.category) || []] and the same
    for the income marginal. *)
Definition optionsOf (marginal : option (list DataPoint)) : list string :=
  match marginal with
  | Some items => map category items
  | None => []
  end.

Definition ageOptions (data : JointData) : list string :=
  optionsOf (age_marginal data).

Definition incomeOptions (data : JointData) : list string :=
  optionsOf (income_marginal data).

(** The state of the controls ([useState]); [null] data is [JS.Null]. *)
Record Controls : Type := {
  conditionType : string;
  conditionValue : string;
  conditionalData : JS.value;
  loading : bool
}.

Definition initialControls : Controls :=
  {| conditionType := "age";
     conditionValue := "";
     conditionalData := JS.Null;
     loading := false |}.

(** The options of the value select: the placeholder, then the
    categories of the marginal of the condition type. *)
Definition valueOptions (data : JointData) (c : Controls) : list string :=
  "" :: (if conditionType c =? "age" then ageOptions data
         else incomeOptions data).

Record Location : Type := { lat : Q; lng : Q }.

(** The body [handleGetConditional] posts to [/conditional_distribution]. *)
Record ConditionalRequest : Type := {
  request_lat : Q;
  request_lng : Q;
  condition_type : string;
  condition_value : string
}.

(** What happens to the controls: the user picks a condition type or a
    value from the selects or clicks "Show Distribution", or the request
    posted last settles ([Some] the parsed body of an ok response,
    [None] for any failure). *)
Inductive ControlEvent : Type :=
| ChangeType (value : string)
| ChangeValue (value : string)
| ClickShow
| Settled (response : option JS.value).

(** The handler of an event, for the joint data and the location the
    component is given: the new state and the request posted, if any.
    A select only offers its options; the button is disabled without a
    value and while loading. *)
Definition control (data : JointData) (selectedLocation : option Location)
    (e : ControlEvent) (c : Controls)
  : Controls * list ConditionalRequest :=
  match e with
  | ChangeType value =>
      if existsb (String.eqb value) [ "age"; "income" ] then
        ({| conditionType := value;
            conditionValue := "";
            conditionalData := JS.Null;
            loading := loading c |}, [])
      else (c, [])
  | ChangeValue value =>
      if existsb (String.eqb value) (valueOptions data c) then
        ({| conditionType := conditionType c;
            conditionValue := value;
            conditionalData := conditionalData c;
            loading := loading c |}, [])
      else (c, [])
  | ClickShow =>
      if negb (JS.truthyStr (conditionValue c)) || loading c then (c, [])
      else
        match selectedLocation with
        | None => (c, [])
        | Some location =>
            ({| conditionType := conditionType c;
                conditionValue := conditionValue c;
                conditionalData := conditionalData c;
                loading := true |},
             [ {| request_lat := lat location;
                  request_lng := lng location;
                  condition_type := conditionType c;
                  condition_value := conditionValue c |} ])
        end
  | Settled response =>
      if loading c then
        ({| conditionType := conditionType c;
            conditionValue := conditionValue c;
            conditionalData :=
              match response with
              | Some result =>
                  match JS.get result "conditional_distribution" with
                  | JS.Ok distribution => distribution
                  | JS.TypeError _ => JS.Null
                  end
              | None => JS.Null
              end;
            loading := false |}, [])
      else (c, [])
  end.

(** The events handled one after the other; the requests in the order
    they are posted. *)
Fixpoint controls (data : JointData) (selectedLocation : option Location)
    (events : list ControlEvent) (c : Controls)
  : Controls * list ConditionalRequest :=
  match events with
  | [] => (c, [])
  | e :: rest =>
      let '(c1, requests1) := control data selectedLocation e c in
      let '(c2, requests2) := controls data selectedLocation rest c1 in
      (c2, requests1 ++ requests2)
  end.

(** What the controls keep true: the condition type is one of the two,
    and the value is one the value select offers for it. *)
Definition offered (data : JointData) (c : Controls) : Prop :=
  In (conditionType c) [ "age"; "income" ] /\
  In (conditionValue c) (valueOptions data c).

(** A request that conditions on a category of the marginal it names. *)
Definition wellPaired (data : JointData) (r : ConditionalRequest) : Prop :=
  condition_value r <> "" /\
  ((condition_type r = "age" /\ In (condition_value r) (ageOptions data)) \/
   (condition_type r = "income" /\
    In (condition_value r) (incomeOptions data))).

End App.

(** ** src/frontend/src/IndividualDistributions.js *)
Module IndividualDistributions.

Record DataPoint : Type := {
  category : string;
  value : Q;
  percentage : option Q
}.

Record BarChart : Type := {
  chart_title : string;
  chart_color : string;
  chart_data : list DataPoint;
  chart_ticks : list string
}.

Definition formatCategory (type category : string) : string :=
  if type =? "age" then
    JS.replace " and over" "+" (JS.replace " years" "" category)
  else if type =? "education" then
    JS.ellipsis 15 category
  else if type =? "income" then
    JS.replace " or more" "+"
      (JS.replace ",000" "K" (JS.replace "$" "" category))
  else if type =? "profession" then
    JS.ellipsis 20 category
  else category.

Record Tooltip : Type := {
  tip_label : string;
  tip_count : Q;
  tip_percentage : option Q
}.

(** Here the percentage is read through [?.]: a datum without one shows
    no number instead of throwing. *)
Definition CustomTooltip (active : bool) (payload : option (list DataPoint))
  : option Tooltip :=
  match payload with
  | Some (dataPoint :: _) =>
      if active then
        Some {| tip_label := category dataPoint;
                tip_count := value dataPoint;
                tip_percentage := percentage dataPoint |}
      else None
  | _ => None
  end.

Definition DistributionChart (data : option (list DataPoint))
    (title color type : string) : option BarChart :=
  match data with
  | None => None
  | Some [] => None
  | Some data =>
      Some {| chart_title := title;
              chart_color := color;
              chart_data := data;
              chart_ticks := map (fun d => formatCategory type (category d)) data |}
  end.

End IndividualDistributions.

(** ** src/frontend/src/App.js, last document: the unified distribution
    view ([UnifiedDistributionChart] and its sort helper) *)
Module UnifiedDistributionSystem.

Record DataPoint : Type := {
  category : string;
  value : Q;
  percentage : option Q
}.

Record BarChart : Type := {
  chart_title : string;
  chart_color : string;
  chart_data : list DataPoint;
  chart_ticks : list string
}.

(** The category orders, by distribution type. *)
Definition CONDITIONAL_OPTIONS : list (string * list string) :=
  [
    ("age",
     [ "Under 5 years"; "5 to 9 years"; "10 to 14 years";
       "15 to 17 years"; "18 and 19 years"; "20 to 24 years";
       "25 to 29 years"; "30 to 34 years"; "35 to 44 years";
       "45 to 54 years"; "55 to 64 years"; "65 to 74 years";
       "75 to 84 years"; "85 years and over"; "Under 25 years";
       "25 to 44 years"; "45 to 64 years"; "65 years and over" ]);
    ("income",
     [ "$1 to $2,499 or loss"; "$2,500 to $4,999"; "$5,000 to $7,499";
       "$7,500 to $9,999"; "$10,000 to $12,499"; "$12,500 to $14,999";
       "$15,000 to $17,499"; "$17,500 to $19,999"; "$20,000 to $22,499";
       "$22,500 to $24,999"; "$25,000 to $29,999"; "$30,000 to $34,999";
       "$35,000 to $39,999"; "$40,000 to $44,999"; "$45,000 to $49,999";
       "$50,000 to $54,999"; "$55,000 to $64,999"; "$65,000 to $74,999";
       "$75,000 to $99,999"; "$100,000 or more"; "Less than $10,000";
       "$10,000 to $14,999"; "$15,000 to $19,999"; "$20,000 to $24,999";
       "$25,000 to $29,999"; "$30,000 to $34,999"; "$35,000 to $39,999";
       "$40,000 to $44,999"; "$45,000 to $49,999"; "$50,000 to $59,999";
       "$60,000 to $74,999"; "$75,000 to $99,999";
       "$100,000 to $124,999"; "$125,000 to $149,999";
       "$150,000 to $199,999"; "$200,000 or more" ]);
    ("gender",
     [ "Male"; "Female" ]);
    ("education",
     [ "Less than 9th grade"; "9th to 12th grade, no diploma";
       "High school graduate"; "Some college, no degree";
       "Associate's degree"; "Bachelor's degree";
       "Graduate or professional degree" ]);
    ("profession",
     [ "Management, business, science, and arts occupations";
       "Service occupations"; "Sales and office occupations";
       "Natural resources, construction, and maintenance occupations";
       "Production, transportation, and material moving occupations" ]);
    ("race_ethnicity",
     [ "White Alone"; "Black or African American Alone";
       "American Indian and Alaska Native Alone"; "Asian Alone";
       "Native Hawaiian and Other Pacific Islander Alone";
       "Some Other Race Alone"; "Two or More Races";
       "Hispanic or Latino" ]);
    ("race",
     [ "White Alone"; "Black or African American Alone";
       "American Indian and Alaska Native Alone"; "Asian Alone";
       "Native Hawaiian and Other Pacific Islander Alone";
       "Some Other Race Alone"; "Two or More Races";
       "Hispanic or Latino" ]) ].

(** The comparator of [sortDistributionData]: categories missing from the
    order go to the end, the others by position. *)
Definition compareByOrder (sortOrder : list string) (a b : DataPoint) : Z :=
  let indexA := App.indexOf sortOrder (category a) in
  let indexB := App.indexOf sortOrder (category b) in
  if ((indexA =? -1) && (indexB =? -1))%Z then 0%Z
  else if (indexA =? -1)%Z then 1%Z
  else if (indexB =? -1)%Z then (-1)%Z
  else (indexA - indexB)%Z.

(** [sortDistributionData(data, distributionType)] on an array.  A type
    without an order leaves the data as it is.  For a type that is a
    name inherited from [Object.prototype],
    [CONDITIONAL_OPTIONS[distributionType]] is the inherited value, which
    is truthy and has no [indexOf]: the comparator throws, as soon as the
    sort calls it, that is, on an array of two elements or more. *)
Definition sortDistributionData (data : list DataPoint)
    (distributionType : string) : JS.result (list DataPoint) :=
  match data with
  | [] => JS.Ok data
  | _ =>
      match JS.lookup distributionType CONDITIONAL_OPTIONS with
      | Some sortOrder => JS.Ok (App.sort (compareByOrder sortOrder) data)
      | None =>
          if JS.inherited distributionType then
            match data with
            | _ :: _ :: _ => JS.TypeError "sortOrder.indexOf is not a function"
            | _ => JS.Ok data
            end
          else JS.Ok data
      end
  end.

Definition formatCategory (type category : string) : string :=
  if type =? "age" then
    JS.replace " and over" "+" (JS.replace " years" "" category)
  else if type =? "education" then
    JS.ellipsis 15 category
  else if type =? "income" then
    JS.replace " or more" "+"
      (JS.replace ",000" "K" (JS.replace "$" "" category))
  else if type =? "profession" then
    JS.ellipsis 20 category
  else category.


End UnifiedDistributionSystem.

(** ** The analysis response, as the unified analysis views read it *)
Module Analysis.

(** An entry of [conditional_distribution.data]. *)
Record Item : Type := { category : string; percentage : Q }.

(** [{...item, name: item.category}] *)
Record ChartDatum : Type := { item : Item; name : string }.

Record ConditionalDistribution : Type := { data : option (list Item) }.

(** A per-table outcome.  [props] holds its string-valued properties
    other than the status ([name], [error], [data_source], the
    [matched_*] and [*_explanation] properties), by key. *)
Record Outcome : Type := {
  status : string;
  props : list (string * string);
  similarity_score : option Q;
  overlap_score : option Q;
  total_population : option Q;
  conditional_distribution : option ConditionalDistribution
}.

(** [distributionData[key]] for a string-valued property. *)
Definition prop (d : Outcome) (key : string) : option string :=
  JS.lookup key (props d).

(** The quality badge: [{ text, color }]. *)
Record Indicator : Type := { text : string; color : string }.

(** The panel of a successful outcome, by its data-dependent content. *)
Record ChartPanel : Type := {
  cp_key : string;
  cp_title : option string;
  cp_indicator : Indicator;
  cp_statusColor : string;
  cp_statusText : string;
  cp_requested : option string;
  cp_matched : option string;
  cp_explanation : option string;
  cp_population : Q;
  cp_categories : nat;
  cp_chartData : list ChartDatum;
  cp_source : string
}.

(** The panel of a failed outcome; [fp_bestMatch] is the line
    "Best match found: ..." when the view shows one. *)
Record FailedPanel : Type := {
  fp_key : string;
  fp_title : option string;
  fp_statusColor : string;
  fp_statusText : string;
  fp_error : string;
  fp_bestMatch : option string
}.

Inductive Panel : Type :=
| Chart (panel : ChartPanel)
| Failed (panel : FailedPanel).


(** The four statuses of a per-table outcome. *)
Definition statuses : list string := [ "success"; "no_data"; "no_match"; "error" ].

(** The colours of the quality badges, from the lowest tier to the
    highest. *)
Definition tierColours : list string :=
  [ "#ef4444"; "#f59e0b"; "#fbbf24"; "#059669"; "#10b981" ].


(** What differs between the analysis views in the panel of an
    outcome: the status badge, the quality badge, the requested and the
    matched value, the explanation, and the best-match line of a failed
    outcome. *)
Record View : Type := {
  view_statusColor : string -> string;
  view_statusText : string -> string;
  view_indicator : Outcome -> Indicator;
  view_requested : option string;
  view_matched : Outcome -> option string;
  view_explanation : Outcome -> option string;
  view_bestMatch : Outcome -> option string
}.


End Analysis.

(** ** src/frontend/src/UnifiedDemographicAnalysis.js

    Styling that does not depend on the response is left out of the
    panels. *)
Module UnifiedDemographicAnalysis.
Import Analysis.

(** The keys of [UNIFIED_ANALYSIS_TYPES]; [selectedAnalysisType] is only
    ever set to one of them. *)
Inductive AnalysisType : Type :=
| age | education | income | gender | profession | race.

Definition typeKey (t : AnalysisType) : string :=
  match t with
  | age => "age" | education => "education" | income => "income"
  | gender => "gender" | profession => "profession" | race => "race"
  end.

Definition getStatusColor (status : string) : string :=
  if status =? "success" then "#10b981"
  else if status =? "no_data" then "#6b7280"
  else if status =? "no_match" then "#f59e0b"
  else if status =? "error" then "#ef4444"
  else "#6b7280".

Definition getStatusText (status : string) : string :=
  if status =? "success" then "✓ Available"
  else if status =? "no_data" then "⚠ No Data"
  else if status =? "no_match" then "⚠ No Match"
  else if status =? "error" then "✗ Error"
  else "? Unknown".

Definition getSimilarityIndicator (score : option Q) : Indicator :=
  if JS.geq score 0.95 then {| text := "Perfect Match"; color := "#10b981" |}
  else if JS.geq score 0.8 then {| text := "Very Good"; color := "#059669" |}
  else if JS.geq score 0.5 then {| text := "Good Match"; color := "#fbbf24" |}
  else if JS.geq score 0.3 then {| text := "Partial"; color := "#f59e0b" |}
  else {| text := "Limited"; color := "#ef4444" |}.

(** [similarity_score || overlap_score || 1.0] *)
Definition scoreOf (distributionData : Outcome) : Q :=
  JS.orNum (JS.orElseNum (similarity_score distributionData)
                         (overlap_score distributionData)) 1.

(** [target] is [analysisData[`target_${selectedAnalysisType}`]]. *)
Definition renderDistributionChart (selectedAnalysisType : AnalysisType)
    (selectedValue : string) (target : option string)
    (distributionKey : string) (distributionData : Outcome)
  : JS.result (option Panel) :=
  if negb (status distributionData =? "success") then JS.Ok None else
  (cd <- JS.required "conditional_distribution"
           (conditional_distribution distributionData) ;;
   items <- JS.required "data" (data cd) ;;
   let chartData :=
     map (fun item => {| item := item; name := category item |}) items in
   let score := scoreOf distributionData in
   let indicator := getSimilarityIndicator (Some score) in
   let t := typeKey selectedAnalysisType in
   let matched :=
     JS.orStr
       (JS.orElseStr
          (JS.orElseStr
             (JS.orElseStr
                (JS.orElseStr (prop distributionData ("matched_" ++ t))
                              (prop distributionData "matched_gender"))
                (prop distributionData "matched_income"))
             (prop distributionData "matched_education"))
          (prop distributionData "matched_age_range"))
       "Unknown" in
   let explanation :=
     JS.orStr
       (JS.orElseStr
          (JS.orElseStr
             (JS.orElseStr
                (JS.orElseStr (prop distributionData (t ++ "_explanation"))
                              (prop distributionData "gender_explanation"))
                (prop distributionData "income_explanation"))
             (prop distributionData "education_explanation"))
          (prop distributionData "range_explanation"))
       "Matched" in
   population <- JS.required "toLocaleString"
                   (total_population distributionData) ;;
   JS.Ok (Some (Chart
     {| cp_key := distributionKey;
        cp_title := prop distributionData "name";
        cp_indicator := indicator;
        cp_statusColor := getStatusColor (status distributionData);
        cp_statusText := getStatusText (status distributionData);
        cp_requested := Some (JS.orStr target selectedValue);
        cp_matched := Some matched;
        cp_explanation := Some explanation;
        cp_population := population;
        cp_categories := List.length chartData;
        cp_chartData := chartData;
        cp_source := JS.orStr (prop distributionData "data_source") "Unknown" |}))).

Definition renderFailedDistribution (distributionKey : string)
    (distributionData : Outcome) : Panel :=
  Failed
    {| fp_key := distributionKey;
       fp_title := prop distributionData "name";
       fp_statusColor := getStatusColor (status distributionData);
       fp_statusText := getStatusText (status distributionData);
       fp_error := JS.orStr (prop distributionData "error")
                            "Unable to retrieve data";
       fp_bestMatch := None |}.

(** [Object.entries(analysisData.distributions).map(([key, data]) => ...)]:
    the children of the chart area, [None] being a [null] child. *)
Definition renderDistributions (selectedAnalysisType : AnalysisType)
    (selectedValue : string) (target : option string)
    (distributions : list (string * Outcome))
  : JS.result (list (option Panel)) :=
  JS.mapM (fun entry =>
             let '(key, data) := entry in
             if status data =? "success"
             then renderDistributionChart selectedAnalysisType selectedValue
                    target key data
             else JS.Ok (Some (renderFailedDistribution key data)))
          distributions.






(** What the chart and failure panels of this view show of an outcome:
    the expressions of [renderDistributionChart] and
    [renderFailedDistribution]. *)
Definition shown (selectedAnalysisType : AnalysisType) (selectedValue : string)
    (target : option string) : View :=
  let t := typeKey selectedAnalysisType in
  {| view_statusColor := getStatusColor;
     view_statusText := getStatusText;
     view_indicator := fun d => getSimilarityIndicator (Some (scoreOf d));
     view_requested := Some (JS.orStr target selectedValue);
     view_matched := fun d =>
       Some (JS.orStr
               (JS.orElseStr
                  (JS.orElseStr
                     (JS.orElseStr
                        (JS.orElseStr (prop d ("matched_" ++ t))
                                      (prop d "matched_gender"))
                        (prop d "matched_income"))
                     (prop d "matched_education"))
                  (prop d "matched_age_range"))
               "Unknown");
     view_explanation := fun d =>
       Some (JS.orStr
               (JS.orElseStr
                  (JS.orElseStr
                     (JS.orElseStr
                        (JS.orElseStr (prop d (t ++ "_explanation"))
                                      (prop d "gender_explanation"))
                        (prop d "income_explanation"))
                     (prop d "education_explanation"))
                  (prop d "range_explanation"))
               "Matched");
     view_bestMatch := fun _ => None |}.

(** *** The selection state, its handlers and effects

    [UNIFIED_ANALYSIS_TYPES[t].options], [.endpoint] and [.paramKey]: *)
Definition options (t : AnalysisType) : list string :=
  match t with
  | age =>
      [ "Under 5 years"; "5 to 9 years"; "10 to 14 years";
        "15 to 17 years"; "18 to 24 years"; "25 to 34 years";
        "35 to 44 years"; "45 to 64 years"; "65 years and over";
        "Under 18 years"; "18 to 34 years" ]
  | education =>
      [ "Less than 9th grade"; "9th to 12th grade, no diploma";
        "High school graduate"; "Some college, no degree";
        "Associate's degree"; "Bachelor's degree";
        "Graduate or professional degree" ]
  | income =>
      [ "$25,000 to $29,999"; "$30,000 to $34,999";
        "$35,000 to $39,999"; "$45,000 to $49,999";
        "$50,000 to $59,999"; "$60,000 to $74,999";
        "$75,000 to $99,999"; "$100,000 to $124,999";
        "$150,000 to $199,999" ]
  | gender =>
      [ "Male"; "Female" ]
  | profession =>
      [ "Management, business, science, and arts occupations";
        "Service occupations"; "Sales and office occupations";
        "Natural resources, construction, and maintenance occupations";
        "Production, transportation, and material moving occupations";
        "Management, business, and financial occupations";
        "Professional and related occupations";
        "Healthcare practitioners and technical occupations" ]
  | race =>
      [ "White alone"; "Black or African American alone";
        "Asian alone"; "American Indian and Alaska Native alone";
        "Native Hawaiian and Other Pacific Islander alone";
        "Hispanic or Latino"; "Two or more races";
        "White alone, not Hispanic or Latino" ]
  end.

Definition endpoint (t : AnalysisType) : string :=
  match t with
  | age => "/unified_age_analysis"
  | education => "/unified_education_analysis"
  | income => "/unified_income_analysis"
  | gender => "/unified_gender_analysis"
  | profession => "/unified_profession_analysis"
  | race => "/unified_race_analysis"
  end.

Definition paramKey (t : AnalysisType) : string :=
  match t with
  | age => "age_range"
  | education => "education_level"
  | income => "income_range"
  | gender => "gender"
  | profession => "profession"
  | race => "race"
  end.

(** The part of the component state ([useState]) that the selection
    handlers and the effects read and write.  [loading] and [error] are
    written by the fetch only and read by no handler or effect. *)
Record State : Type := {
  selectedAnalysisType : AnalysisType;
  selectedValue : string;
  analysisData : option JS.value;
  customValue : string;
  showCustomInput : bool
}.

Definition initialState : State :=
  {| selectedAnalysisType := age;
     selectedValue := "25 to 34 years";
     analysisData := None;
     customValue := "";
     showCustomInput := false |}.

(** The effect on [[selectedAnalysisType]]: the first option of the type
    becomes the selected value and the analysis shown is dropped. *)
Definition typeChangeEffect (s : State) : State :=
  {| selectedAnalysisType := selectedAnalysisType s;
     selectedValue := match options (selectedAnalysisType s) with
                      | first :: _ => first
                      | [] => selectedValue s
                      end;
     analysisData := None;
     customValue := customValue s;
     showCustomInput := showCustomInput s |}.

(** [handleCustomValueSubmit]; [trim] is [String.prototype.trim]. *)
Definition handleCustomValueSubmit (trim : string -> string) (s : State)
  : State :=
  if JS.truthyStr (trim (customValue s)) then
    {| selectedAnalysisType := selectedAnalysisType s;
       selectedValue := trim (customValue s);
       analysisData := analysisData s;
       customValue := "";
       showCustomInput := false |}
  else s.

(** What the user can do: click an analysis type, click one of the option
    buttons of the selected type, toggle the custom input, type into it,
    and press "Analyze". *)
Inductive Event : Type :=
| ClickType (key : AnalysisType)
| ClickOption (option : string)
| ToggleCustom
| ChangeCustom (text : string)
| SubmitCustom.

(** The state update of an event's handler.  The option buttons are those
    of [analysisConfig.options]; the input and the "Analyze" button exist
    while [showCustomInput] holds, and the button is disabled (and the
    handler guarded) while the trimmed text is empty. *)
Definition handle (trim : string -> string) (e : Event) (s : State) : State :=
  match e with
  | ClickType key =>
      {| selectedAnalysisType := key;
         selectedValue := selectedValue s;
         analysisData := analysisData s;
         customValue := customValue s;
         showCustomInput := showCustomInput s |}
  | ClickOption option =>
      if existsb (String.eqb option) (options (selectedAnalysisType s)) then
        {| selectedAnalysisType := selectedAnalysisType s;
           selectedValue := option;
           analysisData := analysisData s;
           customValue := customValue s;
           showCustomInput := showCustomInput s |}
      else s
  | ToggleCustom =>
      {| selectedAnalysisType := selectedAnalysisType s;
         selectedValue := selectedValue s;
         analysisData := analysisData s;
         customValue := customValue s;
         showCustomInput := negb (showCustomInput s) |}
  | ChangeCustom text =>
      if showCustomInput s then
        {| selectedAnalysisType := selectedAnalysisType s;
           selectedValue := selectedValue s;
           analysisData := analysisData s;
           customValue := text;
           showCustomInput := showCustomInput s |}
      else s
  | SubmitCustom =>
      if showCustomInput s then handleCustomValueSubmit trim s else s
  end.

Record Location : Type := { lat : Q; lng : Q }.

(** The request [fetchUnifiedAnalysis] posts. *)
Record Request : Type := {
  url : string;
  body : list (string * JS.value)
}.

(** The effect on [[selectedLocation, selectedAnalysisType,
    selectedValue]]: with a location and a non-empty value, the analysis
    of the selected type is requested for the selected value, both as the
    render that scheduled the effect has them. *)
Definition fetchEffect (selectedLocation : option Location) (s : State)
  : list Request :=
  match selectedLocation with
  | Some location =>
      if JS.truthyStr (selectedValue s) then
        [ {| url := "http://localhost:5001" ++ endpoint (selectedAnalysisType s);
             body := [ ("lat", JS.Num (lat location));
                       ("lng", JS.Num (lng location));
                       (paramKey (selectedAnalysisType s),
                        JS.Str (selectedValue s)) ] |} ]
      else []
  | None => []
  end.

(** One commit of the component rendered with state [s], after a commit
    with state [prev] ([None] for the first render): the effects whose
    dependencies changed run in the order they are declared, each with
    the state of this render; the state updates they make take effect in
    the next render.  The location is the same in both renders. *)
Definition commit (selectedLocation : option Location) (prev : option State)
    (s : State) : State * list Request :=
  let typeChanged :=
    match prev with
    | None => true
    | Some p => negb (typeKey (selectedAnalysisType p)
                      =? typeKey (selectedAnalysisType s))
    end in
  let valueChanged :=
    match prev with
    | None => true
    | Some p => negb (selectedValue p =? selectedValue s)
    end in
  (if typeChanged then typeChangeEffect s else s,
   if typeChanged || valueChanged then fetchEffect selectedLocation s else []).

(** The commits that follow a render with state [s]: its own, and the
    one of the render its effects' updates cause.  That second commit
    updates no state (the analysis type is the same in both renders), so
    no third one follows. *)
Definition settle (selectedLocation : option Location) (prev : option State)
    (s : State) : State * list Request :=
  let '(s1, requests1) := commit selectedLocation prev s in
  let '(s2, requests2) := commit selectedLocation (Some s) s1 in
  (s2, requests1 ++ requests2).

(** Mounting the component, and handling one event in a settled state:
    the state reached and the requests posted on the way. *)
Definition mount (selectedLocation : option Location) : State * list Request :=
  settle selectedLocation None initialState.

Definition step (trim : string -> string) (selectedLocation : option Location)
    (e : Event) (s : State) : State * list Request :=
  settle selectedLocation (Some s) (handle trim e s).

(** A session: the events handled one after the other, from the mounted
    component on; the requests are listed in the order they are posted. *)
Fixpoint run (trim : string -> string) (selectedLocation : option Location)
    (events : list Event) (s : State) : State * list Request :=
  match events with
  | [] => (s, [])
  | e :: rest =>
      let '(s1, requests1) := step trim selectedLocation e s in
      let '(s2, requests2) := run trim selectedLocation rest s1 in
      (s2, requests1 ++ requests2)
  end.

Definition session (trim : string -> string) (selectedLocation : option Location)
    (events : list Event) : State * list Request :=
  let '(s0, requests0) := mount selectedLocation in
  let '(s, requests) := run trim selectedLocation events s0 in
  (s, requests0 ++ requests).

(** What a session keeps true: the selected value is not empty, and the
    last request posted is the one for the selection. *)
Definition followed (location : Location) (s : State)
    (requests : list Request) : Prop :=
  selectedValue s <> "" /\
  exists earlier,
    requests
    = earlier ++
      [ {| url := "http://localhost:5001" ++ endpoint (selectedAnalysisType s);
           body := [ ("lat", JS.Num (lat location));
                     ("lng", JS.Num (lng location));
                     (paramKey (selectedAnalysisType s),
                      JS.Str (selectedValue s)) ] |} ].

End UnifiedDemographicAnalysis.

(** ** src/unnamed/part_001: the education analysis view
    ([UnifiedEducationAnalysis]) *)
Module UnifiedEducationAnalysis.
Import Analysis.

Definition getStatusColor (status : string) : string :=
  if status =? "success" then "#10b981"
  else if status =? "no_data" then "#6b7280"
  else if status =? "no_match" then "#f59e0b"
  else if status =? "error" then "#ef4444"
  else "#6b7280".

Definition getStatusText (status : string) : string :=
  if status =? "success" then "✓ Available"
  else if status =? "no_data" then "⚠ No Data"
  else if status =? "no_match" then "⚠ No Match"
  else if status =? "error" then "✗ Error"
  else "? Unknown".

Definition getSimilarityIndicator (score : option Q) : Indicator :=
  if JS.geq score 0.95 then {| text := "Perfect Match"; color := "#10b981" |}
  else if JS.geq score 0.8 then {| text := "Very Good Match"; color := "#059669" |}
  else if JS.geq score 0.6 then {| text := "Good Match"; color := "#fbbf24" |}
  else if JS.geq score 0.4 then {| text := "Moderate Match"; color := "#f59e0b" |}
  else {| text := "Limited Match"; color := "#ef4444" |}.

(** [target_education] is [analysisData.target_education]. *)
Definition renderDistributionChart (target_education : option string)
    (distributionKey : string) (distributionData : Outcome)
  : JS.result (option Panel) :=
  if negb (status distributionData =? "success") then JS.Ok None else
  (cd <- JS.required "conditional_distribution"
           (conditional_distribution distributionData) ;;
   items <- JS.required "data" (data cd) ;;
   let chartData :=
     map (fun item => {| item := item; name := category item |}) items in
   let similarity :=
     getSimilarityIndicator (similarity_score distributionData) in
   population <- JS.required "toLocaleString"
                   (total_population distributionData) ;;
   JS.Ok (Some (Chart
     {| cp_key := distributionKey;
        cp_title := prop distributionData "name";
        cp_indicator := similarity;
        cp_statusColor := getStatusColor (status distributionData);
        cp_statusText := getStatusText (status distributionData);
        cp_requested := target_education;
        cp_matched := prop distributionData "matched_education";
        cp_explanation := prop distributionData "education_explanation";
        cp_population := population;
        cp_categories := List.length chartData;
        cp_chartData := chartData;
        cp_source := JS.orStr (prop distributionData "data_source") "Unknown" |}))).

(** [matched_education && (<div>Best match found: ...</div>)]: the line is
    shown for a non-empty matched category. *)
Definition renderFailedDistribution (distributionKey : string)
    (distributionData : Outcome) : Panel :=
  Failed
    {| fp_key := distributionKey;
       fp_title := prop distributionData "name";
       fp_statusColor := getStatusColor (status distributionData);
       fp_statusText := getStatusText (status distributionData);
       fp_error := JS.orStr (prop distributionData "error")
                            "Unable to retrieve data";
       fp_bestMatch :=
         match prop distributionData "matched_education" with
         | Some matched => if JS.truthyStr matched then Some matched else None
         | None => None
         end |}.

Definition renderDistributions (target_education : option string)
    (distributions : list (string * Outcome))
  : JS.result (list (option Panel)) :=
  JS.mapM (fun entry =>
             let '(key, data) := entry in
             if status data =? "success"
             then renderDistributionChart target_education key data
             else JS.Ok (Some (renderFailedDistribution key data)))
          distributions.

(** What the chart and failure panels of this view show of an outcome. *)
Definition shown (target_education : option string) : View :=
  {| view_statusColor := getStatusColor;
     view_statusText := getStatusText;
     view_indicator := fun d => getSimilarityIndicator (similarity_score d);
     view_requested := target_education;
     view_matched := fun d => prop d "matched_education";
     view_explanation := fun d => prop d "education_explanation";
     view_bestMatch := fun d =>
       match prop d "matched_education" with
       | Some matched => if JS.truthyStr matched then Some matched else None
       | None => None
       end |}.

End UnifiedEducationAnalysis.

(** ** src/unnamed/part_002: the income analysis view
    ([UnifiedIncomeAnalysis]) *)
Module UnifiedIncomeAnalysis.
Import Analysis.

Definition getOverlapIndicator (score : option Q) : Indicator :=
  if JS.geq score 0.95 then {| text := "Perfect Match"; color := "#10b981" |}
  else if JS.geq score 0.8 then {| text := "Very Good Match"; color := "#059669" |}
  else if JS.geq score 0.5 then {| text := "Good Match"; color := "#fbbf24" |}
  else if JS.geq score 0.3 then {| text := "Partial Match"; color := "#f59e0b" |}
  else {| text := "Limited Match"; color := "#ef4444" |}.

Definition getStatusColor (status : string) : string :=
  if status =? "success" then "#10b981"
  else if status =? "no_data" then "#6b7280"
  else if status =? "no_match" then "#f59e0b"
  else if status =? "error" then "#ef4444"
  else "#6b7280".

Definition getStatusText (status : string) : string :=
  if status =? "success" then "✓ Available"
  else if status =? "no_data" then "⚠ No Data"
  else if status =? "no_match" then "⚠ No Match"
  else if status =? "error" then "✗ Error"
  else "? Unknown".

End UnifiedIncomeAnalysis.

(** ** src/unnamed/part_001, second document: the age analysis view
    ([UnifiedAgeAnalysis]) *)
Module UnifiedAgeAnalysis.

Definition getStatusColor (status : string) : string :=
  if status =? "success" then "#10b981"
  else if status =? "no_data" then "#6b7280"
  else if status =? "no_match" then "#f59e0b"
  else if status =? "error" then "#ef4444"
  else "#6b7280".

(** The texts as the source file of this view stores them. *)
Definition getStatusText (status : string) : string :=
  if status =? "success" then "‚úì Available"
  else if status =? "no_data" then "‚ö† No Data"
  else if status =? "no_match" then "‚ö† No Match"
  else if status =? "error" then "‚úó Error"
  else "? Unknown".

End UnifiedAgeAnalysis.

(** ** src/frontend/src/BivariateProbability.js, second document: the
    profession analysis view ([UnifiedProfessionAnalysis]) *)
Module UnifiedProfessionAnalysis.

Definition getStatusColor (status : string) : string :=
  if status =? "success" then "#10b981"
  else if status =? "no_data" then "#6b7280"
  else if status =? "no_match" then "#f59e0b"
  else if status =? "error" then "#ef4444"
  else "#6b7280".

Definition getStatusText (status : string) : string :=
  if status =? "success" then "✓ Available"
  else if status =? "no_data" then "⚠ No Data"
  else if status =? "no_match" then "⚠ No Match"
  else if status =? "error" then "✗ Error"
  else "? Unknown".

End UnifiedProfessionAnalysis.

(** ** Definitions taken from the specification

    The engine that produces the responses (matcher, calculator,
    orchestrator) is backend code that is not among the repository's
    source files; what the properties below need of it is modelled from
    the specification's text. *)
Module Spec.




(** Modelled from the spec: the status classification of a match result
    (section 4.2, rule 5); the Category Matcher is missing from the
    sources. *)
Inductive MatchStatus : Type := matched_ok | no_match.

(** Modelled from the spec: the MatchResult of section 3 (input string,
    matched category label, similarity score, explanation) with its
    status classification. *)
Record MatchResult : Type := {
  input : string;
  matched : string;
  score : Q;
  explanation : string;
  classification : MatchStatus
}.

(** Modelled from the spec: the floor threshold of rule 5. *)
Definition floorThreshold : Q := 0.15.

(** Rules 1 to 4 of section 4.2 give each candidate a score for the
    input ([scoreOf]) and say which rule fired ([explain]). *)
Section Matcher.
Variable scoreOf : string -> string -> Q.
Variable explain : string -> string -> string.

(** Modelled from the spec: the best-scoring candidate among [current]
    and [rest] (rule 5); on equal scores the earlier candidate is kept. *)
Fixpoint best (inputString : string) (current : string) (rest : list string)
  : string :=
  match rest with
  | [] => current
  | c :: rest' =>
      if Qle_bool (scoreOf inputString c) (scoreOf inputString current)
      then best inputString current rest'
      else best inputString c rest'
  end.

(** Modelled from the spec: [match(inputString, candidateCategories)] of
    section 4.2, missing from the sources.  It returns the best-scoring
    candidate and marks the result [no_match] when no candidate scores
    above the floor threshold.  The spec does not say what an empty
    candidate list gives, which is [None] here. *)
Definition match_ (inputString : string) (candidateCategories : list string)
  : option MatchResult :=
  match candidateCategories with
  | [] => None
  | c :: rest =>
      let winner := best inputString c rest in
      let s := scoreOf inputString winner in
      Some {| input := inputString;
              matched := winner;
              score := s;
              explanation := explain inputString winner;
              classification :=
                if Qle_bool s floorThreshold then no_match else matched_ok |}
  end.

End Matcher.

(** Modelled from the spec: the per-table outcome the orchestrator
    (section 4.5, missing from the sources) records for a match classified
    [no_match]: status [no_match], still carrying the matcher's
    best-effort match and explanation, under the keys the education view
    reads. *)
Definition noMatchOutcome (tableName : string) (r : MatchResult)
  : Analysis.Outcome :=
  {| Analysis.status := "no_match";
     Analysis.props :=
       [ ("name", tableName);
         ("matched_education", matched r);
         ("education_explanation", explanation r) ];
     Analysis.similarity_score := None;
     Analysis.overlap_score := None;
     Analysis.total_population := None;
     Analysis.conditional_distribution := None |}.

End Spec.

(** ** Concrete inputs, used to run the definitions *)
Module Examples.

Definition tradeArea : list StorewiseDemographics.Item :=
  [ {| StorewiseDemographics.category := "Under 18 years";
       StorewiseDemographics.population := 30 |};
    {| StorewiseDemographics.category := "18 to 64 years";
       StorewiseDemographics.population := 50 |};
    {| StorewiseDemographics.category := "65 years and over";
       StorewiseDemographics.population := 20 |} ].

(** The first datum of the chart drawn for [tradeArea]. *)
Definition firstDatum : StorewiseDemographics.ChartDatum :=
  {| StorewiseDemographics.item :=
       {| StorewiseDemographics.category := "Under 18 years";
          StorewiseDemographics.population := 30 |};
     StorewiseDemographics.total := 100;
     StorewiseDemographics.name := "Under 18 years" |}.

(** A trade area nobody lives in, and the first datum of its chart. *)
Definition vacantArea : list StorewiseDemographics.Item :=
  [ {| StorewiseDemographics.category := "Male";
       StorewiseDemographics.population := 0 |};
    {| StorewiseDemographics.category := "Female";
       StorewiseDemographics.population := 0 |} ].

Definition vacantDatum : StorewiseDemographics.ChartDatum :=
  {| StorewiseDemographics.item :=
       {| StorewiseDemographics.category := "Male";
          StorewiseDemographics.population := 0 |};
     StorewiseDemographics.total := 0;
     StorewiseDemographics.name := "Male" |}.

Definition point (category : string) (value : Q) (percentage : Q)
  : App.DataPoint :=
  {| App.category := category; App.value := value;
     App.percentage := Some percentage |}.

Definition jointData : App.JointData :=
  {| App.age_marginal :=
       Some [ point "65 years and over" 20 20; point "Under 25 years" 10 10;
              point "45 to 64 years" 30 30; point "25 to 44 years" 40 40 ];
     App.income_marginal :=
       Some [ point "$200,000 or more" 5 10; point "Less than $10,000" 15 30;
              point "$50,000 to $59,999" 30 60 ] |}.

Definition genderData : Analysis.ConditionalDistribution :=
  {| Analysis.data :=
       Some [ {| Analysis.category := "Male"; Analysis.percentage := 48 |};
              {| Analysis.category := "Female"; Analysis.percentage := 52 |} ] |}.

(** A successful outcome that carries neither a similarity nor an overlap
    score. *)
Definition unscored : Analysis.Outcome :=
  {| Analysis.status := "success";
     Analysis.props := [ ("name", "Gender by Age"); ("matched_age_range", "25 to 44 years") ];
     Analysis.similarity_score := None;
     Analysis.overlap_score := None;
     Analysis.total_population := Some 1200;
     Analysis.conditional_distribution := Some genderData |}.

(** A successful outcome matched with similarity 0.7. *)
Definition scored : Analysis.Outcome :=
  {| Analysis.status := "success";
     Analysis.props := [ ("name", "Gender by Education");
                         ("matched_education", "Bachelor's degree") ];
     Analysis.similarity_score := Some 0.7;
     Analysis.overlap_score := None;
     Analysis.total_population := Some 800;
     Analysis.conditional_distribution := Some genderData |}.





(** An outcome whose similarity score is 0 and whose overlap score is
    0.85. *)
Definition overlapping : Analysis.Outcome :=
  {| Analysis.status := "success";
     Analysis.props := [ ("name", "Gender by Income") ];
     Analysis.similarity_score := Some 0;
     Analysis.overlap_score := Some 0.85;
     Analysis.total_population := Some 800;
     Analysis.conditional_distribution := Some genderData |}.





(** A scoring by exact equality only, to run the matcher of the
    specification. *)
Definition exactScore (inputString candidate : string) : Q :=
  if inputString =? candidate then 1 else 0.

Definition exactExplain (inputString candidate : string) : string :=
  if inputString =? candidate then "exact match" else "no rule fired".

Definition educationLevels : list string :=
  [ "Less than 9th grade"; "High school graduate"; "Bachelor's degree" ].

(** Marginals with categories the canonical orders do not list. *)
Definition surveyData : App.JointData :=
  {| App.age_marginal :=
       Some [ point "65 years and over" 20 20; point "Unknown" 5 5;
              point "Under 25 years" 10 10; point "Not reported" 65 65 ];
     App.income_marginal :=
       Some [ point "$200,000 or more" 5 10; point "Undisclosed" 45 90 ] |}.

Definition unifiedPoint (category : string) (value : Q)
  : UnifiedDistributionSystem.DataPoint :=
  {| UnifiedDistributionSystem.category := category;
     UnifiedDistributionSystem.value := value;
     UnifiedDistributionSystem.percentage := None |}.

Definition surveyGenders : list UnifiedDistributionSystem.DataPoint :=
  [ unifiedPoint "Unknown" 5; unifiedPoint "Female" 52;
    unifiedPoint "Not reported" 3; unifiedPoint "Male" 40 ].

(** A location clicked on the map. *)
Definition mapPoint : App.Location :=
  {| App.lat := 40.7128; App.lng := -74.006 |}.

(** A selected location, and the request of an analysis for it. *)
Definition here : UnifiedDemographicAnalysis.Location :=
  {| UnifiedDemographicAnalysis.lat := 40.7128;
     UnifiedDemographicAnalysis.lng := -74.006 |}.

Definition requestFor (t : UnifiedDemographicAnalysis.AnalysisType)
    (value : string) : UnifiedDemographicAnalysis.Request :=
  {| UnifiedDemographicAnalysis.url :=
       "http://localhost:5001" ++ UnifiedDemographicAnalysis.endpoint t;
     UnifiedDemographicAnalysis.body :=
       [ ("lat", JS.Num 40.7128); ("lng", JS.Num (-74.006));
         (UnifiedDemographicAnalysis.paramKey t, JS.Str value) ] |}.

(** A trade-area response with two data types, its properties in the
    order they are enumerated. *)
Definition blockGroups : StorewiseDemographics.RawData :=
  {| StorewiseDemographics.properties :=
       Some [ ("Age_18_to_24", 120); ("Gender_Male", 90);
              ("Age_65_and_over", 200); ("Gender_Female", 110) ] |}.

End Examples.

(* ================================================================== *)
(** * Part II: properties *)
(* ================================================================== *)

(** ** Distribution percentages (StorewiseDemographics.js) *)
Section StorewisePercentages.
Import StorewiseDemographics.

Lemma gt_true_iff (a b : Q) : JS.gt a b = true <-> b < a.
Proof.
  unfold JS.gt. rewrite negb_true_iff.
  split; intro H.
  - apply Qnot_le_lt. intro Hle. apply Qle_bool_iff in Hle. congruence.
  - destruct (Qle_bool a b) eqn:E; [|reflexivity].
    apply Qle_bool_iff in E. exfalso. apply (Qlt_not_le _ _ H E).
Qed.

Lemma gt_false_iff (a b : Q) : JS.gt a b = false <-> a <= b.
Proof.
  unfold JS.gt. rewrite negb_false_iff. apply Qle_bool_iff.
Qed.

(** The guarded expression never divides by zero: its value is finite. *)
Lemma percentageOf_pos (v t : Q) :
  0 < t -> exists p, percentageOf v t = Some p /\ p == v / t * 100.
Proof.
  intro Ht. unfold percentageOf.
  destruct (JS.gt t 0) eqn:G.
  - unfold JS.div. destruct (Qeq_bool t 0) eqn:E.
    + apply Qeq_bool_iff in E. rewrite E in Ht. exfalso. apply (Qlt_irrefl _ Ht).
    + simpl. eexists. split; reflexivity.
  - apply gt_false_iff in G. exfalso. apply (Qlt_not_le _ _ Ht G).
Qed.

Lemma percentageOf_nonpos (v t : Q) : t <= 0 -> percentageOf v t = Some 0.
Proof.
  intro Ht. unfold percentageOf.
  apply gt_false_iff in Ht. rewrite Ht. reflexivity.
Qed.

Lemma percentageOf_finite (v t : Q) : exists p, percentageOf v t = Some p.
Proof.
  destruct (Qlt_le_dec 0 t) as [H | H].
  - destruct (percentageOf_pos v t H) as [p [Hp _]]. exists p. exact Hp.
  - exists 0. apply percentageOf_nonpos. exact H.
Qed.

Lemma tooltip_of_datum (dataType : string) (d : ChartDatum) :
  CustomTooltip true (Some (payloadOf d)) (name d) dataType =
  Some {| tip_label := name d;
          tip_color := JS.lookup dataType DATA_TYPE_COLORS;
          tip_population := population (item d);
          tip_percentage :=
            percentageOf (population (item d)) (JS.orNum (Some (total d)) 0) |}.
Proof. reflexivity. Qed.

Lemma in_chartDataOf (data : list Item) (d : ChartDatum) :
  In d (chartDataOf data) ->
  In (item d) data /\ total d = totalOf data /\
  name d = JS.ellipsis 20 (category (item d)).
Proof.
  unfold chartDataOf. intro H. apply in_map_iff in H.
  destruct H as [it [Hd Hin]]. subst d. simpl. auto.
Qed.

(** The guarded percentage at the total the chart attaches to its data. *)
Lemma percentageOf_orNum (v t : Q) :
  exists p, percentageOf v (JS.orNum (Some t) 0) = Some p /\
            (0 < t -> p == v / t * 100) /\ (t <= 0 -> p == 0).
Proof.
  unfold JS.orNum, JS.truthyNum.
  destruct (Qeq_bool t 0) eqn:E; simpl.
  - apply Qeq_bool_iff in E. exists 0. split.
    + apply percentageOf_nonpos. apply Qle_refl.
    + split; intro H; [|reflexivity].
      rewrite E in H. exfalso. apply (Qlt_irrefl _ H).
  - destruct (Qlt_le_dec 0 t) as [Hpos | Hle].
    + destruct (percentageOf_pos v t Hpos) as [p [Hp Hv]].
      exists p. split; [exact Hp|]. split; intro H; [exact Hv|].
      exfalso. apply (Qlt_not_le _ _ Hpos H).
    + exists 0. split; [apply percentageOf_nonpos; exact Hle|].
      split; intro H; [|reflexivity].
      exfalso. apply (Qlt_not_le _ _ H Hle).
Qed.

(** [reduce] from the left adds up the same counts as the recursive sum. *)
Lemma fold_left_sumCounts (data : list Item) (acc : Q) :
  fold_left (fun sum item => sum + population item) data acc
  == acc + sumCounts data.
Proof.
  revert acc. induction data as [| it rest IH]; intro acc; simpl.
  - ring.
  - rewrite IH. ring.
Qed.

Lemma totalOf_sumCounts (data : list Item) : totalOf data == sumCounts data.
Proof.
  unfold totalOf. rewrite fold_left_sumCounts. ring.
Qed.

(** With a positive total every tooltip percentage is literally the
    guarded quotient. *)
Lemma percentageOf_at_pos_total (v t : Q) :
  0 < t -> percentageOf v (JS.orNum (Some t) 0) = Some (v / t * 100).
Proof.
  intro Ht.
  assert (E : Qeq_bool t 0 = false).
  { destruct (Qeq_bool t 0) eqn:E; [|reflexivity].
    apply Qeq_bool_iff in E. rewrite E in Ht.
    exfalso. apply (Qlt_irrefl _ Ht). }
  unfold JS.orNum, JS.truthyNum. rewrite E. simpl.
  unfold percentageOf, JS.div.
  apply gt_true_iff in Ht. rewrite Ht, E. reflexivity.
Qed.

Lemma sumNumbers_Some (l : list Q) : sumNumbers (map Some l) = Some (sumQ l).
Proof.
  induction l as [| q rest IH]; simpl; [reflexivity|].
  rewrite IH. reflexivity.
Qed.

Lemma sumQ_scaled (t : Q) (data : list Item) :
  sumQ (map (fun it => population it / t * 100) data)
  == sumCounts data / t * 100.
Proof.
  induction data as [| it rest IH]; simpl.
  - unfold Qdiv. ring.
  - rewrite IH. unfold Qdiv. ring.
Qed.

Lemma percentages_at_pos_total (dataType : string) (data : list Item) :
  0 < totalOf data ->
  percentages dataType (chartDataOf data) =
  map Some (map (fun it => population it / totalOf data * 100) data).
Proof.
  intro Ht. unfold percentages, chartDataOf.
  rewrite !map_map. apply map_ext. intro it.
  rewrite tooltip_of_datum. simpl.
  apply percentageOf_at_pos_total. exact Ht.
Qed.

(** A chart is rendered for a non-empty array only, and shows the data
    and the total computed from it. *)
Lemma DistributionChart_rendered (title dataType : string)
    (chartType : option string) (data : list Item) (chart : Chart) :
  DistributionChart title (Some data) dataType chartType = Some chart ->
  data <> [] /\ dataOf chart = chartDataOf data /\ shownTotal chart = totalOf data.
Proof.
  destruct data as [| it rest]; simpl; [discriminate|].
  destruct (match chartType with Some t => t | None => "bar" end =? "pie");
    intro H; injection H as <-; simpl; (split; [discriminate | split; reflexivity]).
Qed.

Lemma DistributionChart_nonempty (title dataType : string)
    (chartType : option string) (data : list Item) :
  data <> [] ->
  exists chart, DistributionChart title (Some data) dataType chartType = Some chart.
Proof.
  destruct data as [| it rest]; [contradiction|]. intros _. simpl.
  destruct (match chartType with Some t => t | None => "bar" end =? "pie");
    eexists; reflexivity.
Qed.

End StorewisePercentages.

(** C1. For every data point of a rendered trade-area chart, the tooltip
    shows the point's count, and a percentage that is finite (the division
    is guarded), equal to count / total * 100 when the total of the chart
    (the sum of the counts) is greater than 0, and equal to 0 when that
    total is 0. *)
Theorem tooltip_percentage_of_data_point :
  forall (title dataType : string) (chartType : option string)
         (data : list StorewiseDemographics.Item)
         (chart : StorewiseDemographics.Chart)
         (d : StorewiseDemographics.ChartDatum),
    StorewiseDemographics.DistributionChart title (Some data) dataType chartType
    = Some chart ->
    In d (StorewiseDemographics.dataOf chart) ->
    exists tip p,
      StorewiseDemographics.CustomTooltip true
        (Some (StorewiseDemographics.payloadOf d))
        (StorewiseDemographics.name d) dataType = Some tip /\
      StorewiseDemographics.tip_population tip
        = StorewiseDemographics.population (StorewiseDemographics.item d) /\
      StorewiseDemographics.tip_percentage tip = Some p /\
      (0 < StorewiseDemographics.shownTotal chart ->
         p == StorewiseDemographics.population (StorewiseDemographics.item d)
              / StorewiseDemographics.shownTotal chart * 100) /\
      (StorewiseDemographics.shownTotal chart == 0 -> p == 0).
Proof.
  intros title dataType chartType data chart d Hchart Hin.
  destruct (DistributionChart_rendered _ _ _ _ _ Hchart) as [_ [Hdata Htotal]].
  rewrite Hdata in Hin. rewrite Htotal.
  destruct (in_chartDataOf data d Hin) as [_ [Htot _]].
  destruct (percentageOf_orNum
              (StorewiseDemographics.population (StorewiseDemographics.item d))
              (StorewiseDemographics.total d)) as [p [Hp [Hpos Hzero]]].
  eexists. exists p. split; [apply tooltip_of_datum|].
  simpl. split; [reflexivity|]. split; [exact Hp|].
  rewrite <- Htot. split; [exact Hpos|].
  intro H0. apply Hzero. rewrite H0. apply Qle_refl.
Qed.

(** On the trade area with counts 30, 50 and 20 the tooltip of the first
    bar shows 30 percent; on a trade area without population it shows 0. *)
Lemma tooltip_percentage_of_first_datum :
  (exists tip p,
     StorewiseDemographics.CustomTooltip true
       (Some (StorewiseDemographics.payloadOf Examples.firstDatum))
       "Under 18 years" "Age" = Some tip /\
     StorewiseDemographics.tip_percentage tip = Some p /\
     p == 30) /\
  (exists tip p,
     StorewiseDemographics.CustomTooltip true
       (Some (StorewiseDemographics.payloadOf Examples.vacantDatum))
       "Male" "Gender" = Some tip /\
     StorewiseDemographics.tip_percentage tip = Some p /\
     p == 0).
Proof.
  split.
  - destruct (tooltip_percentage_of_data_point
                "Age Distribution in Trade Area" "Age" None Examples.tradeArea
                _ Examples.firstDatum eq_refl)
      as [tip [p [Htip [_ [Hp [Hpos _]]]]]].
    + left. reflexivity.
    + exists tip, p. split; [exact Htip|]. split; [exact Hp|].
      apply Qeq_trans with (1 := Hpos eq_refl). reflexivity.
  - destruct (tooltip_percentage_of_data_point
                "Gender Distribution in Trade Area" "Gender" (Some "pie")
                Examples.vacantArea _ Examples.vacantDatum eq_refl)
      as [tip [p [Htip [_ [Hp [_ Hzero]]]]]].
    + left. reflexivity.
    + exists tip, p. split; [exact Htip|]. split; [exact Hp|].
      apply Hzero. reflexivity.
Defined.

(** C5. For a non-empty distribution a chart is rendered; the total it
    shows and attaches to every datum is the sum of all item counts, and
    when that total is greater than 0 the per-item percentages
    (count / total * 100) add up to 100, hence lie within 0.1 of it. *)
Theorem percentages_sum_to_100 :
  forall (title dataType : string) (chartType : option string)
         (data : list StorewiseDemographics.Item),
    data <> [] ->
    exists chart,
      StorewiseDemographics.DistributionChart title (Some data) dataType chartType
      = Some chart /\
      StorewiseDemographics.shownTotal chart
      == StorewiseDemographics.sumCounts data /\
      Forall (fun d => StorewiseDemographics.total d
                       == StorewiseDemographics.sumCounts data)
             (StorewiseDemographics.dataOf chart) /\
      (0 < StorewiseDemographics.shownTotal chart ->
       exists s,
         StorewiseDemographics.sumNumbers
           (StorewiseDemographics.percentages dataType
              (StorewiseDemographics.dataOf chart)) = Some s /\
         s == 100 /\ Qabs (s - 100) <= 1 # 10).
Proof.
  intros title dataType chartType data Hne.
  destruct (DistributionChart_nonempty title dataType chartType data Hne)
    as [chart Hchart].
  exists chart. split; [exact Hchart|].
  destruct (DistributionChart_rendered _ _ _ _ _ Hchart) as [_ [Hdata Htotal]].
  rewrite Hdata, Htotal.
  split; [apply totalOf_sumCounts|]. split.
  - apply Forall_forall. intros d Hin.
    destruct (in_chartDataOf data d Hin) as [_ [Htot _]].
    rewrite Htot. apply totalOf_sumCounts.
  - intro Hpos.
    rewrite (percentages_at_pos_total dataType data Hpos).
    rewrite sumNumbers_Some. eexists. split; [reflexivity|].
    assert (Hs : StorewiseDemographics.sumQ
                   (map (fun it => StorewiseDemographics.population it
                                   / StorewiseDemographics.totalOf data * 100) data)
                 == 100).
    { rewrite sumQ_scaled. rewrite <- totalOf_sumCounts.
      field. intro H0. rewrite H0 in Hpos. apply (Qlt_irrefl _ Hpos). }
    split; [exact Hs|].
    rewrite Hs. vm_compute. discriminate.
Qed.

(** The percentages of the trade area with counts 30, 50 and 20 add up
    to 100. *)
Lemma trade_area_percentages_sum_to_100 :
  exists chart s,
    StorewiseDemographics.DistributionChart
      "Age Distribution in Trade Area" (Some Examples.tradeArea) "Age" (Some "pie")
    = Some chart /\
    StorewiseDemographics.shownTotal chart == 100 /\
    StorewiseDemographics.sumNumbers
      (StorewiseDemographics.percentages "Age"
         (StorewiseDemographics.dataOf chart)) = Some s /\
    s == 100.
Proof.
  destruct (percentages_sum_to_100
              "Age Distribution in Trade Area" "Age" (Some "pie")
              Examples.tradeArea)
    as [chart [Hchart [Htotal [_ Hsum]]]].
  - discriminate.
  - assert (H100 : StorewiseDemographics.shownTotal chart == 100).
    { rewrite Htotal. reflexivity. }
    destruct Hsum as [s [Hs [Heq _]]].
    + rewrite H100. reflexivity.
    + exists chart, s. auto.
Defined.

(** ** Canonical category order (App.js) *)
(** Whatever the comparator, the sort only rearranges the array. *)
Section SortPermutes.
Context {A : Type} (compareFn : A -> A -> Z).

Lemma insert_perm (x : A) (l : list A) :
  Permutation (x :: l) (App.insert compareFn x l).
Proof.
  induction l as [| y rest IH]; simpl.
  - apply Permutation_refl.
  - destruct (compareFn x y <=? 0)%Z.
    + apply Permutation_refl.
    + apply perm_trans with (y :: x :: rest).
      * apply perm_swap.
      * apply perm_skip. exact IH.
Qed.

Lemma sort_perm (l : list A) : Permutation l (App.sort compareFn l).
Proof.
  induction l as [| x rest IH]; simpl.
  - apply perm_nil.
  - apply perm_trans with (x :: App.sort compareFn rest).
    + apply perm_skip. exact IH.
    + apply insert_perm.
Qed.

End SortPermutes.

(** The helper of the unified distribution view permutes its data too,
    when it returns. *)
Lemma sortDistributionData_perm
    (data sorted : list UnifiedDistributionSystem.DataPoint)
    (distributionType : string) :
  UnifiedDistributionSystem.sortDistributionData data distributionType
    = JS.Ok sorted ->
  Permutation data sorted.
Proof.
  unfold UnifiedDistributionSystem.sortDistributionData.
  destruct data as [| x rest]; [intro H; injection H as <-; apply perm_nil|].
  destruct (JS.lookup distributionType
              UnifiedDistributionSystem.CONDITIONAL_OPTIONS) as [sortOrder |].
  - intro H. injection H as <-.
    apply (sort_perm (UnifiedDistributionSystem.compareByOrder sortOrder)
                     (x :: rest)).
  - destruct (JS.inherited distributionType); [destruct rest|];
      intro H; try discriminate; injection H as <-; apply Permutation_refl.
Qed.

(** A comparator that is the difference of two keys sorts by the key. *)
Section SortByKey.
Context {A : Type} (key : A -> Z).

Local Abbreviation cmp := (fun a b : A => (key a - key b)%Z).
Local Abbreviation keyLe := (fun a b : A => (key a <= key b)%Z).

Lemma insert_sorted (x : A) (l : list A) :
  StronglySorted keyLe l -> StronglySorted keyLe (App.insert cmp x l).
Proof.
  induction 1 as [| y rest Hsorted IH Hall]; simpl.
  - constructor; constructor.
  - destruct (Z.leb_spec (key x - key y) 0) as [Hle | Hgt].
    + constructor.
      * constructor; assumption.
      * constructor; [lia|].
        eapply Forall_impl; [|exact Hall].
        simpl. intros z Hz. lia.
    + constructor; [exact IH|].
      eapply Permutation_Forall; [apply (insert_perm cmp)|].
      constructor; [lia | exact Hall].
Qed.

Lemma sort_sorted (l : list A) : StronglySorted keyLe (App.sort cmp l).
Proof.
  induction l as [| x rest IH]; simpl.
  - constructor.
  - apply insert_sorted. exact IH.
Qed.

(** The sort is stable: among the elements of one key, the order of the
    input is kept.  With [sort_perm] and [sort_sorted] this determines the
    result, whatever algorithm computes it. *)
Lemma insert_stable (k : Z) (x : A) (l : list A) :
  filter (fun y => (key y =? k)%Z) (App.insert cmp x l)
  = filter (fun y => (key y =? k)%Z) (x :: l).
Proof.
  induction l as [| y rest IH]; [reflexivity|].
  simpl App.insert.
  destruct (Z.leb_spec (key x - key y) 0) as [Hle | Hgt]; [reflexivity|].
  change (filter (fun y0 => (key y0 =? k)%Z) (y :: App.insert cmp x rest))
    with (if (key y =? k)%Z
          then y :: filter (fun y0 => (key y0 =? k)%Z) (App.insert cmp x rest)
          else filter (fun y0 => (key y0 =? k)%Z) (App.insert cmp x rest)).
  rewrite IH. simpl.
  destruct (Z.eqb_spec (key y) k) as [Hy | Hy];
    destruct (Z.eqb_spec (key x) k) as [Hx | Hx]; try reflexivity.
  exfalso. lia.
Qed.

Lemma sort_stable (k : Z) (l : list A) :
  filter (fun y => (key y =? k)%Z) (App.sort cmp l)
  = filter (fun y => (key y =? k)%Z) l.
Proof.
  induction l as [| x rest IH]; [reflexivity|].
  simpl App.sort. rewrite insert_stable. simpl. rewrite IH. reflexivity.
Qed.

End SortByKey.

(** [indexOf] gives the position of a listed category. *)
Lemma indexOfFrom_position (arr : list string) (x : string) (i : Z) :
  In x arr ->
  (i <= App.indexOfFrom i arr x)%Z /\
  nth_error arr (Z.to_nat (App.indexOfFrom i arr x - i)) = Some x.
Proof.
  revert i. induction arr as [| y rest IH]; intros i Hin; [contradiction|].
  simpl. destruct (String.eqb_spec y x) as [Heq | Hneq].
  - subst y. split; [lia|]. replace (i - i)%Z with 0%Z by lia. reflexivity.
  - destruct Hin as [Heq | Hin]; [contradiction|].
    destruct (IH (i + 1)%Z Hin) as [Hge Hnth]. split; [lia|].
    replace (App.indexOfFrom (i + 1) rest x - i)%Z
      with (Z.succ (App.indexOfFrom (i + 1) rest x - (i + 1)))%Z by lia.
    rewrite Z2Nat.inj_succ by lia. simpl. exact Hnth.
Qed.

Lemma indexOf_position (arr : list string) (x : string) :
  In x arr ->
  (0 <= App.indexOf arr x)%Z /\
  nth_error arr (Z.to_nat (App.indexOf arr x)) = Some x.
Proof.
  intro Hin. unfold App.indexOf.
  destruct (indexOfFrom_position arr x 0%Z Hin) as [Hge Hnth].
  split; [exact Hge|]. rewrite Z.sub_0_r in Hnth. exact Hnth.
Qed.

(** Sorting a marginal by a canonical order permutes it, orders it by
    [indexOf], and, when every category is listed, [indexOf] is the
    category's position in the order. *)
Lemma sort_byOrder (order : list string) (marginal : list App.DataPoint) :
  Permutation marginal (App.sort (App.byOrder order) marginal) /\
  ((forall x, In x marginal -> In (App.category x) order) ->
   StronglySorted
     (fun a b => (App.indexOf order (App.category a)
                  <= App.indexOf order (App.category b))%Z)
     (App.sort (App.byOrder order) marginal) /\
   Forall (fun x => nth_error order
                      (Z.to_nat (App.indexOf order (App.category x)))
                    = Some (App.category x))
          (App.sort (App.byOrder order) marginal)).
Proof.
  split.
  - apply sort_perm.
  - intro Hlisted. split.
    + apply (sort_sorted (fun a => App.indexOf order (App.category a))).
    + apply Forall_forall. intros x Hx.
      apply indexOf_position. apply Hlisted.
      eapply Permutation_in; [|exact Hx].
      apply Permutation_sym. apply sort_perm.
Qed.

(** C8. The sorted age and income marginals are permutations of the
    marginals received, and whenever every received category appears in the
    canonical order list, the sorted sequence lists the categories in
    ascending canonical position. *)
Theorem sorted_marginals_in_canonical_order :
  forall (data : App.JointData) (ages incomes : list App.DataPoint),
    App.age_marginal data = Some ages ->
    App.income_marginal data = Some incomes ->
    (Permutation ages (App.sortedAgeData (Some data)) /\
     ((forall x, In x ages -> In (App.category x) App.ageOrder) ->
      StronglySorted
        (fun a b => (App.indexOf App.ageOrder (App.category a)
                     <= App.indexOf App.ageOrder (App.category b))%Z)
        (App.sortedAgeData (Some data)) /\
      Forall (fun x => nth_error App.ageOrder
                         (Z.to_nat (App.indexOf App.ageOrder (App.category x)))
                       = Some (App.category x))
             (App.sortedAgeData (Some data)))) /\
    (Permutation incomes (App.sortedIncomeData (Some data)) /\
     ((forall x, In x incomes -> In (App.category x) App.incomeOrder) ->
      StronglySorted
        (fun a b => (App.indexOf App.incomeOrder (App.category a)
                     <= App.indexOf App.incomeOrder (App.category b))%Z)
        (App.sortedIncomeData (Some data)) /\
      Forall (fun x => nth_error App.incomeOrder
                         (Z.to_nat (App.indexOf App.incomeOrder (App.category x)))
                       = Some (App.category x))
             (App.sortedIncomeData (Some data)))).
Proof.
  intros data ages incomes Hages Hincomes.
  unfold App.sortedAgeData, App.sortedIncomeData.
  rewrite Hages, Hincomes. split.
  - apply sort_byOrder.
  - apply sort_byOrder.
Qed.

(** The marginals of the example arrive out of order and come out of the
    sort in the canonical order. *)
Lemma example_marginals_sorted :
  map App.category (App.sortedAgeData (Some Examples.jointData))
  = [ "Under 25 years"; "25 to 44 years"; "45 to 64 years"; "65 years and over" ] /\
  StronglySorted
    (fun a b => (App.indexOf App.ageOrder (App.category a)
                 <= App.indexOf App.ageOrder (App.category b))%Z)
    (App.sortedAgeData (Some Examples.jointData)) /\
  StronglySorted
    (fun a b => (App.indexOf App.incomeOrder (App.category a)
                 <= App.indexOf App.incomeOrder (App.category b))%Z)
    (App.sortedIncomeData (Some Examples.jointData)).
Proof.
  destruct (sorted_marginals_in_canonical_order Examples.jointData _ _
              eq_refl eq_refl) as [[_ Hages] [_ Hincomes]].
  split; [reflexivity|]. split.
  - apply Hages. intros x Hin. simpl in Hin.
    destruct Hin as [<- | [<- | [<- | [<- | []]]]]; simpl; tauto.
  - apply Hincomes. intros x Hin. simpl in Hin.
    destruct Hin as [<- | [<- | [<- | []]]]; simpl; tauto.
Defined.

(** ** Status badges (UnifiedDemographicAnalysis.js) *)

(** The chain of comparisons against the four literals, by cases. *)
Lemma status_cases (status : string) :
  status = "success" \/ status = "no_data" \/ status = "no_match" \/
  status = "error" \/ ~ In status Analysis.statuses.
Proof.
  destruct (String.eqb_spec status "success") as [-> | H1]; [auto|].
  destruct (String.eqb_spec status "no_data") as [-> | H2]; [auto|].
  destruct (String.eqb_spec status "no_match") as [-> | H3]; [auto|].
  destruct (String.eqb_spec status "error") as [-> | H4]; [auto 6|].
  right. right. right. right. simpl. intuition congruence.
Qed.

Lemma unknown_status_defaults (status : string) :
  ~ In status Analysis.statuses ->
  UnifiedDemographicAnalysis.getStatusColor status = "#6b7280" /\
  UnifiedDemographicAnalysis.getStatusText status = "? Unknown".
Proof.
  intro Hout.
  assert (Hin : forall known, In known Analysis.statuses -> status <> known).
  { intros known Hk E. apply Hout. rewrite E. exact Hk. }
  unfold UnifiedDemographicAnalysis.getStatusColor,
         UnifiedDemographicAnalysis.getStatusText.
  destruct (String.eqb_spec status "success") as [E | _];
    [exfalso; apply (Hin "success"); simpl; tauto|].
  destruct (String.eqb_spec status "no_data") as [E | _];
    [exfalso; apply (Hin "no_data"); simpl; tauto|].
  destruct (String.eqb_spec status "no_match") as [E | _];
    [exfalso; apply (Hin "no_match"); simpl; tauto|].
  destruct (String.eqb_spec status "error") as [E | _];
    [exfalso; apply (Hin "error"); simpl; tauto|].
  split; reflexivity.
Qed.

(** C6. The status-to-colour and status-to-text mappings are defined on
    every input: the four statuses map to four distinct colours and four
    distinct labels, every other input maps to the default colour
    '#6b7280' and the label '? Unknown', and whatever the input the result
    is one of these fixed colours and labels. *)
Theorem status_mappings_total :
  map UnifiedDemographicAnalysis.getStatusColor Analysis.statuses
    = [ "#10b981"; "#6b7280"; "#f59e0b"; "#ef4444" ] /\
  map UnifiedDemographicAnalysis.getStatusText Analysis.statuses
    = [ "✓ Available"; "⚠ No Data"; "⚠ No Match"; "✗ Error" ] /\
  NoDup (map UnifiedDemographicAnalysis.getStatusColor Analysis.statuses) /\
  NoDup ("? Unknown"
         :: map UnifiedDemographicAnalysis.getStatusText Analysis.statuses) /\
  forall status : string,
    (~ In status Analysis.statuses ->
       UnifiedDemographicAnalysis.getStatusColor status = "#6b7280" /\
       UnifiedDemographicAnalysis.getStatusText status = "? Unknown") /\
    In (UnifiedDemographicAnalysis.getStatusColor status)
       (map UnifiedDemographicAnalysis.getStatusColor Analysis.statuses) /\
    In (UnifiedDemographicAnalysis.getStatusText status)
       ("? Unknown"
        :: map UnifiedDemographicAnalysis.getStatusText Analysis.statuses).
Proof.
  split; [reflexivity|]. split; [reflexivity|].
  split.
  { simpl. repeat constructor; simpl; intuition discriminate. }
  split.
  { simpl. repeat constructor; simpl; intuition discriminate. }
  intro status. split; [apply unknown_status_defaults|].
  destruct (status_cases status) as [-> | [-> | [-> | [-> | Hout]]]];
    try (split; simpl; tauto).
  destruct (unknown_status_defaults status Hout) as [Hc Ht].
  rewrite Hc, Ht. split; simpl; tauto.
Qed.

(** A status outside the four gets the default badge. *)
Lemma pending_status_is_unknown :
  UnifiedDemographicAnalysis.getStatusColor "pending" = "#6b7280" /\
  UnifiedDemographicAnalysis.getStatusText "pending" = "? Unknown".
Proof.
  apply (proj1 (proj2 (proj2 (proj2 (proj2 status_mappings_total))) "pending")).
  simpl. intros [H | [H | [H | [H | []]]]]; discriminate H.
Defined.

(** ** Quality tiers of a match score *)

Lemma geq_true_iff (s bound : Q) : JS.geq (Some s) bound = true <-> bound <= s.
Proof. simpl. apply Qle_bool_iff. Qed.

Lemma geq_false_iff (s bound : Q) : JS.geq (Some s) bound = false <-> s < bound.
Proof.
  simpl. split; intro H.
  - apply Qnot_le_lt. intro Hle. apply Qle_bool_iff in Hle. congruence.
  - destruct (Qle_bool bound s) eqn:E; [|reflexivity].
    apply Qle_bool_iff in E. exfalso. apply (Qlt_not_le _ _ H E).
Qed.

(** Decide one comparison of a tier chain and record the bound it gives. *)
Ltac split_tier s bound :=
  let E := fresh "E" in
  destruct (JS.geq (Some s) bound) eqn:E;
  [ apply geq_true_iff in E | apply geq_false_iff in E ].

(** The tier boundaries of the unified view: 0.95, 0.8, 0.5, 0.3. *)
Lemma unified_tiers (s : Q) :
  let c := Analysis.color
             (UnifiedDemographicAnalysis.getSimilarityIndicator (Some s)) in
  (0.95 <= s -> c = "#10b981") /\
  (0.8 <= s -> s < 0.95 -> c = "#059669") /\
  (0.5 <= s -> s < 0.8 -> c = "#fbbf24") /\
  (0.3 <= s -> s < 0.5 -> c = "#f59e0b") /\
  (s < 0.3 -> c = "#ef4444").
Proof.
  unfold UnifiedDemographicAnalysis.getSimilarityIndicator.
  split_tier s 0.95; [|split_tier s 0.8; [|split_tier s 0.5; [|split_tier s 0.3]]];
    simpl; repeat split; intros; try reflexivity; exfalso; lra.
Qed.

(** The tier boundaries of the education view: 0.95, 0.8, 0.6, 0.4. *)
Lemma education_tiers (s : Q) :
  let c := Analysis.color
             (UnifiedEducationAnalysis.getSimilarityIndicator (Some s)) in
  (0.95 <= s -> c = "#10b981") /\
  (0.8 <= s -> s < 0.95 -> c = "#059669") /\
  (0.6 <= s -> s < 0.8 -> c = "#fbbf24") /\
  (0.4 <= s -> s < 0.6 -> c = "#f59e0b") /\
  (s < 0.4 -> c = "#ef4444").
Proof.
  unfold UnifiedEducationAnalysis.getSimilarityIndicator.
  split_tier s 0.95; [|split_tier s 0.8; [|split_tier s 0.6; [|split_tier s 0.4]]];
    simpl; repeat split; intros; try reflexivity; exfalso; lra.
Qed.

(** The income view has the boundaries of the unified view. *)
Lemma income_tiers_as_unified (s : Q) :
  Analysis.color (UnifiedIncomeAnalysis.getOverlapIndicator (Some s))
  = Analysis.color (UnifiedDemographicAnalysis.getSimilarityIndicator (Some s)).
Proof.
  unfold UnifiedIncomeAnalysis.getOverlapIndicator,
         UnifiedDemographicAnalysis.getSimilarityIndicator.
  destruct (JS.geq (Some s) 0.95); [reflexivity|].
  destruct (JS.geq (Some s) 0.8); [reflexivity|].
  destruct (JS.geq (Some s) 0.5); [reflexivity|].
  destruct (JS.geq (Some s) 0.3); reflexivity.
Qed.

(** C9 (as the code has it). The unified and the income classifiers put
    every score in the same tier (boundaries 0.95, 0.8, 0.5, 0.3).  The
    education classifier shares the two upper boundaries but separates the
    lower tiers at 0.6 and 0.4: it agrees with the other two exactly on the
    scores outside [0.5, 0.6) and [0.3, 0.4), and puts the scores inside
    these two intervals one tier lower.  A tier is identified by its
    colour. *)
Theorem tier_classifiers_agreement :
  forall s : Q,
    let unified := Analysis.color
                     (UnifiedDemographicAnalysis.getSimilarityIndicator (Some s)) in
    let income := Analysis.color
                    (UnifiedIncomeAnalysis.getOverlapIndicator (Some s)) in
    let education := Analysis.color
                       (UnifiedEducationAnalysis.getSimilarityIndicator (Some s)) in
    income = unified /\
    (0.6 <= s \/ (0.4 <= s /\ s < 0.5) \/ s < 0.3 -> education = unified) /\
    (0.5 <= s /\ s < 0.6 -> unified = "#fbbf24" /\ education = "#f59e0b") /\
    (0.3 <= s /\ s < 0.4 -> unified = "#f59e0b" /\ education = "#ef4444").
Proof.
  intro s. cbv zeta.
  destruct (unified_tiers s) as [U1 [U2 [U3 [U4 U5]]]].
  destruct (education_tiers s) as [E1 [E2 [E3 [E4 E5]]]].
  cbv zeta in *.
  split; [apply income_tiers_as_unified|].
  split; [|split].
  - intros [H | [[H1 H2] | H]].
    + destruct (Qlt_le_dec s 0.8) as [L8 | G8].
      * rewrite E3, U3 by lra. reflexivity.
      * destruct (Qlt_le_dec s 0.95) as [L95 | G95].
        -- rewrite E2, U2 by lra. reflexivity.
        -- rewrite E1, U1 by lra. reflexivity.
    + rewrite E4, U4 by lra. reflexivity.
    + rewrite E5, U5 by lra. reflexivity.
  - intros [H1 H2]. split; [apply U3 | apply E4]; lra.
  - intros [H1 H2]. split; [apply U4 | apply E5]; lra.
Qed.

(** C9, as stated, fails: at the score 0.55 the education view shows the
    fourth tier ("Moderate Match") where the unified and the income views
    show the third ("Good Match"). *)
Lemma tier_classifiers_disagree_at_055 :
  0 <= 0.55 /\ 0.55 <= 1 /\
  UnifiedEducationAnalysis.getSimilarityIndicator (Some 0.55)
    = {| Analysis.text := "Moderate Match"; Analysis.color := "#f59e0b" |} /\
  UnifiedDemographicAnalysis.getSimilarityIndicator (Some 0.55)
    = {| Analysis.text := "Good Match"; Analysis.color := "#fbbf24" |} /\
  UnifiedIncomeAnalysis.getOverlapIndicator (Some 0.55)
    = {| Analysis.text := "Good Match"; Analysis.color := "#fbbf24" |}.
Proof.
  split; [lra|]. split; [lra|].
  split; [|split]; reflexivity.
Qed.

(** At the score 0.7 the three classifiers agree. *)
Lemma tier_classifiers_agree_at_07 :
  Analysis.color (UnifiedIncomeAnalysis.getOverlapIndicator (Some 0.7))
  = Analysis.color (UnifiedDemographicAnalysis.getSimilarityIndicator (Some 0.7)) /\
  Analysis.color (UnifiedEducationAnalysis.getSimilarityIndicator (Some 0.7))
  = Analysis.color (UnifiedDemographicAnalysis.getSimilarityIndicator (Some 0.7)).
Proof.
  split.
  - apply (proj1 (tier_classifiers_agreement 0.7)).
  - apply (proj1 (proj2 (tier_classifiers_agreement 0.7))). left. lra.
Defined.

(** ** The score behind the quality badge (UnifiedDemographicAnalysis.js) *)

Lemma truthyNum_nonzero (q : Q) : ~ q == 0 -> JS.truthyNum q = true.
Proof.
  intro H. unfold JS.truthyNum.
  destruct (Qeq_bool q 0) eqn:E; [|reflexivity].
  apply Qeq_bool_iff in E. contradiction.
Qed.

Lemma perfect_match_iff (s : Q) :
  Analysis.text (UnifiedDemographicAnalysis.getSimilarityIndicator (Some s))
  = "Perfect Match" <-> 0.95 <= s.
Proof.
  unfold UnifiedDemographicAnalysis.getSimilarityIndicator.
  split_tier s 0.95.
  - simpl. split; [intros _; exact E | reflexivity].
  - destruct (JS.geq (Some s) 0.8); [|destruct (JS.geq (Some s) 0.5);
      [|destruct (JS.geq (Some s) 0.3)]];
      simpl; (split; [discriminate | intro H; exfalso; lra]).
Qed.

Lemma chart_panel_indicator (t : UnifiedDemographicAnalysis.AnalysisType)
    (selectedValue : string) (target : option string) (key : string)
    (d : Analysis.Outcome) (panel : Analysis.ChartPanel) :
  UnifiedDemographicAnalysis.renderDistributionChart t selectedValue target key d
  = JS.Ok (Some (Analysis.Chart panel)) ->
  Analysis.cp_indicator panel
  = UnifiedDemographicAnalysis.getSimilarityIndicator
      (Some (UnifiedDemographicAnalysis.scoreOf d)).
Proof.
  unfold UnifiedDemographicAnalysis.renderDistributionChart.
  destruct (Analysis.status d =? "success"); simpl; [|discriminate].
  destruct (Analysis.conditional_distribution d) as [cd |]; simpl; [|discriminate].
  destruct (Analysis.data cd) as [items |]; simpl; [|discriminate].
  destruct (Analysis.total_population d) as [pop |]; simpl; [|discriminate].
  intro H. injection H as H. subst panel. reflexivity.
Qed.

(** C2, as stated, fails: a successful outcome that carries no similarity
    and no overlap score is treated as having score 1.0 and gets the
    "Perfect Match" badge. *)
Lemma unscored_outcome_is_perfect_match :
  Analysis.similarity_score Examples.unscored = None /\
  Analysis.overlap_score Examples.unscored = None /\
  UnifiedDemographicAnalysis.scoreOf Examples.unscored = 1 /\
  exists panel,
    UnifiedDemographicAnalysis.renderDistributionChart
      UnifiedDemographicAnalysis.age "25 to 34 years" None "gender"
      Examples.unscored
    = JS.Ok (Some (Analysis.Chart panel)) /\
    Analysis.cp_indicator panel
    = {| Analysis.text := "Perfect Match"; Analysis.color := "#10b981" |}.
Proof.
  split; [reflexivity|]. split; [reflexivity|]. split; [reflexivity|].
  eexists. split; reflexivity.
Qed.

(** C2 (as the code has it). In the unified view the score behind the
    badge of a successful outcome is its similarity score when it carries
    one that is not 0, else its overlap score when it carries one that is
    not 0, and 1.0 when it carries neither: a score of 0 counts as
    missing, for the similarity score as for the overlap score.  The
    badge is "Perfect Match" exactly when that score is at least 0.95.
    So an outcome carrying a non-zero score below 0.95 is neither treated
    as 1.0 nor put in the top tier, while an outcome without any score
    is. *)
Theorem unified_score_and_top_tier :
  forall d : Analysis.Outcome,
    (forall s, Analysis.similarity_score d = Some s -> ~ s == 0 ->
               UnifiedDemographicAnalysis.scoreOf d = s) /\
    (forall o,
        (Analysis.similarity_score d = None \/
         exists s, Analysis.similarity_score d = Some s /\ s == 0) ->
        Analysis.overlap_score d = Some o -> ~ o == 0 ->
        UnifiedDemographicAnalysis.scoreOf d = o) /\
    ((Analysis.similarity_score d = None \/
      exists s, Analysis.similarity_score d = Some s /\ s == 0) ->
     (Analysis.overlap_score d = None \/
      exists o, Analysis.overlap_score d = Some o /\ o == 0) ->
     UnifiedDemographicAnalysis.scoreOf d = 1) /\
    (forall t selectedValue target key panel,
       UnifiedDemographicAnalysis.renderDistributionChart
         t selectedValue target key d = JS.Ok (Some (Analysis.Chart panel)) ->
       (Analysis.text (Analysis.cp_indicator panel) = "Perfect Match"
        <-> 0.95 <= UnifiedDemographicAnalysis.scoreOf d)).
Proof.
  intro d. unfold UnifiedDemographicAnalysis.scoreOf.
  assert (Hmissing : forall score : option Q,
             (score = None \/ exists z, score = Some z /\ z == 0) ->
             forall other, JS.orElseNum score other = other).
  { intros score [-> | [z [-> Hz]]] other; [reflexivity|].
    unfold JS.orElseNum, JS.truthyNum.
    apply Qeq_bool_iff in Hz. rewrite Hz. reflexivity. }
  split; [|split; [|split]].
  - intros s Hs Hnz. rewrite Hs. simpl.
    rewrite (truthyNum_nonzero s Hnz). simpl.
    rewrite (truthyNum_nonzero s Hnz). reflexivity.
  - intros o Hs Ho Hnz. rewrite (Hmissing _ Hs), Ho. simpl.
    rewrite (truthyNum_nonzero o Hnz). reflexivity.
  - intros Hs Ho. rewrite (Hmissing _ Hs).
    destruct Ho as [-> | [o [-> Hz]]]; [reflexivity|].
    unfold JS.orNum, JS.truthyNum. apply Qeq_bool_iff in Hz. rewrite Hz.
    reflexivity.
  - intros t selectedValue target key panel Hrender.
    rewrite (chart_panel_indicator _ _ _ _ _ _ Hrender).
    apply perfect_match_iff.
Qed.

(** The outcome matched with similarity 0.7 keeps its score and is not in
    the top tier; the outcome with similarity 0 gets its overlap score. *)
Lemma scored_outcome_keeps_its_score :
  UnifiedDemographicAnalysis.scoreOf Examples.scored = 0.7 /\
  UnifiedDemographicAnalysis.scoreOf Examples.overlapping = 0.85.
Proof.
  split.
  - apply (proj1 (unified_score_and_top_tier Examples.scored) 0.7).
    + reflexivity.
    + intro H. discriminate H.
  - apply (proj1 (proj2 (unified_score_and_top_tier Examples.overlapping)) 0.85).
    + right. exists 0. split; reflexivity.
    + reflexivity.
    + intro H. discriminate H.
Defined.

(** ** One panel per outcome (UnifiedDemographicAnalysis.js, part_001) *)
Section PanelPerOutcome.
Import Analysis.





(** What the completeness of a successful outcome protects against: a
    [success] outcome without its distribution makes the chart throw. *)
Lemma success_without_distribution_throws
    (t : UnifiedDemographicAnalysis.AnalysisType)
    (selectedValue : string) (target : option string) (key : string)
    (d : Outcome) :
  status d = "success" -> conditional_distribution d = None ->
  exists msg,
    UnifiedDemographicAnalysis.renderDistributionChart
      t selectedValue target key d = JS.TypeError msg.
Proof.
  intros Hs Hcd. unfold UnifiedDemographicAnalysis.renderDistributionChart.
  rewrite Hs, Hcd. simpl. eexists. reflexivity.
Qed.







End PanelPerOutcome.




(** ** Empty data renders nothing (App.js, IndividualDistributions.js,
    StorewiseDemographics.js) *)

(** On data that is present and not empty every component draws a
    chart of all the data. *)
Lemma charts_of_nonempty_data (x : App.DataPoint) (rest : list App.DataPoint)
    (title color type : string) :
  exists chart,
    App.DistributionChart (Some (x :: rest)) title color type = Some chart /\
    App.chart_data chart = x :: rest /\
    List.length (App.chart_ticks chart) = List.length (x :: rest).
Proof.
  eexists. split; [reflexivity|]. simpl. split; [reflexivity|].
  rewrite length_map. reflexivity.
Qed.





(** ** The response shape the views read (UnifiedDemographicAnalysis.js) *)
Section ResponseShape.
Import UnifiedDemographicAnalysis.











End ResponseShape.




(** ** Best-effort matching (specification 4.2 and 4.5, part_001) *)
Section BestEffortMatch.
Variable scoreOf : string -> string -> Q.
Variable explain : string -> string -> string.

Lemma best_in (inputString current : string) (rest : list string) :
  In (Spec.best scoreOf inputString current rest) (current :: rest).
Proof.
  revert current. induction rest as [| c rest IH]; intro current; simpl.
  - left. reflexivity.
  - destruct (Qle_bool (scoreOf inputString c) (scoreOf inputString current)).
    + destruct (IH current) as [H | H]; [left; exact H | right; right; exact H].
    + right. apply IH.
Qed.

Lemma best_keeps_score (inputString current : string) (rest : list string) :
  scoreOf inputString current
  <= scoreOf inputString (Spec.best scoreOf inputString current rest).
Proof.
  revert current. induction rest as [| c rest IH]; intro current; simpl.
  - apply Qle_refl.
  - destruct (Qle_bool (scoreOf inputString c) (scoreOf inputString current)) eqn:E.
    + apply IH.
    + apply Qle_trans with (scoreOf inputString c); [|apply IH].
      apply Qlt_le_weak. apply Qnot_le_lt. intro Hle.
      apply Qle_bool_iff in Hle. congruence.
Qed.

Lemma best_is_maximal (inputString current : string) (rest : list string) :
  forall c, In c (current :: rest) ->
            scoreOf inputString c
            <= scoreOf inputString (Spec.best scoreOf inputString current rest).
Proof.
  revert current. induction rest as [| c' rest IH]; intros current c Hin.
  - destruct Hin as [<- | []]. simpl. apply Qle_refl.
  - simpl.
    destruct (Qle_bool (scoreOf inputString c') (scoreOf inputString current)) eqn:E.
    + destruct Hin as [<- | [<- | Hin]].
      * apply best_keeps_score.
      * apply Qle_trans with (scoreOf inputString current);
          [apply Qle_bool_iff; exact E | apply best_keeps_score].
      * apply IH. right. exact Hin.
    + destruct Hin as [<- | Hin].
      * apply Qle_trans with (scoreOf inputString c'); [|apply best_keeps_score].
        apply Qlt_le_weak. apply Qnot_le_lt. intro Hle.
        apply Qle_bool_iff in Hle. congruence.
      * apply IH. exact Hin.
Qed.

(** A candidate above the floor threshold makes the match a confident
    one. *)
Lemma match_above_floor (inputString c : string) (rest : list string) :
  (exists c', In c' (c :: rest) /\ Spec.floorThreshold < scoreOf inputString c') ->
  exists r, Spec.match_ scoreOf explain inputString (c :: rest) = Some r /\
            Spec.classification r = Spec.matched_ok.
Proof.
  intros [c' [Hin Habove]]. eexists. split; [reflexivity|]. simpl.
  destruct (Qle_bool (scoreOf inputString (Spec.best scoreOf inputString c rest))
                     Spec.floorThreshold) eqn:E; [|reflexivity].
  apply Qle_bool_iff in E. exfalso.
  apply (Qlt_not_le _ _ Habove).
  apply Qle_trans with (2 := E). apply best_is_maximal. exact Hin.
Qed.

End BestEffortMatch.

(** C4. Matching a string against a non-empty candidate list always
    returns a result: the best-scoring candidate, whatever its score.
    When no candidate scores above the floor threshold 0.15 the result is
    classified 'no_match'; the outcome recorded for it has status
    'no_match' and still carries the matched category, and the failure
    panel of the education view shows that category as the best match
    found. *)
Theorem no_match_keeps_best_effort :
  forall (scoreOf : string -> string -> Q) (explain : string -> string -> string)
         (inputString : string) (candidates : list string)
         (tableName key : string),
    candidates <> [] ->
    exists r,
      Spec.match_ scoreOf explain inputString candidates = Some r /\
      In (Spec.matched r) candidates /\
      Spec.score r = scoreOf inputString (Spec.matched r) /\
      (forall c, In c candidates -> scoreOf inputString c <= Spec.score r) /\
      ((forall c, In c candidates ->
                  scoreOf inputString c <= Spec.floorThreshold) ->
       Spec.classification r = Spec.no_match /\
       Analysis.status (Spec.noMatchOutcome tableName r) = "no_match" /\
       Analysis.prop (Spec.noMatchOutcome tableName r) "matched_education"
       = Some (Spec.matched r) /\
       exists fp,
         UnifiedEducationAnalysis.renderFailedDistribution key
           (Spec.noMatchOutcome tableName r) = Analysis.Failed fp /\
         Analysis.fp_statusText fp = "⚠ No Match" /\
         Analysis.fp_bestMatch fp
         = if Spec.matched r =? "" then None else Some (Spec.matched r)).
Proof.
  intros scoreOf explain inputString candidates tableName key Hne.
  destruct candidates as [| c rest]; [contradiction|].
  eexists. split; [reflexivity|]. simpl.
  split; [apply best_in|]. split; [reflexivity|].
  split; [apply best_is_maximal|].
  intro Hfloor.
  assert (Hbest : scoreOf inputString (Spec.best scoreOf inputString c rest)
                  <= Spec.floorThreshold).
  { apply Hfloor. apply best_in. }
  apply Qle_bool_iff in Hbest. rewrite Hbest.
  split; [reflexivity|]. split; [reflexivity|]. split; [reflexivity|].
  eexists. split; [reflexivity|]. simpl. split; [reflexivity|].
  unfold JS.truthyStr.
  destruct (Spec.best scoreOf inputString c rest =? ""); reflexivity.
Qed.

(** An input that resembles no education level is still matched to a
    level, classified 'no_match', and the failure panel shows the level. *)
Lemma nonsense_input_still_matched :
  exists r,
    Spec.match_ Examples.exactScore Examples.exactExplain
      "xyz-nonsense" Examples.educationLevels = Some r /\
    Spec.classification r = Spec.no_match /\
    exists fp,
      UnifiedEducationAnalysis.renderFailedDistribution "age"
        (Spec.noMatchOutcome "Age by Education" r) = Analysis.Failed fp /\
      Analysis.fp_bestMatch fp = Some "Less than 9th grade".
Proof.
  destruct (no_match_keeps_best_effort
              Examples.exactScore Examples.exactExplain
              "xyz-nonsense" Examples.educationLevels "Age by Education" "age")
    as [r [Hmatch [_ [_ [_ Hno]]]]].
  - discriminate.
  - exists r. split; [exact Hmatch|].
    destruct Hno as [Hclass [_ [_ [fp [Hfp [_ Hbest]]]]]].
    + intros c Hin. simpl in Hin.
      destruct Hin as [<- | [<- | [<- | []]]]; vm_compute; discriminate.
    + split; [exact Hclass|]. exists fp. split; [exact Hfp|].
      rewrite Hbest. vm_compute in Hmatch.
      injection Hmatch as <-. reflexivity.
Defined.

(* ================================================================== *)
(** * Part III: further properties of the views *)
(* ================================================================== *)

(** ** Grouping the trade-area properties (StorewiseDemographics.js) *)
Section StorewiseProcessing.
Import StorewiseDemographics.

Local Abbreviation largestFirst := (fun a b : Item => population b - population a).

Lemma group_step (ds : list (string * list Item)) (entry : string * Q) :
  group ds entry =
  match JS.lookup (dataTypeOf entry) ds with
  | Some _ => JS.Ok (pushInto (dataTypeOf entry) (itemOf entry) ds)
  | None =>
      if JS.inherited (dataTypeOf entry)
      then JS.TypeError "distributions[dataType].push is not a function"
      else JS.Ok (pushInto (dataTypeOf entry) (itemOf entry) ds)
  end.
Proof.
  destruct entry as [key pop]. unfold group, dataTypeOf, itemOf. simpl.
  destruct (parseKey key) as [dataType category]. reflexivity.
Qed.

Lemma lookup_pushInto (t k : string) (it : Item) (ds : list (string * list Item)) :
  JS.lookup k (pushInto t it ds) =
  if t =? k
  then Some (match JS.lookup t ds with
             | Some items => items ++ [it]
             | None => [it]
             end)
  else JS.lookup k ds.
Proof.
  induction ds as [| [k0 items] rest IH]; simpl.
  - destruct (t =? k); reflexivity.
  - destruct (String.eqb_spec k0 t) as [-> | Hk0]; simpl.
    + destruct (t =? k); reflexivity.
    + destruct (String.eqb_spec k0 k) as [-> | Hk].
      * destruct (String.eqb_spec t k) as [-> | _]; [contradiction | reflexivity].
      * exact IH.
Qed.

Lemma keys_pushInto (t : string) (it : Item) (ds : list (string * list Item)) :
  map fst (pushInto t it ds) =
  match JS.lookup t ds with
  | Some _ => map fst ds
  | None => map fst ds ++ [t]
  end.
Proof.
  induction ds as [| [k0 items] rest IH]; simpl; [reflexivity|].
  destruct (k0 =? t); simpl; [reflexivity|].
  rewrite IH. destruct (JS.lookup t rest); reflexivity.
Qed.

Lemma lookup_None_not_key {V : Type} (k : string) (table : list (string * V)) :
  JS.lookup k table = None <-> ~ In k (map fst table).
Proof.
  induction table as [| [k0 v] rest IH]; simpl.
  - split; [intros _ [] | reflexivity].
  - destruct (String.eqb_spec k0 k) as [-> | Hne].
    + split; [discriminate | intro H; exfalso; apply H; left; reflexivity].
    + rewrite IH. split; [intros H [E | Hin]; [contradiction | auto] | auto].
Qed.

Lemma lookup_In {V : Type} (k : string) (v : V) (table : list (string * V)) :
  NoDup (map fst table) -> (In (k, v) table <-> JS.lookup k table = Some v).
Proof.
  induction table as [| [k0 v0] rest IH]; simpl; intro Hnd.
  - split; [intros [] | discriminate].
  - inversion Hnd as [| ? ? Hnotin Hnd']; subst.
    destruct (String.eqb_spec k0 k) as [-> | Hne].
    + split.
      * intros [E | Hin]; [congruence|].
        exfalso. apply Hnotin. apply (in_map fst) in Hin. exact Hin.
      * intro E. left. congruence.
    + rewrite <- (IH Hnd'). split; [intros [E | Hin]; [congruence | exact Hin] | auto].
Qed.

Lemma itemsOf_app (k : string) (p q : list (string * Q)) :
  itemsOf k (p ++ q) = itemsOf k p ++ itemsOf k q.
Proof.
  unfold itemsOf. rewrite filter_app, map_app. reflexivity.
Qed.

Lemma grouped_step (seen : list (string * Q)) (ds ds' : list (string * list Item))
    (entry : string * Q) :
  grouped seen ds -> group ds entry = JS.Ok ds' -> grouped (seen ++ [entry]) ds'.
Proof.
  intros [Hnd [Hinh Hlook]] Hstep. rewrite group_step in Hstep.
  assert (Hds' : ds' = pushInto (dataTypeOf entry) (itemOf entry) ds /\
                 (JS.lookup (dataTypeOf entry) ds = None ->
                  JS.inherited (dataTypeOf entry) = false)).
  { destruct (JS.lookup (dataTypeOf entry) ds).
    - injection Hstep as <-. split; [reflexivity | discriminate].
    - destruct (JS.inherited (dataTypeOf entry)); [discriminate|].
      injection Hstep as <-. split; reflexivity. }
  destruct Hds' as [-> Hfresh]. split; [|split].
  - rewrite keys_pushInto.
    destruct (JS.lookup (dataTypeOf entry) ds) eqn:E; [exact Hnd|].
    apply NoDup_app_remove_l with (l := []). simpl.
    apply Permutation_NoDup with (l := dataTypeOf entry :: map fst ds).
    + apply Permutation_cons_append.
    + constructor; [|exact Hnd]. apply lookup_None_not_key. exact E.
  - intros k Hk. rewrite keys_pushInto in Hk.
    destruct (JS.lookup (dataTypeOf entry) ds) eqn:E; [apply Hinh; exact Hk|].
    apply in_app_or in Hk. destruct Hk as [Hk | [<- | []]];
      [apply Hinh; exact Hk | apply Hfresh; reflexivity].
  - intro k. rewrite lookup_pushInto, itemsOf_app.
    unfold itemsOf at 2. simpl.
    destruct (String.eqb_spec (dataTypeOf entry) k) as [<- | Hne].
    + rewrite Hlook. simpl.
      destruct (itemsOf (dataTypeOf entry) seen) as [| it0 items]; reflexivity.
    + simpl. rewrite app_nil_r. apply Hlook.
Qed.

Lemma grouped_fold (props seen : list (string * Q))
    (ds ds' : list (string * list Item)) :
  grouped seen ds -> JS.foldM group props ds = JS.Ok ds' ->
  grouped (seen ++ props) ds'.
Proof.
  revert seen ds. induction props as [| entry rest IH]; intros seen ds Hg Hfold.
  - simpl in Hfold. injection Hfold as <-. rewrite app_nil_r. exact Hg.
  - simpl in Hfold. destruct (group ds entry) as [ds1 | msg] eqn:Hstep;
      simpl in Hfold; [|discriminate].
    replace (seen ++ entry :: rest) with ((seen ++ [entry]) ++ rest)
      by (rewrite <- app_assoc; reflexivity).
    apply (IH _ ds1); [|exact Hfold].
    apply (grouped_step seen ds); assumption.
Qed.

Lemma grouped_nil : grouped [] [].
Proof.
  split; [constructor|]. split; [intros k []|]. intro k. reflexivity.
Qed.

(** *** The numeric sort *)

Lemma insertNum_perm {A : Type} (f : A -> A -> Q) (x : A) (l : list A) :
  Permutation (x :: l) (JS.insertNum f x l).
Proof.
  induction l as [| y rest IH]; simpl; [apply Permutation_refl|].
  destruct (Qle_bool (f x y) 0); [apply Permutation_refl|].
  apply perm_trans with (y :: x :: rest); [apply perm_swap|].
  apply perm_skip. exact IH.
Qed.

Lemma sortNum_perm {A : Type} (f : A -> A -> Q) (l : list A) :
  Permutation l (JS.sortNum f l).
Proof.
  induction l as [| x rest IH]; simpl; [apply perm_nil|].
  apply perm_trans with (x :: JS.sortNum f rest).
  - apply perm_skip. exact IH.
  - apply insertNum_perm.
Qed.

Lemma insertNum_largestFirst (x : Item) (l : list Item) :
  StronglySorted (fun a b => population b <= population a) l ->
  StronglySorted (fun a b => population b <= population a)
                 (JS.insertNum largestFirst x l).
Proof.
  induction 1 as [| y rest Hsorted IH Hall]; simpl.
  - constructor; constructor.
  - destruct (Qle_bool (population y - population x) 0) eqn:E.
    + apply Qle_bool_iff in E.
      assert (Hyx : population y <= population x) by lra.
      constructor; [constructor; assumption|].
      constructor; [exact Hyx|].
      eapply Forall_impl; [|exact Hall].
      simpl. intros z Hz. lra.
    + assert (Hxy : population x <= population y).
      { apply Qlt_le_weak. apply Qnot_le_lt. intro Hle.
        assert (Hb : Qle_bool (population y - population x) 0 = true)
          by (apply Qle_bool_iff; lra).
        congruence. }
      constructor; [exact IH|].
      eapply Permutation_Forall; [apply (insertNum_perm largestFirst)|].
      constructor; [exact Hxy | exact Hall].
Qed.

Lemma sortNum_largestFirst (l : list Item) :
  StronglySorted (fun a b => population b <= population a)
                 (JS.sortNum largestFirst l).
Proof.
  induction l as [| x rest IH]; simpl; [constructor|].
  apply insertNum_largestFirst. exact IH.
Qed.

Lemma sumCounts_perm (l l' : list Item) :
  Permutation l l' -> sumCounts l == sumCounts l'.
Proof.
  induction 1; simpl.
  - reflexivity.
  - rewrite IHPermutation. reflexivity.
  - ring.
  - rewrite IHPermutation1. exact IHPermutation2.
Qed.

(** *** The processed groups *)

Lemma processed_groups (raw : RawData) (props : list (string * Q))
    (processed : list (string * list Item)) :
  properties raw = Some props ->
  processStorewiseData (Some raw) = JS.Ok processed ->
  exists ds,
    JS.foldM group props [] = JS.Ok ds /\ grouped props ds /\
    processed = map (fun g => (fst g, JS.sortNum largestFirst (snd g))) ds.
Proof.
  intros Hprops Hproc. unfold processStorewiseData in Hproc.
  rewrite Hprops in Hproc.
  destruct (JS.foldM group props []) as [ds | msg] eqn:Hfold;
    simpl in Hproc; [|discriminate].
  injection Hproc as <-. exists ds. split; [reflexivity|].
  split; [|reflexivity].
  apply (grouped_fold props [] [] ds grouped_nil Hfold).
Qed.

Lemma groupOf_Some (items found : list Item) :
  groupOf items = Some found -> found = items /\ items <> [].
Proof.
  destruct items; simpl; [discriminate|].
  intro H. injection H as <-. split; [reflexivity | discriminate].
Qed.

Lemma itemsOf_nonempty (k : string) (props : list (string * Q)) :
  itemsOf k props <> [] <->
  exists entry, In entry props /\ dataTypeOf entry = k.
Proof.
  unfold itemsOf. split.
  - intro Hne.
    destruct (filter (fun entry => dataTypeOf entry =? k) props)
      as [| entry rest] eqn:Hf; [contradiction Hne; reflexivity|].
    assert (Hin : In entry (filter (fun entry => dataTypeOf entry =? k) props))
      by (rewrite Hf; left; reflexivity).
    apply filter_In in Hin. destruct Hin as [Hin Heq].
    exists entry. split; [exact Hin|]. apply String.eqb_eq. exact Heq.
  - intros [entry [Hin Heq]] Hnil.
    assert (Hf : In entry (filter (fun entry => dataTypeOf entry =? k) props)).
    { apply filter_In. split; [exact Hin|]. apply String.eqb_eq. exact Heq. }
    apply (in_map itemOf) in Hf. rewrite Hnil in Hf. exact Hf.
Qed.

(** X1. The groups of the processed trade area are keyed by distinct data
    types, one for every data type that occurs as the first segment of a
    property key; each group holds exactly the items of its type (none is
    lost or moved to another group, no group is empty) and lists them by
    population, largest first. *)
Theorem trade_area_groups :
  forall (raw : RawData) (props : list (string * Q))
         (processed : list (string * list Item)),
    properties raw = Some props ->
    processStorewiseData (Some raw) = JS.Ok processed ->
    NoDup (map fst processed) /\
    (forall dataType,
        In dataType (map fst processed) <->
        exists entry, In entry props /\ dataTypeOf entry = dataType) /\
    (forall dataType items,
        In (dataType, items) processed ->
        items <> [] /\
        Permutation (itemsOf dataType props) items /\
        StronglySorted (fun a b => population b <= population a) items).
Proof.
  intros raw props processed Hprops Hproc.
  destruct (processed_groups raw props processed Hprops Hproc)
    as [ds [_ [[Hnd [_ Hlook]] ->]]].
  assert (Hkeys : map fst (map (fun g => (fst g, JS.sortNum largestFirst (snd g))) ds)
                  = map fst ds).
  { rewrite map_map. apply map_ext. reflexivity. }
  rewrite Hkeys. split; [exact Hnd|]. split.
  - intro k. rewrite <- itemsOf_nonempty. split.
    + intros Hin Hnil.
      assert (Hnone : JS.lookup k ds = None) by (rewrite Hlook, Hnil; reflexivity).
      apply lookup_None_not_key in Hnone. contradiction.
    + intro Hne. destruct (in_dec string_dec k (map fst ds)) as [Hin | Hout];
        [exact Hin|].
      apply lookup_None_not_key in Hout. rewrite Hlook in Hout.
      destruct (itemsOf k props); [contradiction Hne; reflexivity | discriminate].
  - intros k items Hin. apply in_map_iff in Hin.
    destruct Hin as [[k0 items0] [Heq Hin0]]. simpl in Heq.
    injection Heq as -> <-.
    apply (lookup_In k items0 ds Hnd) in Hin0. rewrite Hlook in Hin0.
    apply groupOf_Some in Hin0. destruct Hin0 as [-> Hne].
    split; [|split].
    + intro Hnil. apply Hne.
      apply Permutation_nil. rewrite <- Hnil at 1.
      apply Permutation_sym. apply sortNum_perm.
    + apply sortNum_perm.
    + apply sortNum_largestFirst.
Qed.

(** The two groups of the example response: each sorted, largest first. *)
Lemma block_groups_processed :
  processStorewiseData (Some Examples.blockGroups) =
  JS.Ok [ ("Age", [ {| category := "65 and over"; population := 200 |};
                    {| category := "18 to 24"; population := 120 |} ]);
          ("Gender", [ {| category := "Female"; population := 110 |};
                       {| category := "Male"; population := 90 |} ]) ] /\
  NoDup [ "Age"; "Gender" ] /\
  StronglySorted (fun a b => population b <= population a)
                 [ {| category := "65 and over"; population := 200 |};
                   {| category := "18 to 24"; population := 120 |} ].
Proof.
  split; [reflexivity|].
  destruct (trade_area_groups Examples.blockGroups _ _ eq_refl eq_refl)
    as [Hkeys [_ Hgroups]].
  split; [exact Hkeys|].
  apply (Hgroups "Age"). left. reflexivity.
Defined.

(** *** Failure of the grouping loop *)

Lemma group_throws (seen : list (string * Q)) (ds : list (string * list Item))
    (entry : string * Q) :
  grouped seen ds ->
  if JS.inherited (dataTypeOf entry)
  then group ds entry = JS.TypeError "distributions[dataType].push is not a function"
  else group ds entry = JS.Ok (pushInto (dataTypeOf entry) (itemOf entry) ds).
Proof.
  intros [_ [Hinh _]]. rewrite group_step.
  destruct (JS.lookup (dataTypeOf entry) ds) as [items |] eqn:E.
  - assert (Hkey : In (dataTypeOf entry) (map fst ds)).
    { destruct (in_dec string_dec (dataTypeOf entry) (map fst ds)) as [H | H];
        [exact H|].
      apply lookup_None_not_key in H. congruence. }
    rewrite (Hinh _ Hkey). reflexivity.
  - destruct (JS.inherited (dataTypeOf entry)); reflexivity.
Qed.

Lemma foldM_group_throws (props seen : list (string * Q))
    (ds : list (string * list Item)) :
  grouped seen ds ->
  ((exists msg, JS.foldM group props ds = JS.TypeError msg) <->
   exists entry, In entry props /\ JS.inherited (dataTypeOf entry) = true).
Proof.
  revert seen ds. induction props as [| entry rest IH]; intros seen ds Hg.
  - simpl. split; [intros [msg H]; discriminate | intros [entry [[] _]]].
  - simpl. pose proof (group_throws seen ds entry Hg) as Hstep.
    destruct (JS.inherited (dataTypeOf entry)) eqn:Einh.
    + rewrite Hstep. simpl. split.
      * intros _. exists entry. split; [left; reflexivity | exact Einh].
      * intros _. eexists. reflexivity.
    + rewrite Hstep. simpl.
      assert (Hg' : grouped (seen ++ [entry])
                            (pushInto (dataTypeOf entry) (itemOf entry) ds))
        by (apply (grouped_step seen ds); assumption).
      rewrite (IH _ _ Hg'). split.
      * intros [e [Hin He]]. exists e. split; [right; exact Hin | exact He].
      * intros [e [[<- | Hin] He]]; [congruence|].
        exists e. split; assumption.
Qed.

(** X2. Processing a trade area fails (with a TypeError, in the grouping
    loop) exactly when the data type of one of its property keys, the text
    before the first underscore, is a name every object inherits, such as
    [constructor] or [toString]; a missing response or a response without
    properties never fails. *)
Theorem processing_fails_on_inherited_names :
  forall rawData : option RawData,
    (exists msg, processStorewiseData rawData = JS.TypeError msg) <->
    (exists raw props entry,
        rawData = Some raw /\ properties raw = Some props /\
        In entry props /\ JS.inherited (dataTypeOf entry) = true).
Proof.
  intros [raw |]; simpl.
  - destruct (properties raw) as [props |] eqn:Hprops.
    + pose proof (foldM_group_throws props [] [] grouped_nil) as Hiff.
      split.
      * intros [msg Hmsg].
        destruct (JS.foldM group props []) as [ds | msg'] eqn:Hfold;
          simpl in Hmsg; [discriminate|].
        destruct (proj1 Hiff) as [entry [Hin Hinh]]; [eexists; reflexivity|].
        exists raw, props, entry. repeat split; assumption.
      * intros [raw' [props' [entry [Hraw [Hprops' [Hin Hinh]]]]]].
        injection Hraw as <-. rewrite Hprops in Hprops'. injection Hprops' as <-.
        destruct (proj2 Hiff) as [msg Hmsg]; [exists entry; split; assumption|].
        rewrite Hmsg. simpl. eexists. reflexivity.
    + split.
      * intros [msg Hmsg]. discriminate.
      * intros [raw' [props' [entry [Hraw [Hprops' _]]]]].
        injection Hraw as <-. congruence.
  - split.
    + intros [msg Hmsg]. discriminate.
    + intros [raw' [props' [entry [Hraw _]]]]. discriminate.
Qed.

(** *** Property keys *)

Lemma includes_char (c x : ascii) (s : string) :
  JS.includes (String c "") (String x s) =
  Ascii.eqb x c || JS.includes (String c "") s.
Proof.
  cbn [JS.includes String.prefix].
  destruct (ascii_dec c x) as [<- | Hne].
  - rewrite Ascii.eqb_refl. destruct s; reflexivity.
  - destruct (Ascii.eqb_spec x c) as [-> | _]; [contradiction Hne; reflexivity|].
    reflexivity.
Qed.

Lemma splitOn_cons (sep : ascii) (s : string) :
  exists first others, JS.splitOn sep s = first :: others.
Proof.
  destruct s as [| c rest]; simpl; [eexists; eexists; reflexivity|].
  destruct (Ascii.eqb c sep); [eexists; eexists; reflexivity|].
  destruct (JS.splitOn sep rest); eexists; eexists; reflexivity.
Qed.

(** Splitting at the first separator. *)
Lemma splitOn_first (sep : ascii) (t rest : string) :
  JS.includes (String sep "") t = false ->
  JS.splitOn sep t = [t] /\
  JS.splitOn sep (t ++ String sep rest) = t :: JS.splitOn sep rest.
Proof.
  induction t as [| c t' IH]; intro Hno.
  - simpl. rewrite Ascii.eqb_refl. split; reflexivity.
  - rewrite includes_char in Hno. apply orb_false_iff in Hno.
    destruct Hno as [Hc Hno]. destruct (IH Hno) as [IH1 IH2].
    simpl. rewrite Hc, IH1, IH2. split; reflexivity.
Qed.

Lemma joinWith_cons (sep part next : string) (rest : list string) :
  JS.joinWith sep (part :: next :: rest) =
  (part ++ sep ++ JS.joinWith sep (next :: rest))%string.
Proof. reflexivity. Qed.

(** [split] and [join] with the same separator are inverse. *)
Lemma joinWith_splitOn (sep : ascii) (s : string) :
  JS.joinWith (String sep "") (JS.splitOn sep s) = s.
Proof.
  induction s as [| c rest IH]; [reflexivity|].
  cbn [JS.splitOn].
  destruct (splitOn_cons sep rest) as [first [others E]].
  rewrite E in *.
  destruct (Ascii.eqb_spec c sep) as [-> | Hne].
  - rewrite joinWith_cons, IH. reflexivity.
  - destruct others as [| second others'].
    + simpl in *. rewrite IH. reflexivity.
    + rewrite joinWith_cons in *. rewrite <- IH. reflexivity.
Qed.

Lemma replaceAllChar_removes (c d : ascii) (s : string) :
  c <> d -> JS.includes (String c "") (JS.replaceAllChar c d s) = false.
Proof.
  intro Hne. induction s as [| x rest IH]; [reflexivity|].
  cbn [JS.replaceAllChar]. rewrite includes_char, IH.
  destruct (Ascii.eqb_spec x c) as [-> | Hx].
  - destruct (Ascii.eqb_spec d c) as [-> | _]; [contradiction Hne|]; reflexivity.
  - destruct (Ascii.eqb_spec x c) as [-> | _]; [contradiction Hx|]; reflexivity.
Qed.

(** X3. A property key is read as its data type, the text before the
    first underscore, and its category, the rest of the key with every
    underscore turned into a space: a key without an underscore is a data
    type with the empty category, and no category contains an
    underscore. *)
Theorem property_key_parts :
  forall dataType rest : string,
    JS.includes "_" dataType = false ->
    parseKey dataType = (dataType, "") /\
    parseKey (dataType ++ "_" ++ rest) =
      (dataType, JS.replaceAllChar "_" " " rest) /\
    JS.includes "_" (JS.replaceAllChar "_" " " rest) = false.
Proof.
  intros dataType rest Hno.
  destruct (splitOn_first "_" dataType rest Hno) as [Hone Hsplit].
  unfold parseKey. split; [|split].
  - rewrite Hone. reflexivity.
  - change ("_" ++ rest)%string with (String "_" rest).
    rewrite Hsplit, joinWith_splitOn. reflexivity.
  - apply replaceAllChar_removes. discriminate.
Qed.

(** The keys of the example response. *)
Lemma property_key_examples :
  parseKey "Total" = ("Total", "") /\
  parseKey "Age_65_and_over" = ("Age", "65 and over").
Proof.
  destruct (property_key_parts "Total" "" eq_refl) as [Htotal _].
  destruct (property_key_parts "Age" "65_and_over" eq_refl) as [_ [Hage _]].
  split; [exact Htotal | exact Hage].
Defined.

(** *** The summary card and the charts *)

Lemma insertIndexed_perm {V : Type} (n : N) (entry : string * V)
    (l : list (N * (string * V))) :
  Permutation ((n, entry) :: l) (JS.insertIndexed n entry l).
Proof.
  induction l as [| [m e] rest IH]; simpl; [apply Permutation_refl|].
  destruct (n <=? m)%N; [apply Permutation_refl|].
  apply perm_trans with ((m, e) :: (n, entry) :: rest); [apply perm_swap|].
  apply perm_skip. exact IH.
Qed.

(** [Object.entries] enumerates every property once. *)
Lemma ownEntries_perm {V : Type} (fields : list (string * V)) :
  Permutation (JS.ownEntries fields) fields.
Proof.
  unfold JS.ownEntries.
  induction fields as [| [k v] rest IH]; simpl; [apply perm_nil|].
  destruct (JS.arrayIndex k) as [n |]; simpl.
  - apply perm_trans
      with (map snd ((n, (k, v)) :: JS.indexedEntries rest) ++
            filter (fun entry => match JS.arrayIndex (fst entry) with
                                 | Some _ => false
                                 | None => true
                                 end) rest).
    + apply Permutation_app_tail. apply Permutation_map.
      apply Permutation_sym. apply insertIndexed_perm.
    + simpl. apply perm_skip. exact IH.
  - apply Permutation_sym. apply Permutation_cons_app.
    apply Permutation_sym. exact IH.
Qed.

Lemma sumQ_perm (l l' : list Q) : Permutation l l' -> sumQ l == sumQ l'.
Proof.
  induction 1; simpl.
  - reflexivity.
  - rewrite IHPermutation. reflexivity.
  - ring.
  - rewrite IHPermutation1. exact IHPermutation2.
Qed.

Lemma sumCounts_app (l l' : list Item) :
  sumCounts (l ++ l') == sumCounts l + sumCounts l'.
Proof.
  induction l as [| it rest IH]; simpl; [ring|]. rewrite IH. ring.
Qed.

Lemma groupsTotal_pushInto (t : string) (it : Item)
    (ds : list (string * list Item)) :
  groupsTotal (pushInto t it ds) == groupsTotal ds + population it.
Proof.
  unfold groupsTotal.
  induction ds as [| [k items] rest IH]; simpl; [ring|].
  destruct (k =? t); simpl.
  - rewrite sumCounts_app. simpl. ring.
  - rewrite IH. ring.
Qed.

Lemma groupsTotal_fold (props : list (string * Q))
    (ds ds' : list (string * list Item)) :
  JS.foldM group props ds = JS.Ok ds' ->
  groupsTotal ds' == groupsTotal ds + sumQ (map snd props).
Proof.
  revert ds. induction props as [| entry rest IH]; intros ds Hfold; simpl in *.
  - injection Hfold as <-. ring.
  - destruct (group ds entry) as [ds1 | msg] eqn:Hstep; simpl in Hfold;
      [|discriminate].
    rewrite (IH _ Hfold).
    assert (Hds1 : ds1 = pushInto (dataTypeOf entry) (itemOf entry) ds).
    { rewrite group_step in Hstep.
      destruct (JS.lookup (dataTypeOf entry) ds);
        [|destruct (JS.inherited (dataTypeOf entry)); [discriminate|]];
        injection Hstep as <-; reflexivity. }
    rewrite Hds1, groupsTotal_pushInto. simpl. ring.
Qed.

Lemma groupsTotal_sorted (ds : list (string * list Item)) :
  groupsTotal (map (fun g => (fst g, JS.sortNum largestFirst (snd g))) ds)
  == groupsTotal ds.
Proof.
  unfold groupsTotal.
  induction ds as [| g rest IH]; simpl; [reflexivity|].
  rewrite IH. rewrite <- (sumCounts_perm _ _ (sortNum_perm largestFirst (snd g))).
  reflexivity.
Qed.

Lemma fold_left_sumQ (l : list Q) (acc : Q) :
  fold_left (fun sum pop => sum + pop) l acc == acc + sumQ l.
Proof.
  revert acc. induction l as [| q rest IH]; intro acc; simpl; [ring|].
  rewrite IH. ring.
Qed.

Lemma grouped_nonempty (seen : list (string * Q))
    (ds : list (string * list Item)) :
  grouped seen ds -> Forall (fun g => snd g <> []) ds.
Proof.
  intros [Hnd [_ Hlook]]. apply Forall_forall. intros [k items] Hin. simpl.
  apply (lookup_In k items ds Hnd) in Hin. rewrite Hlook in Hin.
  apply groupOf_Some in Hin. destruct Hin as [-> Hne]. exact Hne.
Qed.

Lemma map_item_chartDataOf (data : list Item) :
  map item (chartDataOf data) = data.
Proof.
  unfold chartDataOf. rewrite map_map. simpl. apply map_id.
Qed.

Lemma DistributionChart_of_group (title dataType chartType : string)
    (data : list Item) :
  data <> [] ->
  exists chart,
    DistributionChart title (Some data) dataType (Some chartType) = Some chart /\
    titleOf chart = title /\ map item (dataOf chart) = data /\
    shownTotal chart = totalOf data.
Proof.
  intro Hne. destruct data as [| it items]; [contradiction Hne; reflexivity|].
  unfold DistributionChart.
  destruct (chartType =? "pie"); eexists; (split; [reflexivity|]);
    cbn [titleOf dataOf shownTotal]; rewrite map_item_chartDataOf;
    repeat split.
Qed.

(** The charts drawn for groups none of which is empty. *)
Lemma charts_of_groups (chartType : string) (entries : list (string * list Item)) :
  Forall (fun g => snd g <> []) entries ->
  exists charts,
    map (fun entry : string * list Item =>
           let '(dataType, data) := entry in
           DistributionChart (dataType ++ " Distribution in Trade Area")%string
                             (Some data) dataType (Some chartType)) entries
    = map Some charts /\
    Forall2 (fun entry chart =>
               titleOf chart = (fst entry ++ " Distribution in Trade Area")%string /\
               map item (dataOf chart) = snd entry /\
               shownTotal chart = totalOf (snd entry)) entries charts.
Proof.
  induction 1 as [| [dataType data] rest Hne _ [charts [Hmap Hall]]].
  - exists []. split; [reflexivity | constructor].
  - cbn [snd] in Hne.
    destruct (DistributionChart_of_group
                (dataType ++ " Distribution in Trade Area")%string
                dataType chartType data Hne) as [chart [Hchart Hprops]].
    exists (chart :: charts). split.
    + cbn [map]. rewrite Hmap, Hchart. reflexivity.
    + constructor; [exact Hprops | exact Hall].
Qed.

Lemma charts_total (entries : list (string * list Item)) (charts : list Chart) :
  Forall2 (fun entry chart =>
             titleOf chart = (fst entry ++ " Distribution in Trade Area")%string /\
             map item (dataOf chart) = snd entry /\
             shownTotal chart = totalOf (snd entry)) entries charts ->
  sumQ (map shownTotal charts) == groupsTotal entries.
Proof.
  unfold groupsTotal. induction 1 as [| entry chart rest charts' [_ [_ Ht]] _ IH];
    simpl; [reflexivity|].
  rewrite IH, Ht, totalOf_sumCounts. reflexivity.
Qed.

Lemma groupsTotal_perm (ds ds' : list (string * list Item)) :
  Permutation ds ds' -> groupsTotal ds == groupsTotal ds'.
Proof.
  intro H. unfold groupsTotal. apply sumQ_perm. apply Permutation_map. exact H.
Qed.

(** X4. The summary card agrees with the charts below it: every data
    type of the processed trade area gets a chart (none of them is
    empty), so the number of charts is the number shown as "Data
    Categories", each chart is titled after its data type and plots the
    items of its group in their order, and the totals printed on the
    charts add up to the "Total Population" of the summary card. *)
Theorem summary_card_matches_charts :
  forall (storewiseData : RawData) (chartType : string)
         (processed : list (string * list Item)),
    processedData (Some storewiseData) = JS.Ok processed ->
    exists charts,
      distributionCharts chartType processed = map Some charts /\
      List.length charts = List.length processed /\
      Forall2 (fun entry chart =>
                 titleOf chart = (fst entry ++ " Distribution in Trade Area")%string /\
                 map item (dataOf chart) = snd entry /\
                 shownTotal chart = totalOf (snd entry))
              (JS.ownEntries processed) charts /\
      sumQ (map shownTotal charts) == totalPopulation (Some storewiseData).
Proof.
  intros raw chartType processed Hproc.
  change (processStorewiseData (Some raw) = JS.Ok processed) in Hproc.
  assert (Hinv : Forall (fun g => snd g <> []) processed /\
                 groupsTotal processed == totalPopulation (Some raw)).
  { unfold totalPopulation. rewrite fold_left_sumQ.
    destruct (properties raw) as [props |] eqn:Hprops.
    - destruct (processed_groups raw props processed Hprops Hproc)
        as [ds [Hfold [Hg ->]]]. split.
      + apply Forall_map. simpl.
        eapply Forall_impl; [|apply (grouped_nonempty props ds Hg)].
        intros g Hne Hnil. apply Hne. apply Permutation_nil.
        rewrite <- Hnil. apply Permutation_sym. apply sortNum_perm.
      + rewrite groupsTotal_sorted, (groupsTotal_fold props [] ds Hfold).
        reflexivity.
    - unfold processStorewiseData in Hproc. rewrite Hprops in Hproc.
      injection Hproc as <-. split; [constructor | reflexivity]. }
  destruct Hinv as [Hne Htotal].
  assert (Hne' : Forall (fun g => snd g <> []) (JS.ownEntries processed)).
  { eapply Permutation_Forall; [|exact Hne].
    apply Permutation_sym. apply ownEntries_perm. }
  destruct (charts_of_groups chartType _ Hne') as [charts [Hmap Hall]].
  exists charts. split; [exact Hmap|]. split; [|split; [exact Hall|]].
  - rewrite <- (Forall2_length Hall).
    apply Permutation_length. apply ownEntries_perm.
  - rewrite (charts_total _ _ Hall), <- Htotal.
    apply groupsTotal_perm. apply ownEntries_perm.
Qed.

(** The example response: two charts, whose totals 320 and 200 add up to
    the 520 of the summary card. *)
Lemma block_groups_summary :
  exists charts,
    distributionCharts "bar" [ ("Age", [ {| category := "65 and over"; population := 200 |};
                                         {| category := "18 to 24"; population := 120 |} ]);
                               ("Gender", [ {| category := "Female"; population := 110 |};
                                            {| category := "Male"; population := 90 |} ]) ]
    = map Some charts /\
    List.length charts = 2%nat /\
    sumQ (map shownTotal charts) == 520.
Proof.
  destruct (summary_card_matches_charts Examples.blockGroups "bar" _ eq_refl)
    as [charts [Hcharts [Hlen [_ Hsum]]]].
  exists charts. split; [exact Hcharts|]. split; [exact Hlen|].
  rewrite Hsum. reflexivity.
Defined.

End StorewiseProcessing.

(** ** The colours of a pie chart (StorewiseDemographics.js) *)
Section StorewiseColours.
Import StorewiseDemographics.

Lemma getPieColors_length (dataType : string) :
  List.length (getPieColors dataType) = 11%nat.
Proof. reflexivity. Qed.

Lemma cellFill_defined (dataType : string) (index : nat) :
  exists colour, cellFill dataType index = Some colour.
Proof.
  unfold cellFill. rewrite getPieColors_length.
  destruct (nth_error (getPieColors dataType) (index mod 11)) as [c |] eqn:E.
  - exists c. reflexivity.
  - apply nth_error_None in E. rewrite getPieColors_length in E.
    pose proof (Nat.mod_upper_bound index 11). lia.
Qed.

Lemma cellFill_period (dataType : string) (index : nat) :
  cellFill dataType (index + 11) = cellFill dataType index.
Proof.
  unfold cellFill. rewrite getPieColors_length.
  replace (index + 11)%nat with (index + 1 * 11)%nat by lia.
  rewrite Nat.Div0.mod_add. reflexivity.
Qed.

Lemma legendColor_cellFill (dataType : string) (index : nat) :
  (index < 11)%nat -> legendColor dataType index = cellFill dataType index.
Proof.
  intro H. unfold cellFill, legendColor. rewrite getPieColors_length.
  rewrite Nat.mod_small by exact H. reflexivity.
Qed.

Ltac distinct_strings :=
  repeat (constructor;
          [ let H := fresh in
            intro H; simpl in H;
            repeat (destruct H as [H | H]; [discriminate H|]); exact H | ]);
  constructor.

(** The eleven colours are pairwise distinct for the data types that have
    a colour; otherwise the base colour is the grey that is also the
    ninth colour. *)
Lemma getPieColors_distinct (dataType : string) :
  NoDup (getPieColors dataType) <-> JS.lookup dataType DATA_TYPE_COLORS <> None.
Proof.
  unfold getPieColors, DATA_TYPE_COLORS. cbn [JS.lookup].
  repeat match goal with
         | |- context [if ?k =? dataType then _ else _] =>
             destruct (k =? dataType);
             [cbn; split; [discriminate | intros _; distinct_strings]|]
         end.
  cbn. split; [|intro H; contradiction H; reflexivity].
  intro Hnd. exfalso.
  inversion Hnd as [| ? ? Hnotin _]. apply Hnotin. simpl. tauto.
Qed.

(** X5. A pie chart colours its slices from a palette of eleven colours
    that repeats: every slice has a colour, slice [index + 11] has the
    colour of slice [index], the legend lists the first six data of the
    chart at most, each with the colour of its slice, and the palette's
    colours are pairwise distinct exactly for the data types that have a
    colour of their own. *)
Theorem pie_slice_colours :
  forall (title dataType : string) (data : list Item) (chart : Chart),
    JS.inherited dataType = false ->
    DistributionChart title (Some data) dataType (Some "pie") = Some chart ->
    exists legend,
      chart = PieChart title (JS.lookup dataType DATA_TYPE_COLORS)
                       (totalOf data) (chartDataOf data) legend /\
      legend = firstn 6 (chartDataOf data) /\
      (List.length legend <= 6)%nat /\
      (forall index, exists colour,
          cellFill dataType index = Some colour /\
          cellFill dataType (index + 11) = Some colour) /\
      (forall index, (index < List.length legend)%nat ->
                     legendColor dataType index = cellFill dataType index) /\
      (NoDup (getPieColors dataType) <->
       JS.lookup dataType DATA_TYPE_COLORS <> None).
Proof.
  intros title dataType data chart _ Hchart.
  destruct data as [| it rest]; [discriminate|].
  change (Some (PieChart title (JS.lookup dataType DATA_TYPE_COLORS)
                         (totalOf (it :: rest)) (chartDataOf (it :: rest))
                         (firstn 6 (chartDataOf (it :: rest)))) = Some chart)
    in Hchart.
  injection Hchart as <-.
  exists (firstn 6 (chartDataOf (it :: rest))).
  split; [reflexivity|]. split; [reflexivity|].
  assert (Hlen : (List.length (firstn 6 (chartDataOf (it :: rest))) <= 6)%nat)
    by apply firstn_le_length.
  split; [exact Hlen|]. split; [|split].
  - intro index. destruct (cellFill_defined dataType index) as [c Hc].
    exists c. split; [exact Hc|]. rewrite cellFill_period. exact Hc.
  - intros index Hindex. apply legendColor_cellFill. lia.
  - apply getPieColors_distinct.
Qed.

(** The pie of the example trade area: the legend square of the second
    entry has the colour of the second slice, the age colour at 80%
    opacity. *)
Lemma age_pie_colours :
  legendColor "Age" 1 = Some "#008a89CC" /\
  cellFill "Age" 12 = Some "#008a89CC" /\
  NoDup (getPieColors "Age").
Proof.
  destruct (pie_slice_colours "Age Distribution in Trade Area" "Age"
              Examples.tradeArea _ eq_refl eq_refl)
    as [legend [_ [Hlegend [_ [_ [Hsame Hdistinct]]]]]].
  split; [|split].
  - rewrite (Hsame 1%nat); [reflexivity|]. rewrite Hlegend. simpl. lia.
  - reflexivity.
  - apply Hdistinct. discriminate.
Defined.

End StorewiseColours.

(** ** The range of the tooltip percentage (StorewiseDemographics.js) *)
Section StorewiseShares.
Import StorewiseDemographics.

Lemma sumCounts_nonneg (data : list Item) :
  Forall (fun it => 0 <= population it) data -> 0 <= sumCounts data.
Proof.
  induction 1 as [| it rest Hit _ IH]; simpl; [apply Qle_refl|].
  apply Qle_trans with (0 + 0); [rewrite Qplus_0_l; apply Qle_refl|].
  apply Qplus_le_compat; assumption.
Qed.

Lemma count_le_sumCounts (data : list Item) (it : Item) :
  Forall (fun it => 0 <= population it) data ->
  In it data -> population it <= sumCounts data.
Proof.
  induction 1 as [| x rest Hx Hrest IH]; intro Hin; [contradiction|].
  simpl. destruct Hin as [-> | Hin].
  - pose proof (sumCounts_nonneg rest Hrest). lra.
  - specialize (IH Hin). lra.
Qed.

Lemma share_bounds (v t : Q) : 0 <= v -> v <= t -> 0 < t -> 0 <= v / t * 100 <= 100.
Proof.
  intros Hv Hvt Ht.
  assert (Hinv : 0 < / t) by (apply Qinv_lt_0_compat; exact Ht).
  assert (Hq : v / t <= 1).
  { apply Qle_shift_div_r; [exact Ht|]. lra. }
  assert (Hq0 : 0 <= v / t).
  { apply Qle_shift_div_l; [exact Ht|]. lra. }
  split; lra.
Qed.

(** X6. In a chart of a trade area none of whose counts is negative,
    the percentage the tooltip shows for a data point is a number between
    0 and 100. *)
Theorem tooltip_percentage_in_range :
  forall (title dataType : string) (chartType : option string)
         (data : list Item) (chart : Chart),
    Forall (fun it => 0 <= population it) data ->
    DistributionChart title (Some data) dataType chartType = Some chart ->
    Forall (fun d =>
              exists tip percentage,
                CustomTooltip true (Some (payloadOf d)) (name d) dataType
                  = Some tip /\
                tip_percentage tip = Some percentage /\
                0 <= percentage <= 100)
           (dataOf chart).
Proof.
  intros title dataType chartType data chart Hnonneg Hchart.
  destruct (DistributionChart_rendered title dataType chartType data chart Hchart)
    as [_ [Hdata _]].
  rewrite Hdata. apply Forall_forall. intros d Hd.
  destruct (in_chartDataOf data d Hd) as [Hin [Htotal _]].
  rewrite tooltip_of_datum.
  destruct (percentageOf_orNum (population (item d)) (total d))
    as [p [Hp [Hpos Hzero]]].
  rewrite Hp. eexists. exists p. split; [reflexivity|].
  cbn [tip_percentage].
  assert (Hrange : 0 <= p <= 100).
  { destruct (Qlt_le_dec 0 (total d)) as [Ht | Ht].
    - rewrite (Hpos Ht). apply share_bounds; [| |exact Ht].
      + rewrite Forall_forall in Hnonneg. apply Hnonneg. exact Hin.
      + rewrite Htotal, totalOf_sumCounts.
        apply count_le_sumCounts; assumption.
    - rewrite (Hzero Ht). split; [apply Qle_refl | discriminate]. }
  split; [reflexivity | exact Hrange].
Qed.

(** The shares of the example trade area: 30, 50 and 20 of 100. *)
Lemma trade_area_shares_in_range :
  exists chart,
    DistributionChart "Age Distribution in Trade Area"
                      (Some Examples.tradeArea) "Age" None = Some chart /\
    Forall (fun d =>
              exists tip percentage,
                CustomTooltip true (Some (payloadOf d)) (name d) "Age"
                  = Some tip /\
                tip_percentage tip = Some percentage /\
                0 <= percentage <= 100)
           (dataOf chart).
Proof.
  eexists. split; [reflexivity|].
  apply (tooltip_percentage_in_range
           "Age Distribution in Trade Area" "Age" None Examples.tradeArea).
  - repeat constructor; discriminate.
  - reflexivity.
Defined.

End StorewiseShares.

(** ** Tick labels (App.js, IndividualDistributions.js) *)
Section TickLabels.

Lemma length_append (a b : string) :
  String.length (a ++ b) = (String.length a + String.length b)%nat.
Proof.
  induction a as [| c a' IH]; simpl; [reflexivity|]. rewrite IH. reflexivity.
Qed.

Lemma substring_length (n m : nat) (s : string) :
  (String.length (String.substring n m s) <= m)%nat /\
  (String.length (String.substring n m s) <= String.length s - n)%nat.
Proof.
  revert n m. induction s as [| c rest IH]; intros n m.
  - destruct n, m; simpl; lia.
  - destruct n as [| n'].
    + destruct m as [| m']; simpl; [lia|].
      destruct (IH 0%nat m') as [H1 H2]. lia.
    + simpl. apply IH.
Qed.

Lemma prefix_length (p s : string) :
  String.prefix p s = true -> (String.length p <= String.length s)%nat.
Proof.
  revert p. induction s as [| c rest IH]; intros [| x p'] H; simpl in *;
    try lia; try discriminate.
  destruct (ascii_dec x c); [|discriminate].
  specialize (IH p' H). lia.
Qed.

(** A replacement no longer than the pattern never lengthens the text. *)
Lemma replace_length (pattern replacement s : string) :
  (String.length replacement <= String.length pattern)%nat ->
  (String.length (JS.replace pattern replacement s) <= String.length s)%nat.
Proof.
  intro Hshort. induction s as [| c rest IH].
  - cbn [JS.replace].
    destruct (String.prefix pattern "") eqn:E; [|simpl; lia].
    apply prefix_length in E. rewrite length_append.
    destruct (substring_length (String.length pattern) (String.length "") "")
      as [_ H]. simpl in *. lia.
  - cbn [JS.replace].
    destruct (String.prefix pattern (String c rest)) eqn:E.
    + apply prefix_length in E. rewrite length_append.
      destruct (substring_length (String.length pattern)
                  (String.length (String c rest)) (String c rest)) as [_ H].
      lia.
    + simpl. lia.
Qed.

Lemma substring_prefix_length (n : nat) (s : string) :
  (n <= String.length s)%nat ->
  String.length (String.substring 0 n s) = n.
Proof.
  revert n. induction s as [| c rest IH]; intros [| n'] H; simpl in *;
    try reflexivity; try lia.
  rewrite IH by lia. reflexivity.
Qed.

Lemma ellipsis_length (n : nat) (s : string) :
  (String.length (JS.ellipsis n s) <= n + 3)%nat /\
  ((String.length s <= n)%nat -> JS.ellipsis n s = s) /\
  ((n < String.length s)%nat -> String.length (JS.ellipsis n s) = (n + 3)%nat).
Proof.
  unfold JS.ellipsis. destruct (Nat.ltb_spec n (String.length s)) as [Hlt | Hge].
  - rewrite length_append, substring_prefix_length by lia. simpl.
    split; [lia|]. split; lia.
  - split; [lia|]. split; [reflexivity | lia].
Qed.

(** X7. The three copies of the tick formatter agree on every
    distribution type but [profession], which App.js leaves as it is.
    Education labels have at most 18 characters and profession labels at
    most 23; an education category of more than 15 characters gets a
    label of exactly 18, which is longer than a category of 16 or 17;
    age and income labels are never longer than the category; the
    categories of any other type are shown unchanged. *)
Theorem tick_labels :
  forall type category : string,
    IndividualDistributions.formatCategory type category
      = UnifiedDistributionSystem.formatCategory type category /\
    (type <> "profession" ->
     App.formatCategory type category
       = UnifiedDistributionSystem.formatCategory type category) /\
    App.formatCategory "profession" category = category /\
    (String.length (App.formatCategory "education" category) <= 18)%nat /\
    ((15 < String.length category)%nat ->
     String.length (App.formatCategory "education" category) = 18%nat) /\
    (String.length (IndividualDistributions.formatCategory "profession" category)
     <= 23)%nat /\
    (String.length (App.formatCategory "age" category)
     <= String.length category)%nat /\
    (String.length (App.formatCategory "income" category)
     <= String.length category)%nat /\
    (~ In type [ "age"; "education"; "income"; "profession" ] ->
     IndividualDistributions.formatCategory type category = category).
Proof.
  intros type category.
  split; [reflexivity|]. split.
  { intro Hne.
    unfold App.formatCategory, UnifiedDistributionSystem.formatCategory.
    destruct (String.eqb_spec type "profession") as [E | _];
      [contradiction | reflexivity]. }
  split; [reflexivity|]. split.
  { apply (ellipsis_length 15). }
  split.
  { apply (ellipsis_length 15). }
  split.
  { apply (ellipsis_length 20). }
  split.
  { cbn [App.formatCategory String.eqb Ascii.eqb Bool.eqb].
    eapply Nat.le_trans; [apply replace_length; simpl; lia|].
    apply replace_length. simpl. lia. }
  split.
  { cbn [App.formatCategory String.eqb Ascii.eqb Bool.eqb].
    eapply Nat.le_trans; [apply replace_length; simpl; lia|].
    eapply Nat.le_trans; [apply replace_length; simpl; lia|].
    apply replace_length. simpl. lia. }
  intro Hother. unfold IndividualDistributions.formatCategory.
  repeat match goal with
         | |- context [if type =? ?k then _ else _] =>
             destruct (String.eqb_spec type k) as [E | _];
             [exfalso; apply Hother; rewrite E; simpl; tauto|]
         end.
  reflexivity.
Qed.

End TickLabels.

(** ** Categories missing from the canonical order (App.js) *)
Section MissingCategories.

Lemma indexOfFrom_range (arr : list string) (x : string) (i : Z) :
  (0 <= i)%Z ->
  (App.indexOfFrom i arr x = -1 /\ ~ In x arr)%Z \/
  ((i <= App.indexOfFrom i arr x < i + Z.of_nat (List.length arr))%Z /\ In x arr).
Proof.
  revert i. induction arr as [| y rest IH]; intros i Hi.
  - left. split; [reflexivity | intros []].
  - cbn [App.indexOfFrom List.length].
    destruct (String.eqb_spec y x) as [-> | Hne].
    + right. split; [lia | left; reflexivity].
    + destruct (IH (i + 1)%Z) as [[Hminus Hout] | [Hrange Hin]]; [lia | |].
      * left. split; [exact Hminus | intros [E | Hin]; contradiction].
      * right. split; [lia | right; exact Hin].
Qed.

Lemma indexOf_range (arr : list string) (x : string) :
  (App.indexOf arr x = -1 /\ ~ In x arr)%Z \/
  ((0 <= App.indexOf arr x < Z.of_nat (List.length arr))%Z /\ In x arr).
Proof.
  unfold App.indexOf.
  destruct (indexOfFrom_range arr x 0%Z) as [H | H]; [lia | left | right];
    [exact H | split; [lia | apply H]].
Qed.

(** The sort only looks at the sign of the comparator. *)
Lemma sort_ext {A : Type} (f g : A -> A -> Z) (l : list A) :
  (forall a b, (f a b <=? 0)%Z = (g a b <=? 0)%Z) -> App.sort f l = App.sort g l.
Proof.
  intro Hext. induction l as [| x rest IH]; [reflexivity|].
  cbn [App.sort fold_right]. fold (App.sort f rest). fold (App.sort g rest).
  rewrite IH. generalize (App.sort g rest) as sorted.
  induction sorted as [| y sorted' IHs]; [reflexivity|].
  cbn [App.insert]. rewrite Hext, IHs. reflexivity.
Qed.

Lemma Permutation_filter {A : Type} (f : A -> bool) (l l' : list A) :
  Permutation l l' -> Permutation (filter f l) (filter f l').
Proof.
  induction 1 as [| x l l' _ IH | x y l | l l' l'' _ IH1 _ IH2]; simpl.
  - apply perm_nil.
  - destruct (f x); [apply perm_skip|]; exact IH.
  - destruct (f x), (f y); try apply Permutation_refl. apply perm_swap.
  - apply perm_trans with (filter f l'); assumption.
Qed.

Lemma StronglySorted_filter {A : Type} (R : A -> A -> Prop) (f : A -> bool)
    (l : list A) :
  StronglySorted R l -> StronglySorted R (filter f l).
Proof.
  induction 1 as [| x rest _ IH Hall]; simpl; [constructor|].
  destruct (f x); [|exact IH].
  constructor; [exact IH|].
  apply Forall_forall. intros y Hy. apply filter_In in Hy.
  rewrite Forall_forall in Hall. apply Hall. apply Hy.
Qed.

Lemma StronglySorted_among {A : Type} (R R' : A -> A -> Prop) (l : list A) :
  StronglySorted R l ->
  (forall x y, In x l -> In y l -> R x y -> R' x y) ->
  StronglySorted R' l.
Proof.
  induction 1 as [| x rest _ IH Hall]; intro Himpl; [constructor|].
  constructor.
  - apply IH. intros a b Ha Hb. apply Himpl; right; assumption.
  - apply Forall_forall. intros y Hy. rewrite Forall_forall in Hall.
    apply Himpl; [left; reflexivity | right; exact Hy | apply Hall; exact Hy].
Qed.

Lemma filter_none {A : Type} (f : A -> bool) (l : list A) :
  Forall (fun x => f x = false) l -> filter f l = [].
Proof.
  induction 1 as [| x rest Hx _ IH]; simpl; [reflexivity|].
  rewrite Hx. exact IH.
Qed.

Lemma filter_all {A : Type} (f : A -> bool) (l : list A) :
  Forall (fun x => f x = true) l -> filter f l = l.
Proof.
  induction 1 as [| x rest Hx _ IH]; simpl; [reflexivity|].
  rewrite Hx, IH. reflexivity.
Qed.

(** In a list sorted by a key, the elements with the least key come
    first and those with the greatest key last. *)
Lemma sorted_least_first {A : Type} (key : A -> Z) (m : Z) (l : list A) :
  StronglySorted (fun a b => (key a <= key b)%Z) l ->
  Forall (fun x => (m <= key x)%Z) l ->
  l = filter (fun x => (key x =? m)%Z) l ++
      filter (fun x => negb (key x =? m)%Z) l.
Proof.
  induction 1 as [| x rest _ IH Hall]; intro Hmin; [reflexivity|].
  inversion Hmin as [| ? ? Hx Hrest]; subst. simpl.
  destruct (Z.eqb_spec (key x) m) as [E | Hne]; simpl.
  - f_equal. apply IH. exact Hrest.
  - rewrite filter_none, filter_all; [reflexivity | |].
    + eapply Forall_impl; [|exact Hall]. simpl. intros y Hy.
      apply negb_true_iff. apply Z.eqb_neq. lia.
    + eapply Forall_impl; [|exact Hall]. simpl. intros y Hy.
      apply Z.eqb_neq. lia.
Qed.

Lemma sorted_greatest_last {A : Type} (key : A -> Z) (m : Z) (l : list A) :
  StronglySorted (fun a b => (key a <= key b)%Z) l ->
  Forall (fun x => (key x <= m)%Z) l ->
  l = filter (fun x => negb (key x =? m)%Z) l ++
      filter (fun x => (key x =? m)%Z) l.
Proof.
  induction 1 as [| x rest _ IH Hall]; intro Hmax; [reflexivity|].
  inversion Hmax as [| ? ? Hx Hrest]; subst. simpl.
  destruct (Z.eqb_spec (key x) m) as [E | Hne]; simpl.
  - assert (Hsame : Forall (fun y => (key y =? m)%Z = true) rest).
    { rewrite Forall_forall in *. intros y Hy. apply Z.eqb_eq.
      specialize (Hall y Hy). specialize (Hrest y Hy). simpl in Hall. lia. }
    rewrite filter_none, filter_all; [reflexivity | exact Hsame |].
    eapply Forall_impl; [|exact Hsame]. simpl. intros y Hy. rewrite Hy. reflexivity.
  - f_equal. apply IH. exact Hrest.
Qed.

(** The sorted marginals of the joint chart, by any canonical order. *)
Lemma byOrder_unlisted_first (order : list string) (marginal : list App.DataPoint) :
  exists listed,
    App.sort (App.byOrder order) marginal =
      filter (fun x => (App.indexOf order (App.category x) =? -1)%Z) marginal
      ++ listed /\
    Permutation
      (filter (fun x => negb (App.indexOf order (App.category x) =? -1)%Z)
              marginal)
      listed /\
    StronglySorted
      (fun a b => (App.indexOf order (App.category a)
                   <= App.indexOf order (App.category b))%Z) listed /\
    Forall (fun x => In (App.category x) order) listed.
Proof.
  set (key := fun x : App.DataPoint => App.indexOf order (App.category x)).
  set (sorted := App.sort (App.byOrder order) marginal).
  assert (Hsorted : StronglySorted (fun a b => (key a <= key b)%Z) sorted)
    by apply (sort_sorted key).
  assert (Hmin : Forall (fun x => (-1 <= key x)%Z) sorted).
  { apply Forall_forall. intros x _. unfold key.
    destruct (indexOf_range order (App.category x)) as [[E _] | [E _]]; lia. }
  exists (filter (fun x => negb (key x =? -1)%Z) sorted).
  split; [|split; [|split]].
  - assert (Hstable : filter (fun y => (key y =? -1)%Z) sorted
                      = filter (fun y => (key y =? -1)%Z) marginal)
      by apply (sort_stable key (-1)%Z marginal).
    pose proof (sorted_least_first key (-1)%Z sorted Hsorted Hmin) as Hsplit.
    rewrite Hstable in Hsplit. exact Hsplit.
  - apply Permutation_filter. apply sort_perm.
  - apply StronglySorted_filter. exact Hsorted.
  - apply Forall_forall. intros x Hx. apply filter_In in Hx.
    destruct Hx as [_ Hx]. apply negb_true_iff, Z.eqb_neq in Hx.
    unfold key in Hx.
    destruct (indexOf_range order (App.category x)) as [[E _] | [_ Hin]];
      [contradiction | exact Hin].
Qed.

(** X8. In the joint chart, the categories of a marginal that are missing
    from the canonical order come first, in the order received; the
    listed categories follow, in ascending canonical position. *)
Theorem unlisted_marginal_categories_first :
  forall (data : App.JointData) (ages incomes : list App.DataPoint),
    App.age_marginal data = Some ages ->
    App.income_marginal data = Some incomes ->
    (exists listed,
        App.sortedAgeData (Some data) =
          filter (fun x => (App.indexOf App.ageOrder (App.category x) =? -1)%Z)
                 ages ++ listed /\
        Permutation
          (filter (fun x =>
                     negb (App.indexOf App.ageOrder (App.category x) =? -1)%Z)
                  ages)
          listed /\
        StronglySorted
          (fun a b => (App.indexOf App.ageOrder (App.category a)
                       <= App.indexOf App.ageOrder (App.category b))%Z) listed /\
        Forall (fun x => In (App.category x) App.ageOrder) listed) /\
    (exists listed,
        App.sortedIncomeData (Some data) =
          filter (fun x => (App.indexOf App.incomeOrder (App.category x) =? -1)%Z)
                 incomes ++ listed /\
        Permutation
          (filter (fun x =>
                     negb (App.indexOf App.incomeOrder (App.category x) =? -1)%Z)
                  incomes)
          listed /\
        StronglySorted
          (fun a b => (App.indexOf App.incomeOrder (App.category a)
                       <= App.indexOf App.incomeOrder (App.category b))%Z)
          listed /\
        Forall (fun x => In (App.category x) App.incomeOrder) listed).
Proof.
  intros data ages incomes Hages Hincomes.
  unfold App.sortedAgeData, App.sortedIncomeData.
  rewrite Hages, Hincomes. split.
  - apply byOrder_unlisted_first.
  - apply byOrder_unlisted_first.
Qed.

(** The unlisted age categories of the example come first, as received. *)
Lemma survey_marginals_sorted :
  map App.category (App.sortedAgeData (Some Examples.surveyData))
  = [ "Unknown"; "Not reported"; "Under 25 years"; "65 years and over" ] /\
  exists listed,
    App.sortedAgeData (Some Examples.surveyData) =
      [ Examples.point "Unknown" 5 5; Examples.point "Not reported" 65 65 ]
      ++ listed /\
    Forall (fun x => In (App.category x) App.ageOrder) listed.
Proof.
  split; [reflexivity|].
  destruct (unlisted_marginal_categories_first Examples.surveyData _ _
              eq_refl eq_refl) as [[listed [Hsplit [_ [_ Hlisted]]]] _].
  exists listed. split; [exact Hsplit | exact Hlisted].
Defined.

(** The comparator of the unified distribution view orders by the
    position in the order, with the missing categories after the last
    position. *)
Lemma compareByOrder_rank (sortOrder : list string)
    (a b : UnifiedDistributionSystem.DataPoint) :
  let rank := fun x : UnifiedDistributionSystem.DataPoint =>
    if (App.indexOf sortOrder (UnifiedDistributionSystem.category x) =? -1)%Z
    then Z.of_nat (List.length sortOrder)
    else App.indexOf sortOrder (UnifiedDistributionSystem.category x) in
  (UnifiedDistributionSystem.compareByOrder sortOrder a b <=? 0)%Z
  = (rank a - rank b <=? 0)%Z.
Proof.
  intro rank. unfold UnifiedDistributionSystem.compareByOrder, rank.
  destruct (indexOf_range sortOrder (UnifiedDistributionSystem.category a))
    as [[Ea _] | [Ea _]];
    destruct (indexOf_range sortOrder (UnifiedDistributionSystem.category b))
      as [[Eb _] | [Eb _]];
    repeat match goal with
           | |- context [(?x =? -1)%Z] => destruct (Z.eqb_spec x (-1)%Z)
           end;
    cbn [andb]; try lia;
    repeat match goal with
           | |- context [(?x <=? ?y)%Z] => destruct (Z.leb_spec x y)
           end; try reflexivity; lia.
Qed.

(** No name that every object inherits is a distribution type with a
    category order. *)
Lemma inherited_without_order (distributionType : string) :
  JS.inherited distributionType = true ->
  JS.lookup distributionType UnifiedDistributionSystem.CONDITIONAL_OPTIONS
  = None.
Proof.
  unfold JS.inherited. intro H. apply existsb_exists in H.
  destruct H as [name [Hin Heq]]. apply String.eqb_eq in Heq. subst name.
  simpl in Hin.
  repeat (destruct Hin as [<- | Hin]; [reflexivity|]). contradiction.
Qed.

(** X9. The unified distribution view orders a distribution by the
    category order of its type: the listed categories first, in ascending
    position, and the categories missing from the order after them, in
    the order received.  A type without a category order leaves the data
    as it is, unless the type is a name that every object inherits: the
    sort then throws on data of two elements or more, and leaves shorter
    data as it is. *)
Theorem unified_chart_order :
  forall (data : list UnifiedDistributionSystem.DataPoint)
         (distributionType : string),
    (JS.lookup distributionType UnifiedDistributionSystem.CONDITIONAL_OPTIONS
       = None ->
     JS.inherited distributionType = false ->
     UnifiedDistributionSystem.sortDistributionData data distributionType
       = JS.Ok data) /\
    (JS.inherited distributionType = true ->
     ((List.length data < 2)%nat ->
      UnifiedDistributionSystem.sortDistributionData data distributionType
        = JS.Ok data) /\
     ((2 <= List.length data)%nat ->
      UnifiedDistributionSystem.sortDistributionData data distributionType
        = JS.TypeError "sortOrder.indexOf is not a function")) /\
    (forall sortOrder,
        JS.lookup distributionType UnifiedDistributionSystem.CONDITIONAL_OPTIONS
          = Some sortOrder ->
        exists listed,
          UnifiedDistributionSystem.sortDistributionData data distributionType
            = JS.Ok (listed ++
              filter (fun x =>
                        (App.indexOf sortOrder
                           (UnifiedDistributionSystem.category x) =? -1)%Z)
                     data) /\
          Permutation
            (filter (fun x =>
                       negb (App.indexOf sortOrder
                               (UnifiedDistributionSystem.category x) =? -1)%Z)
                    data)
            listed /\
          StronglySorted
            (fun a b =>
               (App.indexOf sortOrder (UnifiedDistributionSystem.category a)
                <= App.indexOf sortOrder (UnifiedDistributionSystem.category b))%Z)
            listed /\
          Forall (fun x => In (UnifiedDistributionSystem.category x) sortOrder)
                 listed).
Proof.
  intros data distributionType. split; [|split].
  - intros Hnone Hown. unfold UnifiedDistributionSystem.sortDistributionData.
    rewrite Hnone, Hown. destruct data; reflexivity.
  - intro Hinherited.
    unfold UnifiedDistributionSystem.sortDistributionData.
    rewrite (inherited_without_order _ Hinherited), Hinherited.
    destruct data as [| x [| y rest]]; cbn [List.length];
      split; intro Hlen; try reflexivity; exfalso; lia.
  - intros sortOrder Horder.
    set (index := fun x : UnifiedDistributionSystem.DataPoint =>
           App.indexOf sortOrder (UnifiedDistributionSystem.category x)).
    set (len := Z.of_nat (List.length sortOrder)).
    set (rank := fun x : UnifiedDistributionSystem.DataPoint =>
           if (index x =? -1)%Z then len else index x).
    set (sorted := App.sort (fun a b => (rank a - rank b)%Z) data).
    assert (Hrank : forall x, (index x =? -1)%Z = (rank x =? len)%Z).
    { intro x. unfold rank, index, len.
      destruct (indexOf_range sortOrder (UnifiedDistributionSystem.category x))
        as [[E _] | [E _]].
      - rewrite E. simpl. symmetry. apply Z.eqb_refl.
      - destruct (Z.eqb_spec (App.indexOf sortOrder
                                (UnifiedDistributionSystem.category x)) (-1)%Z);
          [lia|]. symmetry. apply Z.eqb_neq. lia. }
    assert (Hcode : UnifiedDistributionSystem.sortDistributionData
                      data distributionType = JS.Ok sorted).
    { unfold UnifiedDistributionSystem.sortDistributionData. rewrite Horder.
      destruct data as [| x rest]; [reflexivity|]. f_equal.
      apply sort_ext. intros a b. apply compareByOrder_rank. }
    assert (Hsorted : StronglySorted (fun a b => (rank a <= rank b)%Z) sorted)
      by apply (sort_sorted rank).
    assert (Hmax : Forall (fun x => (rank x <= len)%Z) sorted).
    { apply Forall_forall. intros x _. unfold rank, index, len.
      destruct (indexOf_range sortOrder (UnifiedDistributionSystem.category x))
        as [[E _] | [E _]].
      - rewrite E. simpl. lia.
      - destruct (Z.eqb_spec (App.indexOf sortOrder
                                (UnifiedDistributionSystem.category x)) (-1)%Z);
          lia. }
    assert (Hstable : filter (fun x => (rank x =? len)%Z) sorted
                      = filter (fun x => (rank x =? len)%Z) data)
      by apply (sort_stable rank len data).
    pose proof (sorted_greatest_last rank len sorted Hsorted Hmax) as Hsplit.
    rewrite Hstable in Hsplit.
    exists (filter (fun x => negb (rank x =? len)%Z) sorted).
    rewrite Hcode. split; [|split; [|split]].
    + rewrite (filter_ext _ _ Hrank). f_equal. exact Hsplit.
    + rewrite (filter_ext (fun x => negb (index x =? -1)%Z)
                          (fun x => negb (rank x =? len)%Z))
        by (intro x; rewrite Hrank; reflexivity).
      apply Permutation_filter. apply sort_perm.
    + apply (StronglySorted_among (fun a b => (rank a <= rank b)%Z)).
      * apply StronglySorted_filter. exact Hsorted.
      * intros x y Hx Hy Hle. apply filter_In in Hx, Hy.
        destruct Hx as [_ Hx]. destruct Hy as [_ Hy].
        rewrite <- Hrank in Hx, Hy. apply negb_true_iff in Hx, Hy.
        unfold rank in Hle. rewrite Hx, Hy in Hle. exact Hle.
    + apply Forall_forall. intros x Hx. apply filter_In in Hx.
      destruct Hx as [_ Hx]. rewrite <- Hrank in Hx.
      apply negb_true_iff, Z.eqb_neq in Hx. unfold index in Hx.
      destruct (indexOf_range sortOrder (UnifiedDistributionSystem.category x))
        as [[E _] | [_ Hin]]; [contradiction | exact Hin].
Qed.

(** The genders of the example, with two categories the order lacks. *)
Lemma survey_genders_sorted :
  UnifiedDistributionSystem.sortDistributionData Examples.surveyGenders "gender"
  = JS.Ok [ Examples.unifiedPoint "Male" 40; Examples.unifiedPoint "Female" 52;
            Examples.unifiedPoint "Unknown" 5;
            Examples.unifiedPoint "Not reported" 3 ] /\
  UnifiedDistributionSystem.sortDistributionData Examples.surveyGenders "sex"
  = JS.Ok Examples.surveyGenders /\
  UnifiedDistributionSystem.sortDistributionData
    Examples.surveyGenders "constructor"
  = JS.TypeError "sortOrder.indexOf is not a function" /\
  exists listed,
    UnifiedDistributionSystem.sortDistributionData
      Examples.surveyGenders "gender"
    = JS.Ok (listed ++ [ Examples.unifiedPoint "Unknown" 5;
                         Examples.unifiedPoint "Not reported" 3 ]).
Proof.
  split; [reflexivity|].
  destruct (unified_chart_order Examples.surveyGenders "sex") as [Hsex _].
  destruct (unified_chart_order Examples.surveyGenders "constructor")
    as [_ [Hconstructor _]].
  destruct (unified_chart_order Examples.surveyGenders "gender")
    as [_ [_ Hgender]].
  split; [apply Hsex; reflexivity|].
  split; [apply (Hconstructor eq_refl); simpl; lia|].
  destruct (Hgender _ eq_refl) as [listed [Hsplit _]].
  exists listed. exact Hsplit.
Defined.

End MissingCategories.

(** ** Incomplete outcomes and panel texts (UnifiedDemographicAnalysis.js,
    part_001) *)
Section UnifiedPanels.
Import Analysis.


Lemma orStr_nonempty (a : option string) (b : string) :
  b <> "" -> JS.orStr a b <> "".
Proof.
  intro Hb. unfold JS.orStr, JS.truthyStr.
  destruct a as [s |]; [|exact Hb].
  destruct (String.eqb_spec s "") as [-> | Hs]; simpl; assumption.
Qed.

Lemma orElseStr_truthy (s : string) (b : option string) :
  JS.truthyStr s = true -> JS.orElseStr (Some s) b = Some s.
Proof.
  intro H. unfold JS.orElseStr. rewrite H. reflexivity.
Qed.

(** X11. A chart panel of the unified view never shows a blank matched
    value, explanation or data source (a missing or empty property is
    replaced by a default text), and an outcome that carries a non-empty
    matched value for the selected analysis type is shown with that
    value, whatever other matched values it carries.  The failure panel
    never shows a blank error text. *)
Theorem panel_texts_never_blank :
  forall (t : UnifiedDemographicAnalysis.AnalysisType) (selectedValue : string)
         (target : option string) (key : string) (d : Outcome)
         (panel : ChartPanel),
    UnifiedDemographicAnalysis.renderDistributionChart
      t selectedValue target key d = JS.Ok (Some (Chart panel)) ->
    (exists matched explanation,
        cp_matched panel = Some matched /\ matched <> "" /\
        cp_explanation panel = Some explanation /\ explanation <> "" /\
        (forall own,
            prop d ("matched_" ++ UnifiedDemographicAnalysis.typeKey t)
              = Some own ->
            own <> "" -> matched = own)) /\
    cp_source panel <> "" /\
    (forall failedKey failed fp,
        UnifiedDemographicAnalysis.renderFailedDistribution failedKey failed
          = Failed fp ->
        fp_error fp <> "").
Proof.
  intros t selectedValue target key d panel Hrender.
  unfold UnifiedDemographicAnalysis.renderDistributionChart in Hrender.
  destruct (status d =? "success"); cbn [negb] in Hrender; [|discriminate].
  destruct (conditional_distribution d) as [cd |];
    cbn [JS.required JS.bind] in Hrender; [|discriminate].
  destruct (data cd) as [items |]; cbn [JS.required JS.bind] in Hrender;
    [|discriminate].
  destruct (total_population d) as [pop |];
    cbn [JS.required JS.bind] in Hrender; [|discriminate].
  cbv zeta in Hrender.
  injection Hrender as <-. cbn [cp_matched cp_explanation cp_source].
  split; [|split].
  - eexists. eexists. split; [reflexivity|].
    split; [apply orStr_nonempty; discriminate|].
    split; [reflexivity|].
    split; [apply orStr_nonempty; discriminate|].
    intros own Hown Hne. cbn [String.append] in Hown. rewrite Hown.
    assert (Htruthy : JS.truthyStr own = true).
    { unfold JS.truthyStr. apply negb_true_iff. apply String.eqb_neq. exact Hne. }
    rewrite !(orElseStr_truthy own) by exact Htruthy.
    unfold JS.orStr. rewrite Htruthy. reflexivity.
  - apply orStr_nonempty. discriminate.
  - intros failedKey failed fp Hfp.
    unfold UnifiedDemographicAnalysis.renderFailedDistribution in Hfp.
    injection Hfp as <-. cbn [fp_error]. apply orStr_nonempty. discriminate.
Qed.

(** The outcome matched by age range only, shown in the age analysis. *)
Lemma age_range_panel_texts :
  exists panel,
    UnifiedDemographicAnalysis.renderDistributionChart
      UnifiedDemographicAnalysis.age "25 to 34 years" None "gender"
      Examples.unscored = JS.Ok (Some (Chart panel)) /\
    cp_matched panel = Some "25 to 44 years" /\
    cp_explanation panel = Some "Matched" /\
    cp_source panel <> "".
Proof.
  eexists. split; [reflexivity|]. split; [reflexivity|].
  split; [reflexivity|].
  apply (panel_texts_never_blank
           UnifiedDemographicAnalysis.age "25 to 34 years" None "gender"
           Examples.unscored _ eq_refl).
Defined.

(** X12. The two views grade an outcome without a score in opposite
    ways: the education view reads the similarity score alone, so a
    successful outcome without one gets the lowest badge, "Limited
    Match", whatever its overlap score; the unified view gives an outcome
    with neither score the highest, "Perfect Match". *)
Theorem unscored_outcome_badges :
  forall (t : UnifiedDemographicAnalysis.AnalysisType) (selectedValue : string)
         (target target_education : option string) (key : string) (d : Outcome)
         (unified education : ChartPanel),
    similarity_score d = None ->
    UnifiedDemographicAnalysis.renderDistributionChart
      t selectedValue target key d = JS.Ok (Some (Chart unified)) ->
    UnifiedEducationAnalysis.renderDistributionChart target_education key d
      = JS.Ok (Some (Chart education)) ->
    cp_indicator education = {| text := "Limited Match"; color := "#ef4444" |} /\
    (overlap_score d = None ->
     cp_indicator unified = {| text := "Perfect Match"; color := "#10b981" |}).
Proof.
  intros t selectedValue target target_education key d unified education
         Hscore Hunified Heducation.
  split.
  - unfold UnifiedEducationAnalysis.renderDistributionChart in Heducation.
    destruct (status d =? "success"); simpl in Heducation; [|discriminate].
    destruct (conditional_distribution d) as [cd |]; simpl in Heducation;
      [|discriminate].
    destruct (data cd) as [items |]; simpl in Heducation; [|discriminate].
    destruct (total_population d) as [pop |]; simpl in Heducation;
      [|discriminate].
    injection Heducation as <-. cbn [cp_indicator]. rewrite Hscore. reflexivity.
  - intro Hoverlap.
    rewrite (chart_panel_indicator _ _ _ _ _ _ Hunified).
    unfold UnifiedDemographicAnalysis.scoreOf. rewrite Hscore, Hoverlap.
    reflexivity.
Qed.

(** The unscored outcome of the examples, in both views. *)
Lemma unscored_outcome_in_both_views :
  exists unified education,
    UnifiedDemographicAnalysis.renderDistributionChart
      UnifiedDemographicAnalysis.age "25 to 34 years" None "gender"
      Examples.unscored = JS.Ok (Some (Chart unified)) /\
    UnifiedEducationAnalysis.renderDistributionChart
      (Some "Bachelor's degree") "gender" Examples.unscored
      = JS.Ok (Some (Chart education)) /\
    text (cp_indicator unified) = "Perfect Match" /\
    text (cp_indicator education) = "Limited Match".
Proof.
  eexists. eexists. split; [reflexivity|]. split; [reflexivity|].
  destruct (unscored_outcome_badges
              UnifiedDemographicAnalysis.age "25 to 34 years" None
              (Some "Bachelor's degree") "gender" Examples.unscored _ _
              eq_refl eq_refl eq_refl) as [Heducation Hunified].
  split.
  - rewrite (Hunified eq_refl). reflexivity.
  - rewrite Heducation. reflexivity.
Defined.

End UnifiedPanels.

(** ** The selection and the requests it causes
    (UnifiedDemographicAnalysis.js) *)
Section SelectionState.
Import UnifiedDemographicAnalysis.

Variable trim : string -> string.
Variable location : Location.

(** The request of the analysis of type [t] for [value]. *)
Local Abbreviation requestOf t value :=
  {| url := "http://localhost:5001" ++ endpoint t;
     body := [ ("lat", JS.Num (lat location)); ("lng", JS.Num (lng location));
               (paramKey t, JS.Str value) ] |}.

Lemma typeKey_inj (a b : AnalysisType) : typeKey a = typeKey b -> a = b.
Proof. destruct a, b; simpl; intro H; try reflexivity; discriminate H. Qed.

Lemma typeKey_eqb (a b : AnalysisType) :
  (typeKey a =? typeKey b) = true <-> a = b.
Proof.
  rewrite String.eqb_eq. split; [apply typeKey_inj | intros ->; reflexivity].
Qed.

Lemma options_nonempty (t : AnalysisType) :
  options t <> [] /\ Forall (fun option => option <> "") (options t).
Proof.
  destruct t; (split; [discriminate | repeat constructor; discriminate]).
Qed.

Lemma truthyStr_iff (text : string) : JS.truthyStr text = true <-> text <> "".
Proof.
  unfold JS.truthyStr. rewrite negb_true_iff. apply String.eqb_neq.
Qed.

Lemma fetchEffect_posts (s : State) :
  selectedValue s <> "" ->
  fetchEffect (Some location) s
  = [ requestOf (selectedAnalysisType s) (selectedValue s) ].
Proof.
  intro H. unfold fetchEffect. apply truthyStr_iff in H. rewrite H. reflexivity.
Qed.

Lemma typeChangeEffect_value (s : State) :
  selectedValue s <> "" ->
  selectedAnalysisType (typeChangeEffect s) = selectedAnalysisType s /\
  selectedValue (typeChangeEffect s) <> "" /\
  exists first rest,
    options (selectedAnalysisType s) = first :: rest /\
    selectedValue (typeChangeEffect s) = first.
Proof.
  intro Hs. split; [reflexivity|].
  destruct (options_nonempty (selectedAnalysisType s)) as [Hne Hall].
  unfold typeChangeEffect. cbn [selectedValue].
  destruct (options (selectedAnalysisType s)) as [| first rest];
    [contradiction Hne; reflexivity|].
  split; [inversion Hall; assumption|].
  exists first, rest. split; reflexivity.
Qed.

(** The commits after a render, written out. *)
Lemma settle_spec (selectedLocation : option Location) (prev : option State)
    (s : State) :
  let typeChanged :=
    match prev with
    | None => true
    | Some p => negb (typeKey (selectedAnalysisType p)
                      =? typeKey (selectedAnalysisType s))
    end in
  let valueChanged :=
    match prev with
    | None => true
    | Some p => negb (selectedValue p =? selectedValue s)
    end in
  let s1 := if typeChanged then typeChangeEffect s else s in
  settle selectedLocation prev s =
  (s1,
   (if typeChanged || valueChanged then fetchEffect selectedLocation s else [])
   ++ (if negb (selectedValue s =? selectedValue s1)
       then fetchEffect selectedLocation s1 else [])).
Proof.
  intros typeChanged valueChanged s1. unfold settle, commit.
  fold typeChanged. fold valueChanged. fold s1.
  assert (Htype : selectedAnalysisType s1 = selectedAnalysisType s)
    by (unfold s1; destruct typeChanged; reflexivity).
  rewrite Htype, String.eqb_refl. reflexivity.
Qed.

Lemma settle_followed (prev : option State) (s : State)
    (posted : list Request) :
  selectedValue s <> "" ->
  match prev with
  | None => True
  | Some p => followed location p posted
  end ->
  followed location (fst (settle (Some location) prev s))
           (posted ++ snd (settle (Some location) prev s)).
Proof.
  intros Hs Hprev. rewrite settle_spec. cbn [fst snd].
  set (typeChanged := match prev with
                      | None => true
                      | Some p => negb (typeKey (selectedAnalysisType p)
                                        =? typeKey (selectedAnalysisType s))
                      end).
  set (valueChanged := match prev with
                       | None => true
                       | Some p => negb (selectedValue p =? selectedValue s)
                       end).
  rewrite (fetchEffect_posts s Hs).
  destruct typeChanged eqn:Etype.
  - destruct (typeChangeEffect_value s Hs) as [Htype [Hvalue _]].
    rewrite (fetchEffect_posts _ Hvalue). cbn [orb]. split; [exact Hvalue|].
    rewrite Htype.
    destruct (String.eqb_spec (selectedValue s)
                (selectedValue (typeChangeEffect s))) as [E | _]; cbn [negb].
    + exists posted. rewrite <- E, app_nil_r. reflexivity.
    + exists (posted ++ [ requestOf (selectedAnalysisType s) (selectedValue s) ]).
      rewrite <- app_assoc. reflexivity.
  - rewrite String.eqb_refl. cbn [negb orb]. rewrite app_nil_r.
    split; [exact Hs|].
    destruct valueChanged eqn:Evalue.
    + exists posted. reflexivity.
    + rewrite app_nil_r. destruct prev as [p |]; [|discriminate Etype].
      unfold typeChanged in Etype. unfold valueChanged in Evalue.
      apply negb_false_iff in Etype, Evalue.
      apply typeKey_eqb in Etype. apply String.eqb_eq in Evalue.
      destruct Hprev as [_ [earlier Hposted]].
      exists earlier. rewrite <- Etype, <- Evalue. exact Hposted.
Qed.

Lemma handle_value (e : Event) (s : State) :
  selectedValue s <> "" -> selectedValue (handle trim e s) <> "".
Proof.
  intro Hs. destruct e as [key | option | | text |]; cbn [handle].
  - exact Hs.
  - destruct (existsb (String.eqb option) (options (selectedAnalysisType s)))
      eqn:E; [|exact Hs].
    cbn [selectedValue]. apply existsb_exists in E.
    destruct E as [listed [Hin Heq]]. apply String.eqb_eq in Heq. subst listed.
    destruct (options_nonempty (selectedAnalysisType s)) as [_ Hall].
    rewrite Forall_forall in Hall. apply Hall. exact Hin.
  - exact Hs.
  - destruct (showCustomInput s); exact Hs.
  - destruct (showCustomInput s); [|exact Hs].
    unfold handleCustomValueSubmit.
    destruct (JS.truthyStr (trim (customValue s))) eqn:E; [|exact Hs].
    cbn [selectedValue]. apply truthyStr_iff. exact E.
Qed.

Lemma run_followed (events : list Event) (s : State) (posted : list Request) :
  followed location s posted ->
  followed location (fst (run trim (Some location) events s))
           (posted ++ snd (run trim (Some location) events s)).
Proof.
  revert s posted. induction events as [| e rest IH]; intros s posted Hs.
  - cbn [run fst snd]. rewrite app_nil_r. exact Hs.
  - cbn [run]. unfold step.
    pose proof (settle_followed (Some s) (handle trim e s) posted
                  (handle_value e s (proj1 Hs)) Hs) as Hstep.
    destruct (settle (Some location) (Some s) (handle trim e s))
      as [s1 requests1].
    cbn [fst snd] in Hstep. specialize (IH s1 _ Hstep).
    destruct (run trim (Some location) rest s1) as [s2 requests2].
    cbn [fst snd] in *. rewrite app_assoc. exact IH.
Qed.

(** X13. Through every session with a selected location (any sequence of
    clicks on types and options, typing and custom submissions, from the
    mounted component on) the selected value is never empty, at least
    one request has been posted, and the last request posted is the one
    for the current selection: the endpoint and parameter of the selected
    analysis type, with the selected value. *)
Theorem requests_follow_selection :
  forall events : list Event,
    let s := fst (session trim (Some location) events) in
    let requests := snd (session trim (Some location) events) in
    selectedValue s <> "" /\
    exists earlier,
      requests
      = earlier ++
        [ {| url := "http://localhost:5001" ++ endpoint (selectedAnalysisType s);
             body := [ ("lat", JS.Num (lat location));
                       ("lng", JS.Num (lng location));
                       (paramKey (selectedAnalysisType s),
                        JS.Str (selectedValue s)) ] |} ].
Proof.
  intro events. unfold session, mount.
  assert (Hinitial : selectedValue initialState <> "") by discriminate.
  pose proof (settle_followed None initialState [] Hinitial I) as Hmount.
  destruct (settle (Some location) None initialState) as [s0 requests0].
  cbn [fst snd app] in Hmount.
  pose proof (run_followed events s0 requests0 Hmount) as Hrun.
  destruct (run trim (Some location) events s0) as [s requests].
  exact Hrun.
Qed.

(** X14. Clicking another analysis type selects the first option of that
    type and drops the analysis shown, but the first request it posts
    still carries the value selected before the click, under the
    parameter of the new type; the request for the new type's first
    option follows, unless that option is the value selected before. *)
Theorem type_switch_requests :
  forall (s : State) (key : AnalysisType),
    key <> selectedAnalysisType s ->
    selectedValue s <> "" ->
    exists first rest,
      options key = first :: rest /\
      fst (step trim (Some location) (ClickType key) s)
      = {| selectedAnalysisType := key;
           selectedValue := first;
           analysisData := None;
           customValue := customValue s;
           showCustomInput := showCustomInput s |} /\
      snd (step trim (Some location) (ClickType key) s)
      = {| url := "http://localhost:5001" ++ endpoint key;
           body := [ ("lat", JS.Num (lat location));
                     ("lng", JS.Num (lng location));
                     (paramKey key, JS.Str (selectedValue s)) ] |}
        :: (if selectedValue s =? first then []
            else [ {| url := "http://localhost:5001" ++ endpoint key;
                      body := [ ("lat", JS.Num (lat location));
                                ("lng", JS.Num (lng location));
                                (paramKey key, JS.Str first) ] |} ]).
Proof.
  intros s key Hkey Hs. unfold step. rewrite settle_spec. cbn [fst snd handle].
  cbn [selectedAnalysisType selectedValue].
  assert (Hchanged : (typeKey (selectedAnalysisType s) =? typeKey key) = false).
  { apply String.eqb_neq. intro E. apply Hkey. symmetry.
    apply typeKey_inj. exact E. }
  rewrite Hchanged. cbn [negb orb].
  set (clicked := {| selectedAnalysisType := key;
                     selectedValue := selectedValue s;
                     analysisData := analysisData s;
                     customValue := customValue s;
                     showCustomInput := showCustomInput s |}).
  destruct (typeChangeEffect_value clicked Hs)
    as [_ [Hvalue [first [rest [Hoptions Hfirst]]]]].
  exists first, rest. cbn [selectedAnalysisType clicked] in Hoptions.
  split; [exact Hoptions|]. split.
  - unfold typeChangeEffect. cbn [selectedAnalysisType clicked customValue
                                  showCustomInput selectedValue].
    rewrite Hoptions. reflexivity.
  - rewrite (fetchEffect_posts clicked Hs), (fetchEffect_posts _ Hvalue).
    rewrite Hfirst. cbn [selectedAnalysisType selectedValue clicked typeChangeEffect].
    destruct (selectedValue s =? first); reflexivity.
Qed.

End SelectionState.

(** The mounted view has replaced the initial value by the first age
    range, after a request for each; switching to the education analysis
    then asks for the education of "Under 5 years" first. *)
Lemma education_after_mount :
  UnifiedDemographicAnalysis.mount (Some Examples.here)
  = ({| UnifiedDemographicAnalysis.selectedAnalysisType :=
          UnifiedDemographicAnalysis.age;
        UnifiedDemographicAnalysis.selectedValue := "Under 5 years";
        UnifiedDemographicAnalysis.analysisData := None;
        UnifiedDemographicAnalysis.customValue := "";
        UnifiedDemographicAnalysis.showCustomInput := false |},
     [ Examples.requestFor UnifiedDemographicAnalysis.age "25 to 34 years";
       Examples.requestFor UnifiedDemographicAnalysis.age "Under 5 years" ]) /\
  snd (UnifiedDemographicAnalysis.step (fun text => text) (Some Examples.here)
         (UnifiedDemographicAnalysis.ClickType
            UnifiedDemographicAnalysis.education)
         (fst (UnifiedDemographicAnalysis.mount (Some Examples.here))))
  = [ Examples.requestFor UnifiedDemographicAnalysis.education "Under 5 years";
      Examples.requestFor UnifiedDemographicAnalysis.education
        "Less than 9th grade" ].
Proof.
  split; [reflexivity|].
  destruct (type_switch_requests (fun text => text) Examples.here
              (fst (UnifiedDemographicAnalysis.mount (Some Examples.here)))
              UnifiedDemographicAnalysis.education)
    as [first [rest [Hoptions [_ Hrequests]]]].
  - discriminate.
  - discriminate.
  - injection Hoptions as <- _. rewrite Hrequests. reflexivity.
Defined.

(** A session: a type switch, a click on an option, a custom value. *)
Lemma session_ends_with_its_selection :
  exists earlier,
    snd (UnifiedDemographicAnalysis.session (fun text => text)
           (Some Examples.here)
           [ UnifiedDemographicAnalysis.ClickType
               UnifiedDemographicAnalysis.income;
             UnifiedDemographicAnalysis.ClickOption "$60,000 to $74,999";
             UnifiedDemographicAnalysis.ToggleCustom;
             UnifiedDemographicAnalysis.ChangeCustom "$80,000";
             UnifiedDemographicAnalysis.SubmitCustom ])
    = earlier ++ [ Examples.requestFor UnifiedDemographicAnalysis.income
                     "$80,000" ].
Proof.
  destruct (requests_follow_selection (fun text => text) Examples.here
              [ UnifiedDemographicAnalysis.ClickType
                  UnifiedDemographicAnalysis.income;
                UnifiedDemographicAnalysis.ClickOption "$60,000 to $74,999";
                UnifiedDemographicAnalysis.ToggleCustom;
                UnifiedDemographicAnalysis.ChangeCustom "$80,000";
                UnifiedDemographicAnalysis.SubmitCustom ])
    as [_ [earlier Hrequests]].
  exists earlier. exact Hrequests.
Defined.

(** ** Status badges in the five analysis views *)
Section StatusBadges.

Lemma age_text_of_unknown_status (status : string) :
  ~ In status Analysis.statuses ->
  UnifiedAgeAnalysis.getStatusText status = "? Unknown" /\
  UnifiedDemographicAnalysis.getStatusText status = "? Unknown".
Proof.
  intro Hout.
  unfold UnifiedAgeAnalysis.getStatusText,
         UnifiedDemographicAnalysis.getStatusText.
  repeat match goal with
         | |- context [if status =? ?k then _ else _] =>
             destruct (String.eqb_spec status k) as [E | _];
             [exfalso; apply Hout; rewrite E; simpl; tauto|]
         end.
  split; reflexivity.
Qed.

(** X15. The five analysis views (unified, education, age, income and
    profession) give a status the same badge colour, and the unified,
    education, income and profession views the same badge text; the age
    view, whose four status texts are stored differently in its source
    file, shows the same text as the others for any status outside the
    four. *)
Theorem status_badges_across_views :
  forall status : string,
    (UnifiedEducationAnalysis.getStatusColor status
       = UnifiedDemographicAnalysis.getStatusColor status /\
     UnifiedAgeAnalysis.getStatusColor status
       = UnifiedDemographicAnalysis.getStatusColor status /\
     UnifiedIncomeAnalysis.getStatusColor status
       = UnifiedDemographicAnalysis.getStatusColor status /\
     UnifiedProfessionAnalysis.getStatusColor status
       = UnifiedDemographicAnalysis.getStatusColor status) /\
    (UnifiedEducationAnalysis.getStatusText status
       = UnifiedDemographicAnalysis.getStatusText status /\
     UnifiedIncomeAnalysis.getStatusText status
       = UnifiedDemographicAnalysis.getStatusText status /\
     UnifiedProfessionAnalysis.getStatusText status
       = UnifiedDemographicAnalysis.getStatusText status) /\
    (~ In status Analysis.statuses ->
     UnifiedAgeAnalysis.getStatusText status
       = UnifiedDemographicAnalysis.getStatusText status).
Proof.
  intro status. split; [|split].
  - repeat split.
  - repeat split.
  - intro Hout.
    destruct (age_text_of_unknown_status status Hout) as [Hage Hunified].
    rewrite Hage, Hunified. reflexivity.
Qed.

End StatusBadges.

(** ** The badge grows with the score *)
Section BadgeOrder.
Import Analysis.

(** The tier of a badge: the position of its colour among the tier
    colours. *)
Local Abbreviation tier indicator := (App.indexOf tierColours (color indicator)).




End BadgeOrder.

(** ** The conditional controls of the joint chart (App.js) *)
Section ConditionalControls.
Import App.

Variable data : JointData.
Variable selectedLocation : option Location.

Lemma existsb_eqb_In (x : string) (l : list string) :
  existsb (String.eqb x) l = true <-> In x l.
Proof.
  rewrite existsb_exists. split.
  - intros [y [Hin Heq]]. apply String.eqb_eq in Heq. subst y. exact Hin.
  - intro Hin. exists x. split; [exact Hin | apply String.eqb_refl].
Qed.

Lemma control_offered (e : ControlEvent) (c : Controls) :
  offered data c ->
  offered data (fst (control data selectedLocation e c)) /\
  Forall (wellPaired data) (snd (control data selectedLocation e c)).
Proof.
  intros [Htype Hvalue]. destruct e as [value | value | | response];
    cbn [control].
  - destruct (existsb (String.eqb value) [ "age"; "income" ]) eqn:E;
      cbn [fst snd]; (split; [|constructor]); [|split; assumption].
    apply existsb_eqb_In in E. split; [exact E | left; reflexivity].
  - destruct (existsb (String.eqb value) (valueOptions data c)) eqn:E;
      cbn [fst snd]; (split; [|constructor]); [|split; assumption].
    apply existsb_eqb_In in E. split; [exact Htype | exact E].
  - destruct (negb (JS.truthyStr (conditionValue c)) || loading c) eqn:E;
      cbn [fst snd]; [split; [split; assumption | constructor]|].
    destruct selectedLocation as [location |]; cbn [fst snd];
      [|split; [split; assumption | constructor]].
    split; [split; assumption|].
    apply orb_false_iff in E. destruct E as [E _].
    apply negb_false_iff in E. unfold JS.truthyStr in E.
    apply negb_true_iff, String.eqb_neq in E.
    constructor; [|constructor]. split; [exact E|].
    cbn [condition_type condition_value].
    unfold valueOptions in Hvalue.
    destruct Hvalue as [Hempty | Hvalue]; [congruence|].
    destruct (String.eqb_spec (conditionType c) "age") as [Hage | Hother].
    + left. split; assumption.
    + right. destruct Htype as [Hage | [Hincome | []]];
        [congruence | split; [symmetry; exact Hincome | exact Hvalue]].
  - destruct (loading c); cbn [fst snd];
      (split; [split; assumption | constructor]).
Qed.

(** X17. Every request the conditional controls of the joint chart post,
    through any sequence of selections, clicks and settled requests for
    the same joint data, conditions on a non-empty category of the
    marginal that its condition type names: an age range for a condition
    on age, an income bracket for a condition on income.  Without a
    selected location nothing is posted. *)
Theorem conditional_requests_well_paired :
  forall events : list ControlEvent,
    Forall (fun r =>
              condition_value r <> "" /\
              ((condition_type r = "age" /\
                In (condition_value r) (ageOptions data)) \/
               (condition_type r = "income" /\
                In (condition_value r) (incomeOptions data))))
           (snd (controls data selectedLocation events initialControls)) /\
    (selectedLocation = None ->
     snd (controls data selectedLocation events initialControls) = []).
Proof.
  intro events.
  assert (Hinitial : offered data initialControls).
  { split; [left; reflexivity | left; reflexivity]. }
  revert Hinitial. generalize initialControls as c.
  induction events as [| e rest IH]; intros c Hc.
  - split; [constructor | reflexivity].
  - cbn [controls].
    destruct (control_offered e c Hc) as [Hc1 Hrequests1].
    assert (Hnone : selectedLocation = None ->
                    snd (control data selectedLocation e c) = []).
    { intro Hloc. destruct e as [value | value | | response]; cbn [control].
      - destruct (existsb _ _); reflexivity.
      - destruct (existsb _ _); reflexivity.
      - rewrite Hloc. destruct (_ || _); reflexivity.
      - destruct (loading c); reflexivity. }
    destruct (control data selectedLocation e c) as [c1 requests1].
    cbn [fst snd] in *. destruct (IH c1 Hc1) as [Hrequests2 Hnone2].
    destruct (controls data selectedLocation rest c1) as [c2 requests2].
    cbn [fst snd] in *. split.
    + apply Forall_app. split; assumption.
    + intro Hloc. rewrite (Hnone Hloc), (Hnone2 Hloc). reflexivity.
Qed.

End ConditionalControls.

(** A session on the survey marginals: an age range, then, after the
    switch to income, an income bracket. *)
Lemma survey_conditional_requests :
  map (fun r => (App.condition_type r, App.condition_value r))
      (snd (App.controls Examples.surveyData (Some Examples.mapPoint)
              [ App.ChangeValue "Under 25 years"; App.ClickShow;
                App.ChangeValue "$200,000 or more"; App.Settled None;
                App.ChangeType "income"; App.ClickShow;
                App.ChangeValue "Undisclosed"; App.ClickShow ]
              App.initialControls))
  = [ ("age", "Under 25 years"); ("income", "Undisclosed") ] /\
  Forall (fun r => App.condition_value r <> "")
         (snd (App.controls Examples.surveyData (Some Examples.mapPoint)
                 [ App.ChangeValue "Under 25 years"; App.ClickShow;
                   App.ChangeValue "$200,000 or more"; App.Settled None;
                   App.ChangeType "income"; App.ClickShow;
                   App.ChangeValue "Undisclosed"; App.ClickShow ]
                 App.initialControls)).
Proof.
  split; [reflexivity|].
  eapply Forall_impl;
    [|apply (conditional_requests_well_paired
               Examples.surveyData (Some Examples.mapPoint))].
  intros r Hr. apply Hr.
Defined.
